(** * IP-Freely main window: connection life cycle, poll loop, frame
      composition and motion-region editing

    A shallow embedding of [Source/IpFreelyMainWindow.cpp].  The member
    variables of [IpFreelyMainWindow] become the fields of one record that is
    threaded through every handler; the Qt value types the code computes with
    ([QRect], [QSize], [QImage], [QToolButton]) are modelled after the Qt 5
    documentation, and C++ [double] arithmetic is IEEE 754 binary64 as
    specified by the Standard Library's [SpecFloat].  An [int] is an integer
    of [Z]: the file adds and subtracts small constants on counters and pixel
    coordinates only, and the conversions from [double] check the range.
    What the environment decides (whether a stream processor can be built,
    what it reports at a poll, how a question is answered) is an argument of
    the handler it reaches. *)

From stdpp Require Import gmap strings list fin_maps.
From Stdlib Require Import ZArith Floats.SpecFloat.

Local Open Scope string_scope.
Local Open Scope Z_scope.

(** ** C++ [double] and the conversions the file uses *)

Module Double.

Definition prec : Z := 53.
Definition emax : Z := 1024.

Definition double : Type := spec_float.

(** [static_cast<double>(n)] for an [int] [n]; exact, since every 32-bit
    integer fits the 53-bit significand. *)
Definition of_int (n : Z) : double := binary_normalize prec emax n 0 false.

Definition div (a b : double) : double := SFdiv prec emax a b.
Definition mul (a b : double) : double := SFmul prec emax a b.
Definition ltb (a b : double) : bool := SFltb a b.

Definition one : double := of_int 1.

Definition INT_MIN : Z := -2147483648.
Definition INT_MAX : Z := 2147483647.

(** [static_cast<int>(d)]: truncation toward zero.  For NaN, the infinities
    and values outside the range of [int] the conversion is undefined in
    C++; the value x86-64 delivers there ([INT_MIN]) is used. *)
Definition to_int (d : double) : Z :=
  match d with
  | S754_zero _ => 0
  | S754_finite s m e =>
      let a := if 0 <=? e then Z.pos m * 2 ^ e else Z.pos m / 2 ^ (- e) in
      let v := if s then - a else a in
      if (INT_MIN <=? v) && (v <=? INT_MAX) then v else INT_MIN
  | S754_infinity _ | S754_nan => INT_MIN
  end.

End Double.

(** ** The Qt value types *)

Module Qt.

(** [QRect] stores its corners, as Qt does: [right() = left() + width() - 1]
    and [bottom() = top() + height() - 1]. *)
Record QRect := MkRect { x1 : Z; y1 : Z; x2 : Z; y2 : Z }.

(** [QRect(x, y, w, h)] *)
Definition rect (x y w h : Z) : QRect := MkRect x y (x + w - 1) (y + h - 1).
(** [QRect()], the null rectangle *)
Definition nullRect : QRect := MkRect 0 0 (-1) (-1).

Definition left (r : QRect) : Z := x1 r.
Definition top (r : QRect) : Z := y1 r.
Definition right (r : QRect) : Z := x2 r.
Definition bottom (r : QRect) : Z := y2 r.
Definition rwidth (r : QRect) : Z := x2 r - x1 r + 1.
Definition rheight (r : QRect) : Z := y2 r - y1 r + 1.

Definition setTop (t : Z) (r : QRect) : QRect := MkRect (x1 r) t (x2 r) (y2 r).
Definition setLeft (l : Z) (r : QRect) : QRect := MkRect l (y1 r) (x2 r) (y2 r).
Definition setRight (x : Z) (r : QRect) : QRect := MkRect (x1 r) (y1 r) x (y2 r).
Definition setBottom (y : Z) (r : QRect) : QRect := MkRect (x1 r) (y1 r) (x2 r) y.

(** [isNull]: width and height are both 0. *)
Definition isNull (r : QRect) : bool :=
  (x2 r =? x1 r - 1) && (y2 r =? y1 r - 1).

(** [QRect::intersects], following the normalisation Qt applies to
    rectangles whose corners are swapped. *)
Definition intersects (a b : QRect) : bool :=
  if isNull a || isNull b then false
  else
    let l1 := if x2 a <? x1 a - 1 then x2 a + 1 else x1 a in
    let r1 := if x2 a <? x1 a - 1 then x1 a - 1 else x2 a in
    let l2 := if x2 b <? x1 b - 1 then x2 b + 1 else x1 b in
    let r2 := if x2 b <? x1 b - 1 then x1 b - 1 else x2 b in
    if (r2 <? l1) || (r1 <? l2) then false
    else
      let t1 := if y2 a <? y1 a - 1 then y2 a + 1 else y1 a in
      let b1 := if y2 a <? y1 a - 1 then y1 a - 1 else y2 a in
      let t2 := if y2 b <? y1 b - 1 then y2 b + 1 else y1 b in
      let b2 := if y2 b <? y1 b - 1 then y1 b - 1 else y2 b in
      if (b2 <? t1) || (b1 <? t2) then false else true.

(** [QRectF], as delivered by the drag selection: fractions of the widget. *)
Record QRectF := MkRectF
  { fx : Double.double; fy : Double.double;
    fw : Double.double; fh : Double.double }.

Record QSize := MkSize { wd : Z; ht : Z }.

(** [QSize::scaled(s, Qt::KeepAspectRatio)]: the largest size of this
    size's aspect ratio that fits inside [s]; the quotients are integer
    divisions of non-negative 64-bit values. *)
Definition size_scaled_keep (sz s : QSize) : QSize :=
  if (wd sz =? 0) || (ht sz =? 0) then s
  else
    let rw := Z.quot (ht s * wd sz) (ht sz) in
    if rw <=? wd s then MkSize rw (ht s)
    else MkSize (wd s) (Z.quot (wd s * ht sz) (wd sz)).

Inductive GlobalColor := cyan | red | green | white.

(** A pen: colour and width. *)
Record QPen := MkPen { pen_color : GlobalColor; pen_width : Z }.

(** What a painter was asked to put on an image.  The brush and the
    background settings that accompany each call in the source do not
    change where anything is drawn and are not recorded. *)
Inductive PaintOp :=
| DrawRect (pen : QPen) (r : QRect)
| DrawText (pen : QPen) (r : QRect) (text : string).

(** The pixels of an image are opaque; what is kept is where they came
    from: a frame handed over by the stream processor, a smooth rescale of
    other pixels, or other pixels with paint operations on top. *)
Inductive Pixels :=
| Captured (serial : nat)
| SmoothScaled (src : Pixels) (w h : Z)
| Painted (src : Pixels) (ops : list PaintOp).

Record QImage := MkImage { iwidth : Z; iheight : Z; pixels : Pixels }.

(** [QImage()], the null image. *)
Definition nullImage : QImage := MkImage 0 0 (Captured 0).
Definition imageIsNull (i : QImage) : bool := (iwidth i <=? 0) || (iheight i <=? 0).
(** [QImage::rect()] *)
Definition imageRect (i : QImage) : QRect := rect 0 0 (iwidth i) (iheight i).

(** [QImage::scaled(w, h, Qt::KeepAspectRatio, Qt::SmoothTransformation)]:
    a null image for a null source or an empty target size, the image
    itself when the size does not change, otherwise a transformed copy of
    the size [QSize::scaled] gives, at least 1x1. *)
Definition scaled (i : QImage) (w h : Z) : QImage :=
  if imageIsNull i then nullImage
  else if (w <? 1) || (h <? 1) then nullImage
  else
    let ns := size_scaled_keep (MkSize (iwidth i) (iheight i)) (MkSize w h) in
    let nw := Z.max (wd ns) 1 in
    let nh := Z.max (ht ns) 1 in
    if (nw =? iwidth i) && (nh =? iheight i) then i
    else MkImage nw nh (SmoothScaled (pixels i) nw nh).

(** A [QPainter] opened on an image paints only if the image is not null;
    on a null image [begin] fails and every draw call is ignored.  The
    painter works on the image it was given, never on the image that one
    was copied from. *)
Definition paint (i : QImage) (ops : list PaintOp) : QImage :=
  if imageIsNull i then i
  else MkImage (iwidth i) (iheight i) (Painted (pixels i) ops).

(** A tool button, with the properties the window reads and writes. *)
Record QToolButton := MkButton
  { enabled : bool; visible : bool; checkable : bool; checked : bool;
    icon : string; toolTip : string }.

Definition setEnabled (b : bool) (w : QToolButton) : QToolButton :=
  MkButton b (visible w) (checkable w) (checked w) (icon w) (toolTip w).
Definition setVisible (b : bool) (w : QToolButton) : QToolButton :=
  MkButton (enabled w) b (checkable w) (checked w) (icon w) (toolTip w).
Definition setIcon (i : string) (w : QToolButton) : QToolButton :=
  MkButton (enabled w) (visible w) (checkable w) (checked w) i (toolTip w).
Definition setToolTip (t : string) (w : QToolButton) : QToolButton :=
  MkButton (enabled w) (visible w) (checkable w) (checked w) (icon w) t.

(** [QAbstractButton::setChecked]: nothing happens on a button that is not
    checkable or already in the requested state; otherwise the state
    changes and [toggled] is emitted.  The result pairs the button with
    the signal to deliver, if any. *)
Definition setChecked (b : bool) (w : QToolButton) : QToolButton * option bool :=
  if negb (checkable w) || eqb (checked w) b then (w, None)
  else (MkButton (enabled w) (visible w) (checkable w) b (icon w) (toolTip w),
        Some b).

End Qt.

(** ** Camera identifiers, camera records and the collaborators *)

(** [ipfreely::eCamId].  The poll loop walks [std::map]s in ascending key
    order; the order of the enumerators below is the one used for that. *)
Inductive eCamId := noCam | cam1 | cam2 | cam3 | cam4.

#[global] Instance eCamId_eq_dec : EqDecision eCamId.
Proof. solve_decision. Defined.

Definition eCamId_to_nat (c : eCamId) : nat :=
  match c with noCam => 0 | cam1 => 1 | cam2 => 2 | cam3 => 3 | cam4 => 4 end%nat.

Definition eCamId_of_nat (n : nat) : eCamId :=
  match n with
  | 1 => cam1 | 2 => cam2 | 3 => cam3 | 4 => cam4 | _ => noCam
  end%nat.

#[global] Instance eCamId_countable : Countable eCamId.
Proof. by apply (inj_countable' eCamId_to_nat eCamId_of_nat); intros []. Defined.

(** The four display slots: the suffix 1..4 of the widget and handler names
    ([cam1ConnectToolButton], [on_connect1ToolButton_clicked], ...). *)
Inductive Slot := slot1 | slot2 | slot3 | slot4.

(** The camera identifier each slot's handlers are written for. *)
Definition slotCam (s : Slot) : eCamId :=
  match s with slot1 => cam1 | slot2 => cam2 | slot3 => cam3 | slot4 => cam4 end.

(** [IpCamera::point_t], [region_t], [regions_t]: a region is the pair of its
    left-top corner and its width-height, all fractions of the frame. *)
Abbreviation point_t := (Double.double * Double.double)%type (only parsing).
Abbreviation region_t := (point_t * point_t)%type (only parsing).
Abbreviation regions_t := (list region_t) (only parsing).

(** The fields of [ipfreely::IpCamera] other than its identifier. *)
Record CameraSettings := MkSettings
  { streamUrl : string;
    description : string;
    storageHttpUrl : string;
    enableScheduledRecording : bool;
    enabledMotionRecording : bool;
    motionRegions : regions_t }.

(** [ipfreely::IpCamera] *)
Record IpCamera := MkCamera { camId : eCamId; settings : CameraSettings }.

Definition with_motionRegions (rs : regions_t) (c : IpCamera) : IpCamera :=
  MkCamera (camId c)
    (MkSettings (streamUrl (settings c)) (description (settings c))
       (storageHttpUrl (settings c)) (enableScheduledRecording (settings c))
       (enabledMotionRecording (settings c)) rs).

(** Modelled from the spec: the camera configuration store
    ([IpFreelyCameraDatabase], held in [m_camDb]) is not part of the source
    file.  It is a store keyed by camera identifier with [exists], [find],
    [update], [remove] and [save]; [stored] is what the last [save] wrote. *)
Record CameraDatabase := MkDb
  { cameras : gmap eCamId CameraSettings;
    stored : gmap eCamId CameraSettings }.

Definition DoesCameraExist (id : eCamId) (db : CameraDatabase) : bool :=
  bool_decide (is_Some (cameras db !! id)).
Definition FindCamera (id : eCamId) (db : CameraDatabase) : option IpCamera :=
  MkCamera id <$> cameras db !! id.
Definition UpdateCamera (c : IpCamera) (db : CameraDatabase) : CameraDatabase :=
  MkDb (<[camId c := settings c]> (cameras db)) (stored db).
Definition RemoveCamera (id : eCamId) (db : CameraDatabase) : CameraDatabase :=
  MkDb (delete id (cameras db)) (stored db).
Definition Save (db : CameraDatabase) : CameraDatabase :=
  MkDb (cameras db) (cameras db).

(** The persisted motion regions of a camera: what the store holds on disk. *)
Definition persistedRegions (id : eCamId) (db : CameraDatabase) : option regions_t :=
  motionRegions <$> stored db !! id.

(** A schedule of the preferences; the window only copies and clears it. *)
Definition schedule_t : Type := list (list bool).

(** The preferences ([m_prefs]) the connection handler reads. *)
Record Preferences := MkPrefs
  { SaveFolderPath : string;
    FileDurationInSecs : Z;
    RecordingSchedule : schedule_t;
    MotionTrackingSchedule : schedule_t }.

(** [bfs::system_complete(p).string()] (lines 1116-1117 and 1136): the path
    [p] made absolute by the operating system against the current directory
    of the process.  Neither the rule nor that directory is in the source
    file, and the window never changes the directory; the result is kept as
    the completion of the path it was computed from. *)
Inductive CompletePath := system_complete (p : string).

(** An [IpFreelyStreamProcessor] as the window knows it: the arguments it
    was constructed with.  What it captures afterwards is the environment's
    business and reaches the window as a [FeedReport] at every poll. *)
Record StreamProcessor := MkProcessor
  { sp_name : string;
    sp_camera : IpCamera;
    sp_saveFolder : CompletePath;
    sp_fileDuration : Z;
    sp_schedule : schedule_t;
    sp_motionSchedule : schedule_t }.

(** What the accessors of a stream processor return during one poll. *)
Record FeedReport := MkReport
  { VideoFrameUpdated : bool;
    CurrentVideoFrame : Qt.QImage;
    motionBoundingRect : Qt.QRect;
    OriginalFps : Double.double;
    CurrentFps : Double.double;
    VideoWritingEnabled : bool }.

(** How the [try] block of the connection handler ends: the processor is
    built, or an exception with the given message is thrown. *)
Inductive Construction := Built | Throws (what : string).

(** An [IpFreelyVideoFrame] widget: its camera number, the size the layout
    gives it, whether it accepts a drag selection, and the frames passed to
    [SetVideoFrame], latest first. *)
Record VideoFrame := MkFeed
  { vf_cameraId : Z;
    vf_width : Z;
    vf_height : Z;
    vf_enableSelection : bool;
    vf_frames : list Qt.QImage }.

Definition SetEnableSelection (b : bool) (f : VideoFrame) : VideoFrame :=
  MkFeed (vf_cameraId f) (vf_width f) (vf_height f) b (vf_frames f).
Definition SetVideoFrame (i : Qt.QImage) (f : VideoFrame) : VideoFrame :=
  MkFeed (vf_cameraId f) (vf_width f) (vf_height f) (vf_enableSelection f)
    (i :: vf_frames f).

(** The expanded single-camera form ([m_videoForm]). *)
Record VideoFormCall := MkFormCall
  { fc_frame : Qt.QImage; fc_fps : Double.double; fc_originalFps : Double.double;
    fc_motionRect : Qt.QRect; fc_recording : bool; fc_regions : regions_t }.

Record VideoForm := MkForm
  { form_visible : bool; form_title : string; form_calls : list VideoFormCall }.

(** The title of a camera group box: plain text, or the two frame rates the
    poll loop puts there. *)
Inductive Title :=
| PlainTitle (s : string)
| FpsTitle (camera : string) (fps originalFps : Double.double).

(** The widgets of one slot. *)
Record SlotUi := MkSlotUi
  { connectBtn : Qt.QToolButton;
    motionRegionsBtn : Qt.QToolButton;
    removeRegionsBtn : Qt.QToolButton;
    recordBtn : Qt.QToolButton;
    snapshotBtn : Qt.QToolButton;
    expandBtn : Qt.QToolButton;
    storageBtn : Qt.QToolButton;
    groupBoxTitle : Title;
    groupBoxToolTip : string;
    camWidgetSize : Qt.QSize }.

Record Ui := MkUi { ui1 : SlotUi; ui2 : SlotUi; ui3 : SlotUi; ui4 : SlotUi }.

Definition slotUi (s : Slot) (u : Ui) : SlotUi :=
  match s with slot1 => ui1 u | slot2 => ui2 u | slot3 => ui3 u | slot4 => ui4 u end.

Definition setSlotUi (s : Slot) (w : SlotUi) (u : Ui) : Ui :=
  match s with
  | slot1 => MkUi w (ui2 u) (ui3 u) (ui4 u)
  | slot2 => MkUi (ui1 u) w (ui3 u) (ui4 u)
  | slot3 => MkUi (ui1 u) (ui2 u) w (ui4 u)
  | slot4 => MkUi (ui1 u) (ui2 u) (ui3 u) w
  end.

(** The buttons a handler receives as arguments. *)
Inductive ButtonId :=
  ConnectBtn | MotionRegionsBtn | RemoveRegionsBtn | RecordBtn | SnapshotBtn
| ExpandBtn | StorageBtn.

Definition button (b : ButtonId) (w : SlotUi) : Qt.QToolButton :=
  match b with
  | ConnectBtn => connectBtn w
  | MotionRegionsBtn => motionRegionsBtn w
  | RemoveRegionsBtn => removeRegionsBtn w
  | RecordBtn => recordBtn w
  | SnapshotBtn => snapshotBtn w
  | ExpandBtn => expandBtn w
  | StorageBtn => storageBtn w
  end.

Definition setButton (b : ButtonId) (q : Qt.QToolButton) (w : SlotUi) : SlotUi :=
  match b with
  | ConnectBtn =>
      MkSlotUi q (motionRegionsBtn w) (removeRegionsBtn w) (recordBtn w) (snapshotBtn w)
        (expandBtn w) (storageBtn w) (groupBoxTitle w) (groupBoxToolTip w) (camWidgetSize w)
  | MotionRegionsBtn =>
      MkSlotUi (connectBtn w) q (removeRegionsBtn w) (recordBtn w) (snapshotBtn w)
        (expandBtn w) (storageBtn w) (groupBoxTitle w) (groupBoxToolTip w) (camWidgetSize w)
  | RemoveRegionsBtn =>
      MkSlotUi (connectBtn w) (motionRegionsBtn w) q (recordBtn w) (snapshotBtn w)
        (expandBtn w) (storageBtn w) (groupBoxTitle w) (groupBoxToolTip w) (camWidgetSize w)
  | RecordBtn =>
      MkSlotUi (connectBtn w) (motionRegionsBtn w) (removeRegionsBtn w) q (snapshotBtn w)
        (expandBtn w) (storageBtn w) (groupBoxTitle w) (groupBoxToolTip w) (camWidgetSize w)
  | SnapshotBtn =>
      MkSlotUi (connectBtn w) (motionRegionsBtn w) (removeRegionsBtn w) (recordBtn w) q
        (expandBtn w) (storageBtn w) (groupBoxTitle w) (groupBoxToolTip w) (camWidgetSize w)
  | ExpandBtn =>
      MkSlotUi (connectBtn w) (motionRegionsBtn w) (removeRegionsBtn w) (recordBtn w)
        (snapshotBtn w) q (storageBtn w) (groupBoxTitle w) (groupBoxToolTip w)
        (camWidgetSize w)
  | StorageBtn =>
      MkSlotUi (connectBtn w) (motionRegionsBtn w) (removeRegionsBtn w) (recordBtn w)
        (snapshotBtn w) (expandBtn w) q (groupBoxTitle w) (groupBoxToolTip w)
        (camWidgetSize w)
  end.

Definition setGroupBox (t : Title) (tip : string) (w : SlotUi) : SlotUi :=
  MkSlotUi (connectBtn w) (motionRegionsBtn w) (removeRegionsBtn w) (recordBtn w)
    (snapshotBtn w) (expandBtn w) (storageBtn w) t tip (camWidgetSize w).

(** ** The main window *)

Record MainWindow := MkWindow
  { ui : Ui;
    m_prefs : Preferences;
    m_camDb : CameraDatabase;
    timerActive : bool;            (* m_updateFeedsTimer->isActive() *)
    m_numConnections : Z;
    m_streamProcessors : gmap eCamId StreamProcessor;
    m_camFeeds : gmap eCamId VideoFrame;
    m_camMotionRegions : gmap eCamId regions_t;
    m_motionAreaSetupEnabled : gmap eCamId bool;
    m_videoForm : VideoForm;
    m_videoFormId : eCamId;
    errorBoxes : list string       (* QMessageBox::critical texts, latest first *) }.

Definition set_ui (x : Ui) (w : MainWindow) : MainWindow :=
  MkWindow x (m_prefs w) (m_camDb w) (timerActive w) (m_numConnections w)
    (m_streamProcessors w) (m_camFeeds w) (m_camMotionRegions w)
    (m_motionAreaSetupEnabled w) (m_videoForm w) (m_videoFormId w) (errorBoxes w).
Definition set_camDb (x : CameraDatabase) (w : MainWindow) : MainWindow :=
  MkWindow (ui w) (m_prefs w) x (timerActive w) (m_numConnections w)
    (m_streamProcessors w) (m_camFeeds w) (m_camMotionRegions w)
    (m_motionAreaSetupEnabled w) (m_videoForm w) (m_videoFormId w) (errorBoxes w).
Definition set_timerActive (x : bool) (w : MainWindow) : MainWindow :=
  MkWindow (ui w) (m_prefs w) (m_camDb w) x (m_numConnections w)
    (m_streamProcessors w) (m_camFeeds w) (m_camMotionRegions w)
    (m_motionAreaSetupEnabled w) (m_videoForm w) (m_videoFormId w) (errorBoxes w).
Definition set_numConnections (x : Z) (w : MainWindow) : MainWindow :=
  MkWindow (ui w) (m_prefs w) (m_camDb w) (timerActive w) x
    (m_streamProcessors w) (m_camFeeds w) (m_camMotionRegions w)
    (m_motionAreaSetupEnabled w) (m_videoForm w) (m_videoFormId w) (errorBoxes w).
Definition set_streamProcessors (x : gmap eCamId StreamProcessor) (w : MainWindow)
  : MainWindow :=
  MkWindow (ui w) (m_prefs w) (m_camDb w) (timerActive w) (m_numConnections w)
    x (m_camFeeds w) (m_camMotionRegions w)
    (m_motionAreaSetupEnabled w) (m_videoForm w) (m_videoFormId w) (errorBoxes w).
Definition set_camFeeds (x : gmap eCamId VideoFrame) (w : MainWindow) : MainWindow :=
  MkWindow (ui w) (m_prefs w) (m_camDb w) (timerActive w) (m_numConnections w)
    (m_streamProcessors w) x (m_camMotionRegions w)
    (m_motionAreaSetupEnabled w) (m_videoForm w) (m_videoFormId w) (errorBoxes w).
Definition set_camMotionRegions (x : gmap eCamId regions_t) (w : MainWindow)
  : MainWindow :=
  MkWindow (ui w) (m_prefs w) (m_camDb w) (timerActive w) (m_numConnections w)
    (m_streamProcessors w) (m_camFeeds w) x
    (m_motionAreaSetupEnabled w) (m_videoForm w) (m_videoFormId w) (errorBoxes w).
Definition set_motionAreaSetupEnabled (x : gmap eCamId bool) (w : MainWindow)
  : MainWindow :=
  MkWindow (ui w) (m_prefs w) (m_camDb w) (timerActive w) (m_numConnections w)
    (m_streamProcessors w) (m_camFeeds w) (m_camMotionRegions w)
    x (m_videoForm w) (m_videoFormId w) (errorBoxes w).
Definition set_videoForm (x : VideoForm) (w : MainWindow) : MainWindow :=
  MkWindow (ui w) (m_prefs w) (m_camDb w) (timerActive w) (m_numConnections w)
    (m_streamProcessors w) (m_camFeeds w) (m_camMotionRegions w)
    (m_motionAreaSetupEnabled w) x (m_videoFormId w) (errorBoxes w).
Definition set_videoFormId (x : eCamId) (w : MainWindow) : MainWindow :=
  MkWindow (ui w) (m_prefs w) (m_camDb w) (timerActive w) (m_numConnections w)
    (m_streamProcessors w) (m_camFeeds w) (m_camMotionRegions w)
    (m_motionAreaSetupEnabled w) (m_videoForm w) x (errorBoxes w).
Definition set_errorBoxes (x : list string) (w : MainWindow) : MainWindow :=
  MkWindow (ui w) (m_prefs w) (m_camDb w) (timerActive w) (m_numConnections w)
    (m_streamProcessors w) (m_camFeeds w) (m_camMotionRegions w)
    (m_motionAreaSetupEnabled w) (m_videoForm w) (m_videoFormId w) x.

(** Apply [f] to one button of one slot. *)
Definition onButton (s : Slot) (b : ButtonId) (f : Qt.QToolButton → Qt.QToolButton)
    (w : MainWindow) : MainWindow :=
  set_ui (setSlotUi s (setButton b (f (button b (slotUi s (ui w)))) (slotUi s (ui w)))
            (ui w)) w.

(** [std::map::operator[]] used for reading: the value, and the map with a
    value-initialised entry added when the key was absent. *)
Definition subscript {V} (dflt : V) (k : eCamId) (m : gmap eCamId V) : V * gmap eCamId V :=
  match m !! k with
  | Some v => (v, m)
  | None => (dflt, <[k := dflt]> m)
  end.

Definition DEFAULT_UPDATE_PERIOD_MS : Z := 100.

(** The slot whose camera widget and group box the [switch] statements on a
    camera identifier select; none for [noCam]. *)
Definition camSlot (c : eCamId) : option Slot :=
  match c with
  | cam1 => Some slot1 | cam2 => Some slot2 | cam3 => Some slot3 | cam4 => Some slot4
  | noCam => None
  end.

Definition onSlotUi (s : Slot) (f : SlotUi → SlotUi) (w : MainWindow) : MainWindow :=
  set_ui (setSlotUi s (f (slotUi s (ui w))) (ui w)) w.

Definition onCamSlotUi (c : eCamId) (f : SlotUi → SlotUi) (w : MainWindow) : MainWindow :=
  match camSlot c with
  | Some s => onSlotUi s f w
  | None => w
  end.

(** [IpFreelyMainWindow::EnableMotionRegionsSetup] (lines 1532-1567).  The two
    buttons are given by the slot they belong to and their role. *)
Definition EnableMotionRegionsSetup (c : eCamId) (enable : bool) (s : Slot)
    (removeRegionsB setMotionRegionsB : ButtonId) (w : MainWindow) : MainWindow :=
  let w := onButton s removeRegionsB (Qt.setVisible enable) w in
  match m_camFeeds w !! c with
  | None => w
  | Some feed =>
      let w := set_camFeeds (<[c := SetEnableSelection enable feed]> (m_camFeeds w)) w in
      if enable then
        let w :=
          match FindCamera c (m_camDb w) with
          | Some camera =>
              let w := set_camMotionRegions
                         (<[c := motionRegions (settings camera)]> (m_camMotionRegions w)) w in
              set_motionAreaSetupEnabled (<[c := true]> (m_motionAreaSetupEnabled w)) w
          | None => w
          end in
        (* signals are blocked around setChecked(true): no [toggled] *)
        onButton s setMotionRegionsB (λ q, fst (Qt.setChecked true q)) w
      else
        let w := set_camMotionRegions (delete c (m_camMotionRegions w)) w in
        set_motionAreaSetupEnabled (delete c (m_motionAreaSetupEnabled w)) w
  end.

(** [on_motionDetectorRegions1ToolButton_toggled] and its three siblings
    (lines 249-255, 332-338, 415-421, 498-504); both button arguments are the
    remove-regions button, as in the source. *)
Definition on_motionDetectorRegionsToolButton_toggled (s : Slot) (checked : bool)
    (w : MainWindow) : MainWindow :=
  EnableMotionRegionsSetup (slotCam s) checked s RemoveRegionsBtn RemoveRegionsBtn w.

(** [setChecked] on the motion-regions button of a slot, with the [toggled]
    signal delivered to the slot connected in [ConnectButtons]. *)
Definition motionRegionsBtn_setChecked (s : Slot) (b : bool) (w : MainWindow)
  : MainWindow :=
  let r := Qt.setChecked b (motionRegionsBtn (slotUi s (ui w))) in
  let w := onButton s MotionRegionsBtn (λ _, fst r) w in
  match snd r with
  | Some v => on_motionDetectorRegionsToolButton_toggled s v w
  | None => w
  end.

Definition camName (c : eCamId) : string :=
  match c with
  | cam1 => "Camera1" | cam2 => "Camera2" | cam3 => "Camera3" | cam4 => "Camera4"
  | noCam => ""
  end.

Definition cameraNumber (c : eCamId) : Z :=
  match c with cam1 => 1 | cam2 => 2 | cam3 => 3 | cam4 => 4 | noCam => 0 end.

Definition disconnectedTitle (c : eCamId) : string :=
  match c with
  | cam1 => "Camera 1" | cam2 => "Camera 2" | cam3 => "Camera 3" | cam4 => "Camera 4"
  | noCam => ""
  end.

Definition ICON_CONNECT : string := ":/icons/icons/WallCam_Connect_48.png".
Definition ICON_DISCONNECT : string := ":/icons/icons/WallCam_Disconnect_48.png".
Definition ICON_RECORD : string := ":/icons/icons/Record-48.png".

(** [m_videoForm->close()] *)
Definition closeForm (f : VideoForm) : VideoForm :=
  MkForm false (form_title f) (form_calls f).

(** The size the layout of a slot's camera widget gives to a feed added to
    it; a widget outside every layout keeps Qt's default child geometry. *)
Definition feedSizeFor (c : eCamId) (w : MainWindow) : Qt.QSize :=
  match camSlot c with
  | Some s => camWidgetSize (slotUi s (ui w))
  | None => Qt.MkSize 100 30
  end.

(** Lines 1027-1031: the expanded form is closed when it shows this camera. *)
Definition closeFormOf (c : eCamId) (w : MainWindow) : MainWindow :=
  if form_visible (m_videoForm w) && bool_decide (m_videoFormId w = c)
  then set_videoFormId noCam (set_videoForm (closeForm (m_videoForm w)) w)
  else w.

(** Lines 1033-1035: the three [erase] calls. *)
Definition eraseCamera (c : eCamId) (w : MainWindow) : MainWindow :=
  let w := set_streamProcessors (delete c (m_streamProcessors w)) w in
  let w := set_camFeeds (delete c (m_camFeeds w)) w in
  set_camMotionRegions (delete c (m_camMotionRegions w)) w.

(** Lines 1037-1062: the group box of the camera says it is not connected. *)
Definition resetGroupBox (c : eCamId) (w : MainWindow) : MainWindow :=
  onCamSlotUi c (setGroupBox (PlainTitle (disconnectedTitle c)) "Not connected") w.

(** Lines 1064-1076: the buttons of slot [s] go back to their disconnected
    looks. *)
Definition resetButtons (s : Slot) (w : MainWindow) : MainWindow :=
  let w := onButton s ConnectBtn (Qt.setIcon ICON_CONNECT) w in
  let w := onButton s ConnectBtn (Qt.setToolTip "Connect to camera stream.") w in
  let w := onButton s RecordBtn (Qt.setEnabled false) w in
  let w := onButton s RecordBtn (Qt.setIcon ICON_RECORD) w in
  let w := onButton s RecordBtn (Qt.setToolTip "Record from camera stream.") w in
  let w := onButton s SnapshotBtn (Qt.setEnabled false) w in
  let w := onButton s ExpandBtn (Qt.setEnabled false) w in
  let w := onButton s StorageBtn (Qt.setEnabled false) w in
  let w := onButton s MotionRegionsBtn (Qt.setEnabled false) w in
  let w := motionRegionsBtn_setChecked s false w in
  onButton s RemoveRegionsBtn (Qt.setVisible false) w.

(** Lines 1037-1076. *)
Definition resetWidgets (c : eCamId) (s : Slot) (w : MainWindow) : MainWindow :=
  resetButtons s (resetGroupBox c w).

(** Lines 1078-1079: the region-editing state of the camera is dropped. *)
Definition eraseRegionSetup (c : eCamId) (w : MainWindow) : MainWindow :=
  let w := set_camMotionRegions (delete c (m_camMotionRegions w)) w in
  set_motionAreaSetupEnabled (delete c (m_motionAreaSetupEnabled w)) w.

(** Lines 1081-1084: [if (--m_numConnections > 0)] the timer is started.
    The counter is an [int]; it stays far from the ends of its range. *)
Definition countDown (w : MainWindow) : MainWindow :=
  let n := m_numConnections w - 1 in
  let w := set_numConnections n w in
  if 0 <? n then set_timerActive true w else w.

(** The branch of [ConnectionHandler] taken when the camera has a stream
    processor (lines 1027-1084). *)
Definition disconnectCamera (camera : IpCamera) (s : Slot) (w : MainWindow) : MainWindow :=
  let c := camId camera in
  countDown (eraseRegionSetup c (resetWidgets c s (eraseCamera c (closeFormOf c w)))).

(** Lines 1116-1139: the stream processor the [try] block builds. *)
Definition newStreamProcessor (camera : IpCamera) (prefs : Preferences) : StreamProcessor :=
  let schedule :=
    if enableScheduledRecording (settings camera) then RecordingSchedule prefs else [] in
  let motionSchedule :=
    if enabledMotionRecording (settings camera) then MotionTrackingSchedule prefs else [] in
  MkProcessor (camName (camId camera)) camera (system_complete (SaveFolderPath prefs))
    (FileDurationInSecs prefs) schedule motionSchedule.

(** Lines 1153-1185: a new feed widget in the layout of the camera's slot. *)
Definition addFeed (camera : IpCamera) (w : MainWindow) : MainWindow :=
  let c := camId camera in
  let sz := feedSizeFor c w in
  let feed := MkFeed (cameraNumber c) (Qt.wd sz) (Qt.ht sz) false [] in
  let w := onCamSlotUi c
             (λ u, setGroupBox (groupBoxTitle u) (description (settings camera)) u) w in
  set_camFeeds (<[c := feed]> (m_camFeeds w)) w.

(** Lines 1187-1197: the capture-dependent buttons of slot [s]. *)
Definition enableWidgets (camera : IpCamera) (s : Slot) (w : MainWindow) : MainWindow :=
  let w := onButton s RecordBtn
             (Qt.setEnabled (negb (enableScheduledRecording (settings camera)))) w in
  let w := onButton s RecordBtn (Qt.setIcon ICON_RECORD) w in
  let w := onButton s RecordBtn (Qt.setToolTip "Record from camera stream.") w in
  let w := onButton s SnapshotBtn (Qt.setEnabled true) w in
  let w := onButton s ExpandBtn (Qt.setEnabled true) w in
  let w := onButton s StorageBtn
             (Qt.setEnabled (negb (String.eqb (storageHttpUrl (settings camera)) ""))) w in
  let w := onButton s MotionRegionsBtn (Qt.setEnabled true) w in
  let w := onButton s ConnectBtn (Qt.setIcon ICON_DISCONNECT) w in
  onButton s ConnectBtn (Qt.setToolTip "Disconnect from camera stream.") w.

(** Lines 1199-1201: [++m_numConnections] and the timer is started. *)
Definition countUp (w : MainWindow) : MainWindow :=
  set_timerActive true (set_numConnections (m_numConnections w + 1) w).

(** The branch of [ConnectionHandler] taken when the camera has no stream
    processor (lines 1088-1201); [o] says how the [try] block ends.  When it
    throws, the handler shows the message and returns (lines 1141-1151); the
    map has no new entry then, the right operand of the assignment of line
    1133 being evaluated first. *)
Definition connectCamera (camera : IpCamera) (s : Slot) (o : Construction)
    (w : MainWindow) : MainWindow :=
  match o with
  | Throws what => set_errorBoxes (what :: errorBoxes w) w
  | Built =>
      let sp := newStreamProcessor camera (m_prefs w) in
      let w := set_streamProcessors (<[camId camera := sp]> (m_streamProcessors w)) w in
      countUp (enableWidgets camera s (addFeed camera w))
  end.

(** Lines 1020-1023: the timer is stopped if it runs. *)
Definition stopTimer (w : MainWindow) : MainWindow :=
  if timerActive w then set_timerActive false w else w.

(** [IpFreelyMainWindow::ConnectionHandler] (lines 1014-1203).  The seven
    buttons are those of slot [s]. *)
Definition ConnectionHandler (camera : IpCamera) (s : Slot) (o : Construction)
    (w : MainWindow) : MainWindow :=
  let w := stopTimer w in
  if bool_decide (is_Some (m_streamProcessors w !! camId camera))
  then disconnectCamera camera s w
  else connectCamera camera s o w.

(** [on_connect1ToolButton_clicked] and its three siblings (lines 228-247,
    311-330, 394-413, 477-496). *)
Definition on_connectToolButton_clicked (s : Slot) (o : Construction)
    (w : MainWindow) : MainWindow :=
  match FindCamera (slotCam s) (m_camDb w) with
  | None => w
  | Some camera => ConnectionHandler camera s o w
  end.

(** [IpFreelyMainWindow::ReconnectCamera] (lines 1598-1630); [o1] and [o2]
    say how a construction attempted by the first and by the second click
    ends. *)
Definition ReconnectCamera (c : eCamId) (o1 o2 : Construction) (w : MainWindow)
  : MainWindow :=
  match camSlot c with
  | Some s =>
      let w := on_connectToolButton_clicked s o1 w in
      let w := on_connectToolButton_clicked s o2 w in
      EnableMotionRegionsSetup c true s RemoveRegionsBtn MotionRegionsBtn w
  | None => w
  end.

(** The region a drag selection is stored as (lines 1514-1517). *)
Definition regionOfSelection (sel : Qt.QRectF) : region_t :=
  ((Qt.fx sel, Qt.fy sel), (Qt.fw sel, Qt.fh sel)).

(** Lines 1524-1526 and 1591-1593: the working regions of the camera are
    read with [operator[]], written into the camera record, and the record
    is put into the store and saved. *)
Definition storeWorkingRegions (c : eCamId) (camera : IpCamera) (w : MainWindow)
  : MainWindow :=
  let cur := subscript [] c (m_camMotionRegions w) in
  let w := set_camMotionRegions (snd cur) w in
  let camera := with_motionRegions (fst cur) camera in
  let w := set_camDb (UpdateCamera camera (m_camDb w)) w in
  set_camDb (Save (m_camDb w)) w.

(** Line 1518: [m_camMotionRegions[camId].emplace_back(region)]. *)
Definition appendRegion (c : eCamId) (region : region_t) (w : MainWindow) : MainWindow :=
  let cur := subscript [] c (m_camMotionRegions w) in
  set_camMotionRegions (<[c := (fst cur ++ [region])%list]> (snd cur)) w.

(** Line 1590: [m_camMotionRegions[camId].clear()]. *)
Definition clearRegions (c : eCamId) (w : MainWindow) : MainWindow :=
  let cur := subscript [] c (m_camMotionRegions w) in
  set_camMotionRegions (<[c := []]> (snd cur)) w.

(** [IpFreelyMainWindow::VideoFrameAreaSelection] (lines 1490-1530) *)
Definition VideoFrameAreaSelection (cameraId : Z) (percentageSelection : Qt.QRectF)
    (o1 o2 : Construction) (w : MainWindow) : MainWindow :=
  let target :=
    match cameraId with
    | 1 => Some cam1 | 2 => Some cam2 | 3 => Some cam3 | 4 => Some cam4
    | _ => None
    end in
  match target with
  | None => w
  | Some c =>
      let w := appendRegion c (regionOfSelection percentageSelection) w in
      match FindCamera c (m_camDb w) with
      | Some camera => ReconnectCamera c o1 o2 (storeWorkingRegions c camera w)
      | None => w
      end
  end.

(** The answer to the confirmation question of [RemoveMotionRegions]. *)
Inductive StandardButton := Yes | No.

(** [IpFreelyMainWindow::RemoveMotionRegions] (lines 1569-1596) *)
Definition RemoveMotionRegions (c : eCamId) (answer : StandardButton)
    (o1 o2 : Construction) (w : MainWindow) : MainWindow :=
  match FindCamera c (m_camDb w) with
  | None => w
  | Some camera =>
      match answer with
      | No => w
      | Yes => ReconnectCamera c o1 o2 (storeWorkingRegions c camera (clearRegions c w))
      end
  end.

(** [IpFreelyMainWindow::ShowExpandedVideoForm] (lines 1453-1481) *)
Definition ShowExpandedVideoForm (c : eCamId) (w : MainWindow) : MainWindow :=
  let f := m_videoForm w in
  let f := if form_visible f then closeForm f else f in
  let f :=
    match c with
    | noCam => f
    | _ => MkForm (form_visible f) (disconnectedTitle c) (form_calls f)
    end in
  let w := set_videoFormId c (set_videoForm f w) in
  set_videoForm (MkForm true (form_title f) (form_calls f)) w.

(** ** Frame composition *)

(** Modelled from the spec: [ipfreely::CreateQRectFromVideoFrameDims] is
    declared outside the source file.  A normalized region is converted to
    absolute pixels against the given frame dimensions: each fraction is
    multiplied by the matching dimension and truncated. *)
Definition CreateQRectFromVideoFrameDims (width height : Z) (r : region_t) : Qt.QRect :=
  Qt.rect
    (Double.to_int (Double.mul (Double.of_int width) (fst (fst r))))
    (Double.to_int (Double.mul (Double.of_int height) (snd (fst r))))
    (Double.to_int (Double.mul (Double.of_int width) (fst (snd r))))
    (Double.to_int (Double.mul (Double.of_int height) (snd (snd r)))).

(** The size [newWidth] x [newHeight] computed when the frame does not fit the
    feed (lines 1249-1265). *)
Definition fittedSize (feedW feedH : Z) (videoFrame : Qt.QImage) : Z * Z :=
  let frameAspectRatio :=
    Double.div (Double.of_int (Qt.iwidth videoFrame))
               (Double.of_int (Qt.iheight videoFrame)) in
  let targetAspectRatio := Double.div (Double.of_int feedW) (Double.of_int feedH) in
  if Double.ltb targetAspectRatio frameAspectRatio then
    let newWidth := feedW in
    (newWidth, Double.to_int (Double.div (Double.of_int newWidth) frameAspectRatio))
  else
    let newHeight := feedH in
    (Double.to_int (Double.mul (Double.of_int newHeight) frameAspectRatio), newHeight).

(** The test of line 1246: the frame is wider or taller than the feed. *)
Definition exceedsFeed (feedW feedH : Z) (videoFrame : Qt.QImage) : bool :=
  (feedW <? Qt.iwidth videoFrame) || (feedH <? Qt.iheight videoFrame).

(** [scalar] and [displayFrame] after lines 1243-1275. *)
Definition scaleToFeed (feedW feedH : Z) (videoFrame : Qt.QImage)
  : Double.double * Qt.QImage :=
  if exceedsFeed feedW feedH videoFrame then
    let ns := fittedSize feedW feedH videoFrame in
    (Double.div (Double.of_int (fst ns)) (Double.of_int (Qt.iwidth videoFrame)),
     Qt.scaled videoFrame (fst ns) (snd ns))
  else (Double.one, videoFrame).

(** [rect] after lines 1282-1293. *)
Definition rescaleRect (scalar : Double.double) (motionRect : Qt.QRect) : Qt.QRect :=
  if Qt.isNull motionRect then motionRect
  else
    let sc (v : Z) := Double.to_int (Double.mul (Double.of_int v) scalar) in
    let r := Qt.setTop (sc (Qt.top motionRect)) motionRect in
    let r := Qt.setLeft (sc (Qt.left motionRect)) r in
    let r := Qt.setRight (sc (Qt.right motionRect)) r in
    Qt.setBottom (sc (Qt.bottom motionRect)) r.

(** The user regions in pixels of the displayed frame, in drawing order
    (lines 1305-1316); none unless region editing is on. *)
Definition drawnRegions (displayFrame : Qt.QImage) (motionAreasEnabled : bool)
    (regions : regions_t) : list Qt.QRect :=
  if motionAreasEnabled
  then map (CreateQRectFromVideoFrameDims (Qt.iwidth displayFrame)
              (Qt.iheight displayFrame)) regions
  else [].

(** [intersectsMotionRegion] after the loop of lines 1305-1316. *)
Definition intersectsMotionRegion (rect : Qt.QRect) (rs : list Qt.QRect) : bool :=
  existsb (Qt.intersects rect) rs.

Definition motionPen (hit : bool) : Qt.QPen :=
  Qt.MkPen (if hit then Qt.red else Qt.green) 2.

(** The rectangle the recording label is laid out in (lines 1336-1337). *)
Definition labelRect (displayFrame : Qt.QImage) : Qt.QRect :=
  let posRec := Qt.imageRect displayFrame in
  Qt.setTop (Qt.top posRec + 16) posRec.

(** The calls made on the painter (lines 1295-1339), in order. *)
Definition annotations (displayFrame : Qt.QImage) (rect : Qt.QRect)
    (streamProcIsWriting motionAreasEnabled : bool) (regions : regions_t)
  : list Qt.PaintOp :=
  let rs := drawnRegions displayFrame motionAreasEnabled regions in
  (map (Qt.DrawRect (Qt.MkPen Qt.cyan 2)) rs
   ++ (if Qt.isNull rect then []
       else [Qt.DrawRect (motionPen (intersectsMotionRegion rect rs)) rect])
   ++ (if streamProcIsWriting
       then [Qt.DrawText (Qt.MkPen Qt.red 1) (labelRect displayFrame) "Recording"]
       else []))%list.

(** The frame renderer: everything [UpdateCamFeedFrame] does between finding
    the feed and handing it the frame (lines 1243-1340), for a feed of the
    given size, with the edit flag and the working regions of the camera. *)
Definition composeFrame (feedW feedH : Z) (videoFrame : Qt.QImage)
    (motionRect : Qt.QRect) (streamProcIsWriting motionAreasEnabled : bool)
    (regions : regions_t) : Qt.QImage :=
  let sd := scaleToFeed feedW feedH videoFrame in
  let displayFrame := snd sd in
  if negb (Qt.isNull motionRect) || streamProcIsWriting || motionAreasEnabled then
    Qt.paint displayFrame
      (annotations displayFrame (rescaleRect (fst sd) motionRect)
         streamProcIsWriting motionAreasEnabled regions)
  else displayFrame.

(** [IpFreelyMainWindow::UpdateCamFeedFrame] (lines 1231-1343).  Reading the
    two maps with [operator[]] leaves a value-initialised entry behind. *)
Definition UpdateCamFeedFrame (c : eCamId) (videoFrame : Qt.QImage)
    (motionRect : Qt.QRect) (streamProcIsWriting : bool) (w : MainWindow)
  : MainWindow :=
  match m_camFeeds w !! c with
  | None => w
  | Some feed =>
      let en := subscript false c (m_motionAreaSetupEnabled w) in
      let motionAreasEnabled := fst en in
      let w := set_motionAreaSetupEnabled (snd en) w in
      let rg :=
        if motionAreasEnabled then subscript [] c (m_camMotionRegions w)
        else ([], m_camMotionRegions w) in
      let w := set_camMotionRegions (snd rg) w in
      let displayFrame :=
        composeFrame (vf_width feed) (vf_height feed) videoFrame motionRect
          streamProcIsWriting motionAreasEnabled (fst rg) in
      set_camFeeds (<[c := SetVideoFrame displayFrame feed]> (m_camFeeds w)) w
  end.

(** ** The poll loop *)

Definition fpsTitle (c : eCamId) : string :=
  match c with
  | cam1 => "Camera 1: " | cam2 => "Camera 2: " | cam3 => "Camera 3: "
  | cam4 => "Camera 4: " | noCam => ""
  end.

(** [IpFreelyMainWindow::SetFpsInTitle] (lines 1423-1451) *)
Definition SetFpsInTitle (c : eCamId) (fps originalFps : Double.double)
    (w : MainWindow) : MainWindow :=
  onCamSlotUi c (λ u, setGroupBox (FpsTitle (fpsTitle c) fps originalFps)
                        (groupBoxToolTip u) u) w.

Definition formSetVideoFrame (call : VideoFormCall) (f : VideoForm) : VideoForm :=
  MkForm (form_visible f) (form_title f) (call :: form_calls f).

(** The body of the loop of [on_updateFeedsTimer] for one entry of
    [m_streamProcessors] (lines 544-574); [r] is what the processor of that
    entry answers. *)
Definition pollStreamProcessor (r : FeedReport) (c : eCamId) (w : MainWindow)
  : MainWindow :=
  if VideoFrameUpdated r then
    let w := UpdateCamFeedFrame c (CurrentVideoFrame r) (motionBoundingRect r)
               (VideoWritingEnabled r) w in
    let w := SetFpsInTitle c (CurrentFps r) (OriginalFps r) w in
    if form_visible (m_videoForm w) && bool_decide (m_videoFormId w = c) then
      let en := subscript false c (m_motionAreaSetupEnabled w) in
      let w := set_motionAreaSetupEnabled (snd en) w in
      let rg :=
        if fst en then subscript [] c (m_camMotionRegions w)
        else ([], m_camMotionRegions w) in
      let w := set_camMotionRegions (snd rg) w in
      set_videoForm
        (formSetVideoFrame
           (MkFormCall (CurrentVideoFrame r) (CurrentFps r) (OriginalFps r)
              (motionBoundingRect r) (VideoWritingEnabled r) (fst rg))
           (m_videoForm w)) w
    else w
  else w.

(** The identifiers in ascending order, as a [std::map] is walked. *)
Definition allCamIds : list eCamId := [noCam; cam1; cam2; cam3; cam4].

(** The keys of [m_streamProcessors], in iteration order. *)
Definition streamProcessorKeys (w : MainWindow) : list eCamId :=
  filter (λ c, is_Some (m_streamProcessors w !! c)) allCamIds.

(** [IpFreelyMainWindow::on_updateFeedsTimer] (lines 540-576); [reports]
    gives the answers of each bound stream processor during this tick. *)
Definition pollKeys (reports : eCamId → FeedReport) (keys : list eCamId)
    (w : MainWindow) : MainWindow :=
  foldl (λ w c, pollStreamProcessor (reports c) c w) w keys.

Definition on_updateFeedsTimer (reports : eCamId → FeedReport) (w : MainWindow)
  : MainWindow :=
  pollKeys reports (streamProcessorKeys w) w.

(** ** Start-up state and user events *)

Definition initialButton (en vis chk : bool) (ic tip : string) : Qt.QToolButton :=
  Qt.MkButton en vis chk false ic tip.

(** Modelled from the spec: the form file that creates the widgets is not
    part of the source.  Before any connection a slot has its record,
    snapshot, expand, storage and edit-regions buttons disabled and shows the
    connect icon; [CheckStartupConnections] enables the connect button of a
    configured camera (lines 954-975).  The remove-regions button is only
    hidden by the constructor (lines 112-115): nothing in the source disables
    it, so it takes a click whenever it is shown. *)
Definition initialSlotUi (c : eCamId) (canConnect : bool) (sz : Qt.QSize) : SlotUi :=
  MkSlotUi
    (initialButton canConnect true false ICON_CONNECT "Connect to camera stream.")
    (initialButton false true true "" "")
    (initialButton true false false "" "")
    (initialButton false true false ICON_RECORD "Record from camera stream.")
    (initialButton false true false "" "")
    (initialButton false true false "" "")
    (initialButton false true false "" "")
    (PlainTitle (disconnectedTitle c)) "Not connected" sz.

(** The window after its constructor (lines 94-118), for the given
    preferences, camera store and widget sizes.  [m_videoFormId] has no
    initialiser in the source file; the form is hidden, so its value is not
    read before [ShowExpandedVideoForm] sets it. *)
Definition initialWindow (prefs : Preferences) (db : CameraDatabase) (sz : Qt.QSize)
  : MainWindow :=
  MkWindow
    (MkUi (initialSlotUi cam1 (DoesCameraExist cam1 db) sz)
          (initialSlotUi cam2 (DoesCameraExist cam2 db) sz)
          (initialSlotUi cam3 (DoesCameraExist cam3 db) sz)
          (initialSlotUi cam4 (DoesCameraExist cam4 db) sz))
    prefs db false 0 ∅ ∅ ∅ ∅ (MkForm false "" []) noCam [].

(** What can happen to the window between two returns to the event loop. *)
Inductive Event :=
| ConnectClicked (s : Slot) (o : Construction)
| MotionRegionsClicked (s : Slot)
| RemoveRegionsClicked (s : Slot) (answer : StandardButton) (o1 o2 : Construction)
| AreaSelected (cameraId : Z) (sel : Qt.QRectF) (o1 o2 : Construction)
| ExpandClicked (s : Slot)
| TimerTick (reports : eCamId → FeedReport).

(** A click on the checkable motion-regions button flips it and emits
    [toggled]. *)
Definition clickMotionRegions (s : Slot) (w : MainWindow) : MainWindow :=
  motionRegionsBtn_setChecked s (negb (Qt.checked (motionRegionsBtn (slotUi s (ui w))))) w.

(** A button takes a click only while it is enabled and visible. *)
Definition clickable (s : Slot) (b : ButtonId) (w : MainWindow) : bool :=
  Qt.enabled (button b (slotUi s (ui w))) && Qt.visible (button b (slotUi s (ui w))).

(** A feed reports a selection only while it exists and accepts one. *)
Definition selectable (cameraId : Z) (w : MainWindow) : bool :=
  existsb (λ c, match m_camFeeds w !! c with
                | Some feed => (vf_cameraId feed =? cameraId) && vf_enableSelection feed
                | None => false
                end) allCamIds.

(** One event, delivered to the slot connected to it. *)
Definition handle (e : Event) (w : MainWindow) : MainWindow :=
  match e with
  | ConnectClicked s o =>
      if clickable s ConnectBtn w then on_connectToolButton_clicked s o w else w
  | MotionRegionsClicked s =>
      if clickable s MotionRegionsBtn w then clickMotionRegions s w else w
  | RemoveRegionsClicked s a o1 o2 =>
      if clickable s RemoveRegionsBtn w
      then RemoveMotionRegions (slotCam s) a o1 o2 w else w
  | AreaSelected n sel o1 o2 =>
      if selectable n w then VideoFrameAreaSelection n sel o1 o2 w else w
  | ExpandClicked s =>
      if clickable s ExpandBtn w then ShowExpandedVideoForm (slotCam s) w else w
  | TimerTick reports => if timerActive w then on_updateFeedsTimer reports w else w
  end.

Definition run (es : list Event) (w : MainWindow) : MainWindow :=
  foldl (λ w e, handle e w) w es.

(** Number of slots with a bound stream processor. *)
Definition boundCount (w : MainWindow) : Z := Z.of_nat (size (m_streamProcessors w)).

(** The working region set of a camera, as [operator[]] reads it. *)
Definition workingRegions (c : eCamId) (w : MainWindow) : regions_t :=
  default [] (m_camMotionRegions w !! c).

(** ** Predicates and sample data of the statements *)

(** Two windows agree on everything the connection state machine and the
    expanded form are made of. *)
Definition sameConnections (w w' : MainWindow) : Prop :=
  m_streamProcessors w' = m_streamProcessors w
  ∧ m_numConnections w' = m_numConnections w
  ∧ timerActive w' = timerActive w
  ∧ m_camDb w' = m_camDb w
  ∧ m_prefs w' = m_prefs w
  ∧ m_videoForm w' = m_videoForm w
  ∧ m_videoFormId w' = m_videoFormId w
  ∧ errorBoxes w' = errorBoxes w.

(** The counter agrees with the map of stream processors. *)
Definition counterAgrees (w : MainWindow) : Prop := m_numConnections w = boundCount w.

(** The timer runs exactly when some stream processor is counted. *)
Definition timerAgrees (w : MainWindow) : Prop :=
  timerActive w = (0 <? m_numConnections w).

(** The feed of camera [c] received exactly one frame: the composition of
    what the stream processor reported. *)
Definition receivedFrame (r : FeedReport) (before after : option VideoFrame) : Prop :=
  ∃ feed en rs,
    before = Some feed
    ∧ after = Some (SetVideoFrame
                      (composeFrame (vf_width feed) (vf_height feed)
                         (CurrentVideoFrame r) (motionBoundingRect r)
                         (VideoWritingEnabled r) en rs) feed).

(** An event during which no construction throws. *)
Definition noThrow (e : Event) : Prop :=
  match e with
  | ConnectClicked _ o => o = Built
  | RemoveRegionsClicked _ _ o1 o2 | AreaSelected _ _ o1 o2 => o1 = Built ∧ o2 = Built
  | _ => True
  end.

(** Two configured cameras, used for the concrete runs. *)
Definition doorCamera : CameraSettings :=
  MkSettings "rtsp://192.168.1.20/stream1" "Front door" "" false false [].

Definition yardCamera : CameraSettings :=
  MkSettings "rtsp://192.168.1.21/stream1" "Back yard" "" false false [].

Definition twoCameras : CameraDatabase :=
  Save (MkDb (<[cam1 := doorCamera]> (<[cam2 := yardCamera]> ∅)) ∅).

Definition somePrefs : Preferences := MkPrefs "/var/ipfreely" 300 [] [].

Definition startWindow : MainWindow :=
  initialWindow somePrefs twoCameras (Qt.MkSize 640 360).

Definition sampleFrame : Qt.QImage := Qt.MkImage 640 360 (Qt.Captured 7).

(** Every stream processor has a new frame and nothing else to report. *)
Definition freshFrames (c : eCamId) : FeedReport :=
  MkReport true sampleFrame Qt.nullRect (Double.of_int 25) (Double.of_int 25) false.

(** The number of frames the feed of a camera has been given. *)
Definition framesShown (c : eCamId) (w : MainWindow) : nat :=
  match m_camFeeds w !! c with
  | Some feed => length (vf_frames feed)
  | None => 0
  end.

(** The paint operations an image carries on top of its source pixels. *)
Definition paintOps (i : Qt.QImage) : list Qt.PaintOp :=
  match Qt.pixels i with
  | Qt.Painted _ ops => ops
  | _ => []
  end.

(** The rectangle a paint operation is given. *)
Definition opRect (op : Qt.PaintOp) : Qt.QRect :=
  match op with
  | Qt.DrawRect _ r => r
  | Qt.DrawText _ r _ => r
  end.

(** A rectangle lies entirely within the bounds of an image. *)
Definition withinFrame (i : Qt.QImage) (r : Qt.QRect) : bool :=
  (0 <=? Qt.x1 r) && (0 <=? Qt.y1 r) && (Qt.x1 r <=? Qt.x2 r) && (Qt.y1 r <=? Qt.y2 r)
  && (Qt.x2 r <? Qt.iwidth i) && (Qt.y2 r <? Qt.iheight i).

(** Every annotation painted on an image lies within its bounds. *)
Definition annotationsWithinFrame (i : Qt.QImage) : bool :=
  forallb (λ op, withinFrame i (opRect op)) (paintOps i).

(** What the user can do in a slot, as the buttons of the slot show it. *)
Record Affordances := MkAffordances
  { canRecord : bool; canSnapshot : bool; canExpand : bool; canViewStorage : bool;
    canEditRegions : bool; connectIcon : string }.

(** The affordances the buttons of a slot show. *)
Definition affordances (u : SlotUi) : Affordances :=
  MkAffordances (Qt.enabled (recordBtn u)) (Qt.enabled (snapshotBtn u))
    (Qt.enabled (expandBtn u)) (Qt.enabled (storageBtn u))
    (Qt.enabled (motionRegionsBtn u)) (Qt.icon (connectBtn u)).

(** The affordances of a disconnected slot. *)
Definition disconnectedAffordances : Affordances :=
  MkAffordances false false false false false ICON_CONNECT.

(** Region editing is on for camera [k] only if the camera has a feed, and
    it has a feed only if it has a stream processor. *)
Definition editingIsBoundAt (k : eCamId) (w : MainWindow) : Prop :=
  (m_motionAreaSetupEnabled w !! k = Some true → is_Some (m_camFeeds w !! k))
  ∧ (is_Some (m_camFeeds w !! k) → is_Some (m_streamProcessors w !! k)).

Definition editingIsBound (w : MainWindow) : Prop := ∀ k, editingIsBoundAt k w.

(** The three maps [editingIsBound] speaks of. *)
Definition bindings (w : MainWindow)
  : gmap eCamId StreamProcessor * gmap eCamId VideoFrame * gmap eCamId bool :=
  (m_streamProcessors w, m_camFeeds w, m_motionAreaSetupEnabled w).

(** A quarter-frame selection in the middle of the widget. *)
Definition middleSelection : Qt.QRectF :=
  Qt.MkRectF (Double.div (Double.of_int 1) (Double.of_int 4))
             (Double.div (Double.of_int 1) (Double.of_int 4))
             (Double.div (Double.of_int 1) (Double.of_int 2))
             (Double.div (Double.of_int 1) (Double.of_int 2)).

(** Camera 1 connected and in region-editing mode. *)
Definition editingWindow : MainWindow :=
  run [ConnectClicked slot1 Built; MotionRegionsClicked slot1] startWindow.

(** ** The remaining handlers of the window *)

Definition set_prefs (x : Preferences) (w : MainWindow) : MainWindow :=
  MkWindow (ui w) x (m_camDb w) (timerActive w) (m_numConnections w)
    (m_streamProcessors w) (m_camFeeds w) (m_camMotionRegions w)
    (m_motionAreaSetupEnabled w) (m_videoForm w) (m_videoFormId w) (errorBoxes w).

(** How the camera setup dialog ends: rejected, or accepted with the camera
    record as edited and the answer of [IsValid] on it ([IpCamera::IsValid]
    is defined outside the source file). *)
Inductive SetupDialog :=
| SetupRejected
| SetupAccepted (edited : IpCamera) (valid : bool).

(** [IpFreelyMainWindow::SetupCameraInDb] (lines 983-1012); [connectBtn] is
    the connect button of slot [s]. *)
Definition SetupCameraInDb (c : eCamId) (s : Slot) (d : SetupDialog) (w : MainWindow)
  : MainWindow :=
  match d with
  | SetupRejected => w
  | SetupAccepted camera valid =>
      let w :=
        if valid then set_camDb (UpdateCamera camera (m_camDb w)) w
        else set_camDb (RemoveCamera c (m_camDb w)) w in
      let w := set_camDb (Save (m_camDb w)) w in
      onButton s ConnectBtn (Qt.setEnabled valid) w
  end.

(** [on_settings1ToolButton_clicked] and its three siblings (lines 208-226,
    291-309, 374-392, 457-475); [o1] and [o2] say how a construction
    attempted by the first and by the second click on connect ends. *)
Definition on_settingsToolButton_clicked (s : Slot) (d : SetupDialog)
    (o1 o2 : Construction) (w : MainWindow) : MainWindow :=
  let c := slotCam s in
  let reconnect :=
    DoesCameraExist c (m_camDb w) && bool_decide (is_Some (m_streamProcessors w !! c)) in
  let w := if reconnect then on_connectToolButton_clicked s o1 w else w in
  let w := SetupCameraInDb c s d w in
  if Qt.enabled (connectBtn (slotUi s (ui w))) && reconnect
  then on_connectToolButton_clicked s o2 w
  else w.

Definition ICON_STOP : string := ":/icons/icons/Stop-48.png".

(** What the record handler asks of the stream processor. *)
Inductive RecorderCommand := StartVideoWriting | StopVideoWriting.

(** [IpFreelyMainWindow::RecordActionHandler] (lines 1205-1229); [writing]
    is what [VideoWritingEnabled] answers.  The result pairs the window with
    the call made on the stream processor, if any. *)
Definition RecordActionHandler (c : eCamId) (s : Slot) (writing : bool) (w : MainWindow)
  : MainWindow * option RecorderCommand :=
  match m_streamProcessors w !! c with
  | None => (w, None)
  | Some _ =>
      if writing then
        (onButton s RecordBtn (Qt.setToolTip "Record from camera stream.")
           (onButton s RecordBtn (Qt.setIcon ICON_RECORD) w),
         Some StopVideoWriting)
      else
        (onButton s RecordBtn (Qt.setToolTip "Stop recording from camera stream.")
           (onButton s RecordBtn (Qt.setIcon ICON_STOP) w),
         Some StartVideoWriting)
  end.

(** [on_record1ToolButton_clicked] and its three siblings (lines 262-265,
    345-348, 428-431, 511-514). *)
Definition on_recordToolButton_clicked (s : Slot) (writing : bool) (w : MainWindow)
  : MainWindow * option RecorderCommand :=
  RecordActionHandler (slotCam s) s writing w.

(** One of the four blocks of [resizeEvent] (lines 590-648): a camera with a
    feed gets a new feed widget in the layout of its slot, accepting a
    selection if region editing is on; the flag is read with [operator[]]. *)
Definition recreateFeed (s : Slot) (w : MainWindow) : MainWindow :=
  let c := slotCam s in
  if bool_decide (is_Some (m_camFeeds w !! c)) then
    let w := set_camFeeds (delete c (m_camFeeds w)) w in
    let en := subscript false c (m_motionAreaSetupEnabled w) in
    let w := set_motionAreaSetupEnabled (snd en) w in
    let sz := camWidgetSize (slotUi s (ui w)) in
    let feed :=
      SetEnableSelection (fst en)
        (MkFeed (cameraNumber c) (Qt.wd sz) (Qt.ht sz) false []) in
    set_camFeeds (<[c := feed]> (m_camFeeds w)) w
  else w.

Definition setCamWidgetSize (sz : Qt.QSize) (u : SlotUi) : SlotUi :=
  MkSlotUi (connectBtn u) (motionRegionsBtn u) (removeRegionsBtn u) (recordBtn u)
    (snapshotBtn u) (expandBtn u) (storageBtn u) (groupBoxTitle u) (groupBoxToolTip u) sz.

(** [IpFreelyMainWindow::resizeEvent] (lines 588-651); [sizes] is the size
    the layout of each slot gives its feed in the resized window. *)
Definition resizeEvent (sizes : Slot → Qt.QSize) (w : MainWindow) : MainWindow :=
  let w := onSlotUi slot1 (setCamWidgetSize (sizes slot1)) w in
  let w := onSlotUi slot2 (setCamWidgetSize (sizes slot2)) w in
  let w := onSlotUi slot3 (setCamWidgetSize (sizes slot3)) w in
  let w := onSlotUi slot4 (setCamWidgetSize (sizes slot4)) w in
  recreateFeed slot4 (recreateFeed slot3 (recreateFeed slot2 (recreateFeed slot1 w))).

(** The [switch] of lines 150-167 and 173-190: the click on connect of the
    slot of a camera; nothing for [noCam]. *)
Definition clickConnectOf (c : eCamId) (o : Construction) (w : MainWindow) : MainWindow :=
  match camSlot c with
  | Some s => on_connectToolButton_clicked s o w
  | None => w
  end.

Definition clickConnectOfAll (os : eCamId → Construction) (cs : list eCamId)
    (w : MainWindow) : MainWindow :=
  foldl (λ w c, clickConnectOf c (os c) w) w cs.

(** The keys of [m_camFeeds], in ascending order (lines 140-145). *)
Definition camFeedKeys (w : MainWindow) : list eCamId :=
  filter (λ c, is_Some (m_camFeeds w !! c)) allCamIds.

(** How the preferences dialog ends: rejected, or accepted with the
    preferences as edited. *)
Inductive PreferencesDialog :=
| PreferencesRejected
| PreferencesAccepted (edited : Preferences).

(** [IpFreelyMainWindow::on_actionPreferences_triggered] (lines 130-197);
    [o1] and [o2] say how a construction attempted for a camera in the first
    and in the second round of clicks ends.  The disk space manager the
    handler recreates at its end is not part of the window's record. *)
Definition on_actionPreferences_triggered (d : PreferencesDialog)
    (o1 o2 : eCamId → Construction) (w : MainWindow) : MainWindow :=
  match d with
  | PreferencesRejected => w
  | PreferencesAccepted prefs =>
      let w := set_prefs prefs w in
      let camIds := camFeedKeys w in
      let w := clickConnectOfAll o1 camIds w in
      clickConnectOfAll o2 camIds w
  end.

(** One of the four blocks of [CheckStartupConnections] (lines 954-980);
    [onStartup] is the preference [ConnectToCamerasOnStartup]. *)
Definition checkStartupConnection (onStartup : bool) (o : Slot → Construction)
    (s : Slot) (w : MainWindow) : MainWindow :=
  let w := onButton s ConnectBtn
             (Qt.setEnabled (DoesCameraExist (slotCam s) (m_camDb w))) w in
  if Qt.enabled (connectBtn (slotUi s (ui w))) && onStartup
  then on_connectToolButton_clicked s (o s) w
  else w.

(** [IpFreelyMainWindow::CheckStartupConnections] (lines 952-981) *)
Definition CheckStartupConnections (onStartup : bool) (o : Slot → Construction)
    (w : MainWindow) : MainWindow :=
  let w := checkStartupConnection onStartup o slot1 w in
  let w := checkStartupConnection onStartup o slot2 w in
  let w := checkStartupConnection onStartup o slot3 w in
  checkStartupConnection onStartup o slot4 w.

(** [IpFreelyMainWindow::closeEvent] (lines 578-586) *)
Definition closeEvent (w : MainWindow) : MainWindow :=
  if form_visible (m_videoForm w) then set_videoForm (closeForm (m_videoForm w)) w else w.

(** [QRect::setWidth] and [QRect::setHeight] move the right and the bottom
    edge. *)
Definition QRect_setWidth (wd : Z) (r : Qt.QRect) : Qt.QRect :=
  Qt.MkRect (Qt.x1 r) (Qt.y1 r) (Qt.x1 r + wd - 1) (Qt.y2 r).
Definition QRect_setHeight (ht : Z) (r : Qt.QRect) : Qt.QRect :=
  Qt.MkRect (Qt.x1 r) (Qt.y1 r) (Qt.x2 r) (Qt.y1 r + ht - 1).

Definition MIN_BUTTON_SIZE : Z := 24.
Definition MAX_BUTTON_SIZE : Z := 48.
Definition MIN_DISPLAY_WIDTH : Z := 800.
Definition MIN_DISPLAY_HEIGHT : Z := 600.
Definition DEFAULT_SCREEN_SIZE : Double.double := Double.of_int 1080.
(** The [double] literal [0.9]: the double nearest to nine tenths. *)
Definition NINE_TENTHS : Double.double := Double.div (Double.of_int 9) (Double.of_int 10).

(** [if (v < lo) v = lo; else if (v > hi) v = hi;] *)
Definition clampTo (lo hi v : Z) : Z :=
  if v <? lo then lo else if hi <? v then hi else v.

(** The scaling of a length by the screen height (lines 664, 669, 681, 705). *)
Definition scaledLength (screen : Qt.QSize) (len : Z) : Z :=
  let scaleFactor := Double.div (Double.of_int (Qt.ht screen)) DEFAULT_SCREEN_SIZE in
  Double.to_int (Double.mul (Double.of_int len) scaleFactor).

(** [IpFreelyMainWindow::SetDisplaySize] (lines 653-787), for the screen the
    window is on, its geometry and the height of a tool button; the result
    is the geometry given to [setGeometry] and the size every tool button
    gets as its minimum and its maximum size. *)
Definition SetDisplaySize (screen : Qt.QSize) (displayGeometry : Qt.QRect)
    (buttonHeight : Z) : Qt.QRect * Z :=
  let maxDisplayWidth :=
    Double.to_int (Double.mul (Double.of_int (Qt.wd screen)) NINE_TENTHS) in
  let maxDisplayHeight :=
    Double.to_int (Double.mul (Double.of_int (Qt.ht screen)) NINE_TENTHS) in
  let displayWidth :=
    clampTo MIN_DISPLAY_WIDTH maxDisplayWidth
      (scaledLength screen (Qt.rwidth displayGeometry)) in
  let displayHeight :=
    clampTo MIN_DISPLAY_HEIGHT maxDisplayHeight
      (scaledLength screen (Qt.rheight displayGeometry)) in
  let displayLeft :=
    Double.to_int (Double.div (Double.of_int (Qt.wd screen - displayWidth))
                     (Double.of_int 2)) in
  let displayTop :=
    Double.to_int (Double.div (Double.of_int (Qt.ht screen - displayHeight))
                     (Double.of_int 2)) in
  let g := Qt.setTop displayTop displayGeometry in
  let g := Qt.setLeft displayLeft g in
  let g := QRect_setWidth displayWidth g in
  let g := QRect_setHeight displayHeight g in
  (g, clampTo MIN_BUTTON_SIZE MAX_BUTTON_SIZE (scaledLength screen buttonHeight)).

(** Everything that can happen to the window: the events of [Event] and the
    handlers above. *)
Inductive Action :=
| Basic (e : Event)
| SettingsClicked (s : Slot) (d : SetupDialog) (o1 o2 : Construction)
| RecordClicked (s : Slot) (writing : bool)
| Resized (sizes : Slot → Qt.QSize)
| PreferencesChosen (d : PreferencesDialog) (o1 o2 : eCamId → Construction)
| Started (onStartup : bool) (o : Slot → Construction)
| Closed.

Definition perform (a : Action) (w : MainWindow) : MainWindow :=
  match a with
  | Basic e => handle e w
  | SettingsClicked s d o1 o2 => on_settingsToolButton_clicked s d o1 o2 w
  | RecordClicked s writing =>
      if clickable s RecordBtn w then fst (on_recordToolButton_clicked s writing w) else w
  | Resized sizes => resizeEvent sizes w
  | PreferencesChosen d o1 o2 => on_actionPreferences_triggered d o1 o2 w
  | Started onStartup o => CheckStartupConnections onStartup o w
  | Closed => closeEvent w
  end.

Definition performAll (acts : list Action) (w : MainWindow) : MainWindow :=
  foldl (λ w a, perform a w) w acts.

(** An action during which no construction throws. *)
Definition noThrowIn (a : Action) : Prop :=
  match a with
  | Basic e => noThrow e
  | SettingsClicked _ _ o1 o2 => o1 = Built ∧ o2 = Built
  | PreferencesChosen _ o1 o2 => (∀ c, o1 c = Built) ∧ (∀ c, o2 c = Built)
  | Started _ o => ∀ s, o s = Built
  | _ => True
  end.

(** A camera has a feed exactly when it has a stream processor, and then it
    is configured in the store and is one of the four cameras of the slots. *)
Definition consistentAt (k : eCamId) (w : MainWindow) : Prop :=
  (is_Some (m_camFeeds w !! k) ↔ is_Some (m_streamProcessors w !! k))
  ∧ (is_Some (m_streamProcessors w !! k)
     → is_Some (cameras (m_camDb w) !! k) ∧ k ≠ noCam).

Definition consistent (w : MainWindow) : Prop := ∀ k, consistentAt k w.

(** What the window holds for one camera. *)
Definition cameraState (k : eCamId) (w : MainWindow)
  : option StreamProcessor * option VideoFrame * option regions_t * option bool :=
  (m_streamProcessors w !! k, m_camFeeds w !! k, m_camMotionRegions w !! k,
   m_motionAreaSetupEnabled w !! k).

(** The part of the window the counter and the timer are judged by. *)
Definition connectionFields (w : MainWindow) : gmap eCamId StreamProcessor * Z * bool :=
  (m_streamProcessors w, m_numConnections w, timerActive w).

(** From [w] to [w'] the stream processors stay, every camera keeps or loses
    its feed as before, and no camera leaves the store. *)
Definition keepsFeeds (w w' : MainWindow) : Prop :=
  m_streamProcessors w' = m_streamProcessors w
  ∧ (∀ k, is_Some (m_camFeeds w' !! k) ↔ is_Some (m_camFeeds w !! k))
  ∧ (∀ k, is_Some (cameras (m_camDb w) !! k) → is_Some (cameras (m_camDb w') !! k)).

(** ** Predicates of the statements about all handlers *)

(** The affordances of a slot whose camera is connected with the given
    record (lines 1187-1197). *)
Definition connectedAffordances (camera : IpCamera) : Affordances :=
  MkAffordances (negb (enableScheduledRecording (settings camera))) true true
    (negb (String.eqb (storageHttpUrl (settings camera)) "")) true ICON_DISCONNECT.

(** The buttons of a slot show the connection state of its camera. *)
Definition affordancesAgreeAt (s : Slot) (w : MainWindow) : Prop :=
  affordances (slotUi s (ui w))
  = match m_streamProcessors w !! slotCam s with
    | Some sp => connectedAffordances (sp_camera sp)
    | None => disconnectedAffordances
    end.

Definition affordancesAgree (w : MainWindow) : Prop := ∀ s, affordancesAgreeAt s w.

(** From [w] to [w'] the stream processors and the affordances of every
    slot stay. *)
Definition keepsAffordances (w w' : MainWindow) : Prop :=
  m_streamProcessors w' = m_streamProcessors w
  ∧ ∀ s, affordances (slotUi s (ui w')) = affordances (slotUi s (ui w)).

(** The stream processor of a camera after a click on its connect button,
    from the record the store has for it, the stream processor it had, the
    outcome of a construction and the preferences. *)
Definition toggledProcessor (camera : option IpCamera) (p : option StreamProcessor)
    (o : Construction) (prefs : Preferences) : option StreamProcessor :=
  match camera, p, o with
  | None, p, _ => p
  | Some _, Some _, _ => None
  | Some camera, None, Built => Some (newStreamProcessor camera prefs)
  | Some _, None, Throws _ => None
  end.

(** What start-up reads and writes for one slot. *)
Definition startupView (s : Slot) (w : MainWindow)
  : bool * option StreamProcessor * CameraDatabase * Preferences :=
  (Qt.enabled (connectBtn (slotUi s (ui w))), m_streamProcessors w !! slotCam s,
   m_camDb w, m_prefs w).

(** The call the poll loop makes on the expanded form for camera [c] (lines
    558-571): the frame as the stream processor reported it, and the working
    regions of the camera if region editing is on for it. *)
Definition formCallOf (r : FeedReport) (c : eCamId) (w : MainWindow) : VideoFormCall :=
  MkFormCall (CurrentVideoFrame r) (CurrentFps r) (OriginalFps r) (motionBoundingRect r)
    (VideoWritingEnabled r)
    (if default false (m_motionAreaSetupEnabled w !! c) then workingRegions c w else []).

(** What the poll loop reads of the region-editing state of a camera. *)
Definition editView (k : eCamId) (w : MainWindow) : bool * regions_t :=
  (default false (m_motionAreaSetupEnabled w !! k), workingRegions k w).

(** The expanded form, while visible, shows a camera that has a stream
    processor. *)
Definition formShowsBound (w : MainWindow) : Prop :=
  form_visible (m_videoForm w) = true → is_Some (m_streamProcessors w !! m_videoFormId w).

(** From [w] to [w'] the stream processors stay, and the expanded form stays
    as visible as it was and keeps its camera. *)
Definition keepsForm (w w' : MainWindow) : Prop :=
  m_streamProcessors w' = m_streamProcessors w
  ∧ form_visible (m_videoForm w') = form_visible (m_videoForm w)
  ∧ m_videoFormId w' = m_videoFormId w.

(** ** Predicates of the statements about the frame renderer *)

(** A coordinate that an [int] holds and that is not negative. *)
Definition isCoordinate (v : Z) : Prop := 0 ≤ v ≤ Double.INT_MAX.




(** What [shr_1] keeps true of a record that stands for [M0 / 2 ^ j]: the
    mantissa is the quotient, and the round and sticky bits are both clear
    exactly when the division is exact. *)
Definition shr_inv (M0 j : Z) (mrs : shr_record) : Prop :=
  0 ≤ shr_m mrs
  ∧ shr_m mrs * 2 ^ j ≤ M0 < (shr_m mrs + 1) * 2 ^ j
  ∧ (shr_r mrs || shr_s mrs = false ↔ M0 = shr_m mrs * 2 ^ j).

(** The value of a binary64 number as a fixed-point number with 1074
    fractional bits: the value times [2 ^ 1074], an integer for every finite
    binary64 value, whose least exponent is -1074. *)
Definition fixedPoint (d : Double.double) : Z :=
  match d with
  | S754_finite s m e => (if s then -1 else 1) * (Z.pos m * 2 ^ (e + 1074))
  | _ => 0
  end.

(** The number one in that representation. *)
Definition fixedOne : Z := 2 ^ 1074.

(** A binary64 value that is finite and not negative. *)
Definition isFraction (d : Double.double) : bool :=
  match d with
  | S754_zero _ => true
  | S754_finite false _ e => -1074 <=? e
  | _ => false
  end.

(** A region that lies in the unit square: its corner and its extent are
    finite and not negative, and corner plus extent is at most one in both
    directions, as exact values. *)
Definition inUnitSquare (r : region_t) : Prop :=
  isFraction (fst (fst r)) = true ∧ isFraction (snd (fst r)) = true
  ∧ isFraction (fst (snd r)) = true ∧ isFraction (snd (snd r)) = true
  ∧ fixedPoint (fst (fst r)) + fixedPoint (fst (snd r)) ≤ fixedOne
  ∧ fixedPoint (snd (fst r)) + fixedPoint (snd (snd r)) ≤ fixedOne.

(** Every pixel a rectangle covers is a pixel of the image. *)
Definition pixelsWithin (i : Qt.QImage) (q : Qt.QRect) : Prop :=
  0 ≤ Qt.x1 q ∧ 0 ≤ Qt.y1 q ∧ Qt.x2 q < Qt.iwidth i ∧ Qt.y2 q < Qt.iheight i.

(** ** What the region-editing helpers leave alone *)

Lemma sameConnections_refl w : sameConnections w w.
Proof. by repeat split. Qed.

Lemma sameConnections_trans w1 w2 w3 :
  sameConnections w1 w2 → sameConnections w2 w3 → sameConnections w1 w3.
Proof.
  unfold sameConnections. intros (?&?&?&?&?&?&?&?) (?&?&?&?&?&?&?&?).
  repeat split; congruence.
Qed.

Lemma onButton_same s b f w : sameConnections w (onButton s b f w).
Proof. by repeat split. Qed.

Lemma EnableMotionRegionsSetup_same c enable s b1 b2 w :
  sameConnections w (EnableMotionRegionsSetup c enable s b1 b2 w).
Proof.
  unfold EnableMotionRegionsSetup. cbn.
  destruct (m_camFeeds w !! c); [|by repeat split].
  destruct enable; [|by repeat split].
  cbn. destruct (FindCamera c (m_camDb w)); by repeat split.
Qed.

Lemma motionRegionsBtn_setChecked_same s b w :
  sameConnections w (motionRegionsBtn_setChecked s b w).
Proof.
  unfold motionRegionsBtn_setChecked.
  destruct (Qt.setChecked b _) as [q [v|]]; cbn [fst snd].
  - eapply sameConnections_trans; [apply (onButton_same s MotionRegionsBtn)|].
    apply EnableMotionRegionsSetup_same.
  - apply onButton_same.
Qed.

(** The feeds after [setChecked] on the motion-regions button: a feed can
    only have its selection flag changed. *)
Lemma EnableMotionRegionsSetup_feeds_None c enable s b1 b2 w k :
  m_camFeeds w !! k = None →
  m_camFeeds (EnableMotionRegionsSetup c enable s b1 b2 w) !! k = None.
Proof.
  intros Hk. unfold EnableMotionRegionsSetup. cbn.
  destruct (m_camFeeds w !! c) eqn:Hc; [|done].
  assert (k ≠ c) by congruence.
  destruct enable; cbn.
  - destruct (FindCamera c (m_camDb w)); cbn; by rewrite lookup_insert_ne.
  - by rewrite lookup_insert_ne.
Qed.

(** ** The two branches of the connection handler, field by field *)

Lemma onCamSlotUi_same c f w : sameConnections w (onCamSlotUi c f w).
Proof. unfold onCamSlotUi. destruct (camSlot c); by repeat split. Qed.

Lemma resetWidgets_same c s w : sameConnections w (resetWidgets c s w).
Proof.
  unfold resetWidgets, resetButtons, resetGroupBox.
  repeat (first
    [ apply sameConnections_refl
    | eapply sameConnections_trans; [|apply onButton_same]
    | eapply sameConnections_trans; [|apply motionRegionsBtn_setChecked_same]
    | eapply sameConnections_trans; [|apply onCamSlotUi_same] ]).
Qed.

Lemma motionRegionsBtn_setChecked_feeds_None s b w k :
  m_camFeeds w !! k = None →
  m_camFeeds (motionRegionsBtn_setChecked s b w) !! k = None.
Proof.
  intros Hk. unfold motionRegionsBtn_setChecked.
  destruct (Qt.setChecked b _) as [q [v|]]; cbn [fst snd]; [|done].
  by apply EnableMotionRegionsSetup_feeds_None.
Qed.

Lemma resetWidgets_feeds_None c s w k :
  m_camFeeds w !! k = None → m_camFeeds (resetWidgets c s w) !! k = None.
Proof.
  intros Hk. unfold resetWidgets, resetButtons, resetGroupBox. cbn.
  apply motionRegionsBtn_setChecked_feeds_None. cbn.
  unfold onCamSlotUi. by destruct (camSlot c).
Qed.

Lemma countDown_fields w :
  m_streamProcessors (countDown w) = m_streamProcessors w
  ∧ m_numConnections (countDown w) = m_numConnections w - 1
  ∧ timerActive (countDown w) = (if 0 <? m_numConnections w - 1 then true else timerActive w)
  ∧ m_camDb (countDown w) = m_camDb w
  ∧ m_videoForm (countDown w) = m_videoForm w
  ∧ m_videoFormId (countDown w) = m_videoFormId w
  ∧ m_camFeeds (countDown w) = m_camFeeds w
  ∧ m_camMotionRegions (countDown w) = m_camMotionRegions w
  ∧ m_motionAreaSetupEnabled (countDown w) = m_motionAreaSetupEnabled w
  ∧ ui (countDown w) = ui w
  ∧ m_prefs (countDown w) = m_prefs w.
Proof. unfold countDown. cbv zeta. by destruct (0 <? _). Qed.

Lemma closeFormOf_fields c w :
  m_streamProcessors (closeFormOf c w) = m_streamProcessors w
  ∧ m_numConnections (closeFormOf c w) = m_numConnections w
  ∧ timerActive (closeFormOf c w) = timerActive w
  ∧ m_camDb (closeFormOf c w) = m_camDb w
  ∧ m_camFeeds (closeFormOf c w) = m_camFeeds w
  ∧ m_prefs (closeFormOf c w) = m_prefs w.
Proof. unfold closeFormOf. by destruct (_ && _). Qed.

Lemma eraseRegionSetup_fields c w :
  m_streamProcessors (eraseRegionSetup c w) = m_streamProcessors w
  ∧ m_numConnections (eraseRegionSetup c w) = m_numConnections w
  ∧ timerActive (eraseRegionSetup c w) = timerActive w
  ∧ m_camDb (eraseRegionSetup c w) = m_camDb w
  ∧ m_videoForm (eraseRegionSetup c w) = m_videoForm w
  ∧ m_videoFormId (eraseRegionSetup c w) = m_videoFormId w
  ∧ m_camFeeds (eraseRegionSetup c w) = m_camFeeds w
  ∧ m_camMotionRegions (eraseRegionSetup c w) = delete c (m_camMotionRegions w)
  ∧ m_motionAreaSetupEnabled (eraseRegionSetup c w)
    = delete c (m_motionAreaSetupEnabled w)
  ∧ ui (eraseRegionSetup c w) = ui w
  ∧ m_prefs (eraseRegionSetup c w) = m_prefs w.
Proof. by repeat split. Qed.

Lemma eraseCamera_fields c w :
  m_streamProcessors (eraseCamera c w) = delete c (m_streamProcessors w)
  ∧ m_numConnections (eraseCamera c w) = m_numConnections w
  ∧ timerActive (eraseCamera c w) = timerActive w
  ∧ m_camDb (eraseCamera c w) = m_camDb w
  ∧ m_videoForm (eraseCamera c w) = m_videoForm w
  ∧ m_videoFormId (eraseCamera c w) = m_videoFormId w
  ∧ m_camFeeds (eraseCamera c w) = delete c (m_camFeeds w)
  ∧ ui (eraseCamera c w) = ui w
  ∧ m_prefs (eraseCamera c w) = m_prefs w.
Proof. by repeat split. Qed.

(** Every field of the connection state after the disconnect branch. *)
Lemma disconnect_fields camera s w :
  let c := camId camera in
  let w' := disconnectCamera camera s w in
  m_streamProcessors w' = delete c (m_streamProcessors w)
  ∧ m_numConnections w' = m_numConnections w - 1
  ∧ timerActive w' = (if 0 <? m_numConnections w - 1 then true else timerActive w)
  ∧ m_camDb w' = m_camDb w
  ∧ m_prefs w' = m_prefs w
  ∧ m_videoForm w' = m_videoForm (closeFormOf c w)
  ∧ m_videoFormId w' = m_videoFormId (closeFormOf c w)
  ∧ m_camFeeds w' !! c = None
  ∧ m_camMotionRegions w' !! c = None
  ∧ m_motionAreaSetupEnabled w' !! c = None.
Proof.
  intros c w'. subst w'. unfold disconnectCamera. fold c.
  destruct (countDown_fields
              (eraseRegionSetup c (resetWidgets c s (eraseCamera c (closeFormOf c w)))))
    as (->&->&->&->&->&->&->&->&->&_&->).
  destruct (eraseRegionSetup_fields c (resetWidgets c s (eraseCamera c (closeFormOf c w))))
    as (->&->&->&->&->&->&->&->&->&_&->).
  destruct (resetWidgets_same c s (eraseCamera c (closeFormOf c w)))
    as (->&->&->&->&->&->&->&_).
  destruct (eraseCamera_fields c (closeFormOf c w)) as (->&->&->&->&->&->&E2&_&->).
  destruct (closeFormOf_fields c w) as (->&->&->&->&_&->).
  repeat split; try done.
  - apply resetWidgets_feeds_None. rewrite E2. apply lookup_delete_eq.
  - apply lookup_delete_eq.
  - apply lookup_delete_eq.
Qed.

Lemma connect_built_streamProcessors camera s w :
  m_streamProcessors (connectCamera camera s Built w)
  = <[camId camera := newStreamProcessor camera (m_prefs w)]> (m_streamProcessors w).
Proof. cbn. unfold onCamSlotUi. by destruct (camSlot _). Qed.

Lemma connect_built_numConnections camera s w :
  m_numConnections (connectCamera camera s Built w) = m_numConnections w + 1.
Proof. cbn. unfold onCamSlotUi. by destruct (camSlot _). Qed.

Lemma connect_built_timerActive camera s w :
  timerActive (connectCamera camera s Built w) = true.
Proof. reflexivity. Qed.

Lemma connect_built_camFeeds camera s w :
  m_camFeeds (connectCamera camera s Built w)
  = <[camId camera := MkFeed (cameraNumber (camId camera))
                        (Qt.wd (feedSizeFor (camId camera) w))
                        (Qt.ht (feedSizeFor (camId camera) w)) false []]> (m_camFeeds w).
Proof. cbn. unfold onCamSlotUi, feedSizeFor. by destruct (camSlot _). Qed.

Lemma connect_built_regions camera s w :
  m_camMotionRegions (connectCamera camera s Built w) = m_camMotionRegions w
  ∧ m_motionAreaSetupEnabled (connectCamera camera s Built w)
    = m_motionAreaSetupEnabled w.
Proof. cbn. unfold onCamSlotUi. by destruct (camSlot _). Qed.

(** A construction that throws changes nothing but the error boxes shown. *)
Lemma connect_throws camera s what w :
  connectCamera camera s (Throws what) w = set_errorBoxes (what :: errorBoxes w) w.
Proof. reflexivity. Qed.

Lemma connect_camDb camera s o w :
  m_camDb (connectCamera camera s o w) = m_camDb w
  ∧ m_prefs (connectCamera camera s o w) = m_prefs w.
Proof. destruct o; [|done]. cbn. unfold onCamSlotUi. by destruct (camSlot _). Qed.

Lemma connect_videoForm camera s o w :
  m_videoForm (connectCamera camera s o w) = m_videoForm w
  ∧ m_videoFormId (connectCamera camera s o w) = m_videoFormId w.
Proof. destruct o; [|done]. cbn. unfold onCamSlotUi. by destruct (camSlot _). Qed.

Lemma stopTimer_fields w :
  m_streamProcessors (stopTimer w) = m_streamProcessors w
  ∧ m_numConnections (stopTimer w) = m_numConnections w
  ∧ timerActive (stopTimer w) = false
  ∧ m_camDb (stopTimer w) = m_camDb w
  ∧ m_videoForm (stopTimer w) = m_videoForm w
  ∧ m_videoFormId (stopTimer w) = m_videoFormId w
  ∧ m_camFeeds (stopTimer w) = m_camFeeds w
  ∧ m_camMotionRegions (stopTimer w) = m_camMotionRegions w
  ∧ m_motionAreaSetupEnabled (stopTimer w) = m_motionAreaSetupEnabled w
  ∧ ui (stopTimer w) = ui w
  ∧ m_prefs (stopTimer w) = m_prefs w.
Proof. unfold stopTimer. by destruct (timerActive w) eqn:E. Qed.

Lemma ConnectionHandler_unfold camera s o w :
  ConnectionHandler camera s o w
  = if bool_decide (is_Some (m_streamProcessors w !! camId camera))
    then disconnectCamera camera s (stopTimer w)
    else connectCamera camera s o (stopTimer w).
Proof.
  unfold ConnectionHandler. cbv zeta.
  by destruct (stopTimer_fields w) as (->&_).
Qed.

Lemma ConnectionHandler_camDb camera s o w :
  m_camDb (ConnectionHandler camera s o w) = m_camDb w
  ∧ m_prefs (ConnectionHandler camera s o w) = m_prefs w.
Proof.
  rewrite ConnectionHandler_unfold.
  destruct (stopTimer_fields w) as (_&_&_&Hd&_&_&_&_&_&_&Hp).
  case_bool_decide.
  - by destruct (disconnect_fields camera s (stopTimer w)) as (_&_&_&->&->&_).
  - destruct (connect_camDb camera s o (stopTimer w)) as [-> ->]. done.
Qed.

Lemma on_connect_camDb s o w :
  m_camDb (on_connectToolButton_clicked s o w) = m_camDb w
  ∧ m_prefs (on_connectToolButton_clicked s o w) = m_prefs w.
Proof.
  unfold on_connectToolButton_clicked.
  destruct (FindCamera _ _); [apply ConnectionHandler_camDb|done].
Qed.

(** ** The connection counter and the shared timer *)

Lemma ConnectionHandler_counter camera s o w :
  counterAgrees w → counterAgrees (ConnectionHandler camera s o w).
Proof.
  unfold counterAgrees, boundCount. intros Hw. rewrite ConnectionHandler_unfold.
  destruct (stopTimer_fields w) as (Hsp&Hn&_).
  case_bool_decide as Hb.
  - destruct (disconnect_fields camera s (stopTimer w)) as (->&->&_).
    rewrite Hsp, Hn, Hw, map_size_delete_Some by done.
    apply map_size_ne_0_lookup_2 in Hb. lia.
  - destruct o as [|what].
    + rewrite connect_built_streamProcessors, connect_built_numConnections.
      rewrite Hsp, Hn, Hw, map_size_insert_None; [lia|].
      by apply eq_None_not_Some.
    + rewrite connect_throws. cbn. by rewrite Hsp, Hn.
Qed.

Lemma ConnectionHandler_timer camera s w :
  counterAgrees w → timerAgrees (ConnectionHandler camera s Built w).
Proof.
  unfold counterAgrees, timerAgrees, boundCount. intros Hw.
  rewrite ConnectionHandler_unfold.
  destruct (stopTimer_fields w) as (Hsp&Hn&Ht&_).
  case_bool_decide as Hb.
  - destruct (disconnect_fields camera s (stopTimer w)) as (_&->&->&_).
    rewrite Hn, Ht. by destruct (0 <? _).
  - rewrite connect_built_timerActive, connect_built_numConnections, Hn, Hw.
    symmetry. apply Z.ltb_lt. lia.
Qed.

Lemma on_connect_counter s o w :
  counterAgrees w → counterAgrees (on_connectToolButton_clicked s o w).
Proof.
  unfold on_connectToolButton_clicked. intros Hw.
  destruct (FindCamera _ _); [by apply ConnectionHandler_counter|done].
Qed.

Lemma on_connect_timer s w :
  counterAgrees w → timerAgrees w →
  timerAgrees (on_connectToolButton_clicked s Built w).
Proof.
  unfold on_connectToolButton_clicked. intros Hw Ht.
  destruct (FindCamera _ _); [by apply ConnectionHandler_timer|done].
Qed.

Lemma sameConnections_counter w w' :
  sameConnections w w' → counterAgrees w → counterAgrees w'.
Proof.
  unfold counterAgrees, boundCount. intros (->&->&_). done.
Qed.

Lemma sameConnections_timer w w' :
  sameConnections w w' → timerAgrees w → timerAgrees w'.
Proof.
  unfold timerAgrees. intros (_&->&->&_). done.
Qed.

Lemma ReconnectCamera_counter c o1 o2 w :
  counterAgrees w → counterAgrees (ReconnectCamera c o1 o2 w).
Proof.
  unfold ReconnectCamera. intros Hw. destruct (camSlot c); [|done].
  eapply sameConnections_counter; [apply EnableMotionRegionsSetup_same|].
  by do 2 apply on_connect_counter.
Qed.

Lemma ReconnectCamera_timer c w :
  counterAgrees w → timerAgrees w →
  timerAgrees (ReconnectCamera c Built Built w).
Proof.
  unfold ReconnectCamera. intros Hw Ht. destruct (camSlot c); [|done].
  eapply sameConnections_timer; [apply EnableMotionRegionsSetup_same|].
  apply on_connect_timer; [by apply on_connect_counter|by apply on_connect_timer].
Qed.

(** ** The poll loop, feed by feed *)

Lemma UpdateCamFeedFrame_connection c img rect rec w :
  let w' := UpdateCamFeedFrame c img rect rec w in
  m_streamProcessors w' = m_streamProcessors w
  ∧ m_numConnections w' = m_numConnections w
  ∧ timerActive w' = timerActive w
  ∧ m_videoForm w' = m_videoForm w
  ∧ m_videoFormId w' = m_videoFormId w
  ∧ m_camDb w' = m_camDb w.
Proof.
  cbv zeta. unfold UpdateCamFeedFrame. by destruct (m_camFeeds w !! c).
Qed.

Lemma UpdateCamFeedFrame_other c img rect rec w k :
  k ≠ c → m_camFeeds (UpdateCamFeedFrame c img rect rec w) !! k = m_camFeeds w !! k.
Proof.
  intros Hk. unfold UpdateCamFeedFrame.
  destruct (m_camFeeds w !! c) eqn:E; [|done]. cbn. by rewrite lookup_insert_ne.
Qed.

Lemma UpdateCamFeedFrame_same r c w :
  m_camFeeds w !! c = None
  ∧ UpdateCamFeedFrame c (CurrentVideoFrame r) (motionBoundingRect r)
      (VideoWritingEnabled r) w = w
  ∨ receivedFrame r (m_camFeeds w !! c)
      (m_camFeeds (UpdateCamFeedFrame c (CurrentVideoFrame r) (motionBoundingRect r)
                     (VideoWritingEnabled r) w) !! c).
Proof.
  unfold UpdateCamFeedFrame. destruct (m_camFeeds w !! c) as [feed|] eqn:E.
  - right. cbn. rewrite lookup_insert_eq. by eexists feed, _, _.
  - by left.
Qed.

Lemma pollStreamProcessor_connection r c w :
  let w' := pollStreamProcessor r c w in
  m_streamProcessors w' = m_streamProcessors w
  ∧ m_numConnections w' = m_numConnections w
  ∧ timerActive w' = timerActive w.
Proof.
  cbv zeta. unfold pollStreamProcessor. destruct (VideoFrameUpdated r); [|done].
  destruct (UpdateCamFeedFrame_connection c (CurrentVideoFrame r)
              (motionBoundingRect r) (VideoWritingEnabled r) w) as (E1&E2&E3&_).
  destruct (_ && _); cbn; unfold SetFpsInTitle, onCamSlotUi;
    by destruct (camSlot c).
Qed.

Lemma pollStreamProcessor_feeds r c w :
  m_camFeeds (pollStreamProcessor r c w)
  = if VideoFrameUpdated r
    then m_camFeeds (UpdateCamFeedFrame c (CurrentVideoFrame r) (motionBoundingRect r)
                       (VideoWritingEnabled r) w)
    else m_camFeeds w.
Proof.
  unfold pollStreamProcessor. destruct (VideoFrameUpdated r); [|done].
  destruct (_ && _); cbn; unfold SetFpsInTitle, onCamSlotUi;
    by destruct (camSlot c).
Qed.

Lemma pollStreamProcessor_other r c w k :
  k ≠ c → m_camFeeds (pollStreamProcessor r c w) !! k = m_camFeeds w !! k.
Proof.
  intros Hk. rewrite pollStreamProcessor_feeds.
  destruct (VideoFrameUpdated r); [by apply UpdateCamFeedFrame_other|done].
Qed.

Lemma pollStreamProcessor_same r c w :
  m_camFeeds (pollStreamProcessor r c w) !! c = m_camFeeds w !! c
  ∨ VideoFrameUpdated r = true
    ∧ receivedFrame r (m_camFeeds w !! c) (m_camFeeds (pollStreamProcessor r c w) !! c).
Proof.
  rewrite pollStreamProcessor_feeds. destruct (VideoFrameUpdated r); [|by left].
  destruct (UpdateCamFeedFrame_same r c w) as [[_ ->]|H]; [by left|by right].
Qed.

Lemma allCamIds_NoDup : NoDup allCamIds.
Proof. by apply (bool_decide_unpack _). Qed.

Lemma streamProcessorKeys_NoDup w : NoDup (streamProcessorKeys w).
Proof. apply NoDup_filter, allCamIds_NoDup. Qed.

Lemma streamProcessorKeys_bound w c :
  c ∈ streamProcessorKeys w ↔ is_Some (m_streamProcessors w !! c).
Proof.
  unfold streamProcessorKeys. rewrite list_elem_of_filter.
  split; [by intros [? _]|]. intros H. split; [done|].
  unfold allCamIds. destruct c; set_solver.
Qed.

Lemma pollKeys_cons reports c l w :
  pollKeys reports (c :: l) w = pollKeys reports l (pollStreamProcessor (reports c) c w).
Proof. reflexivity. Qed.

(** Walking a duplicate-free list of keys touches the feed of each key at
    most once, and only the feeds of keys on the list. *)
Lemma poll_keys reports k l : ∀ w,
  NoDup l →
  m_camFeeds (pollKeys reports l w) !! k = m_camFeeds w !! k
  ∨ k ∈ l ∧ VideoFrameUpdated (reports k) = true
    ∧ receivedFrame (reports k) (m_camFeeds w !! k)
        (m_camFeeds (pollKeys reports l w) !! k).
Proof.
  induction l as [|c l IH]; intros w Hnd; [by left|].
  rewrite pollKeys_cons.
  apply NoDup_cons in Hnd as [Hc Hnd].
  destruct (decide (k = c)) as [->|Hk].
  - destruct (IH (pollStreamProcessor (reports c) c w) Hnd) as [E|(Hin&_)];
      [|done]. rewrite E.
    destruct (pollStreamProcessor_same (reports c) c w) as [E'|[Hu Hr]];
      [by left|]. right. split; [set_solver|]. by split.
  - destruct (IH (pollStreamProcessor (reports c) c w) Hnd) as [E|(Hin&Hu&Hr)].
    + left. rewrite E. by apply pollStreamProcessor_other.
    + right. split; [set_solver|]. split; [done|].
      by rewrite (pollStreamProcessor_other _ c w k Hk) in Hr.
Qed.

Lemma poll_keys_connection reports l : ∀ w,
  m_streamProcessors (pollKeys reports l w) = m_streamProcessors w
  ∧ m_numConnections (pollKeys reports l w) = m_numConnections w
  ∧ timerActive (pollKeys reports l w) = timerActive w.
Proof.
  induction l as [|c l IH]; intros w; [done|].
  rewrite pollKeys_cons.
  destruct (IH (pollStreamProcessor (reports c) c w)) as (->&->&->).
  apply pollStreamProcessor_connection.
Qed.

Lemma on_updateFeedsTimer_connection reports w :
  m_streamProcessors (on_updateFeedsTimer reports w) = m_streamProcessors w
  ∧ m_numConnections (on_updateFeedsTimer reports w) = m_numConnections w
  ∧ timerActive (on_updateFeedsTimer reports w) = timerActive w.
Proof. apply poll_keys_connection. Qed.

(** ** The counter over whole runs *)

Lemma VideoFrameAreaSelection_counter n sel o1 o2 w :
  counterAgrees w → counterAgrees (VideoFrameAreaSelection n sel o1 o2 w).
Proof.
  unfold VideoFrameAreaSelection. intros Hw.
  destruct (match n with 1 => _ | _ => _ end) as [c|]; [|done].
  cbn. destruct (FindCamera c (m_camDb w)); [|done].
  by apply ReconnectCamera_counter.
Qed.

Lemma RemoveMotionRegions_counter c a o1 o2 w :
  counterAgrees w → counterAgrees (RemoveMotionRegions c a o1 o2 w).
Proof.
  unfold RemoveMotionRegions. intros Hw.
  destruct (FindCamera c (m_camDb w)); [|done]. destruct a; [|done].
  by apply ReconnectCamera_counter.
Qed.

Lemma handle_counter e w : counterAgrees w → counterAgrees (handle e w).
Proof.
  intros Hw. destruct e as [s o|s|s a o1 o2|n sel o1 o2|s|reports]; unfold handle.
  - destruct (clickable _ _ _); [|done]. by apply on_connect_counter.
  - destruct (clickable _ _ _); [|done].
    eapply sameConnections_counter; [apply motionRegionsBtn_setChecked_same|done].
  - destruct (clickable _ _ _); [|done]. by apply RemoveMotionRegions_counter.
  - destruct (selectable _ _); [|done]. by apply VideoFrameAreaSelection_counter.
  - by destruct (clickable _ _ _).
  - destruct (timerActive w); [|done].
    unfold counterAgrees, boundCount.
    by destruct (on_updateFeedsTimer_connection reports w) as (->&->&_).
Qed.

Lemma initialWindow_counter prefs db sz : counterAgrees (initialWindow prefs db sz).
Proof. reflexivity. Qed.

(** Whatever happens, failures included, the counter equals the number of
    bound stream processors. *)
Lemma run_counter es : ∀ w, counterAgrees w → counterAgrees (run es w).
Proof.
  induction es as [|e es IH]; intros w Hw; [done|].
  apply IH. by apply handle_counter.
Qed.

Lemma handle_timer e w :
  noThrow e → counterAgrees w → timerAgrees w → timerAgrees (handle e w).
Proof.
  intros He Hw Ht. destruct e as [s o|s|s a o1 o2|n sel o1 o2|s|reports];
    unfold handle, noThrow in *.
  - destruct (clickable _ _ _); [|done]. subst o. by apply on_connect_timer.
  - destruct (clickable _ _ _); [|done].
    eapply sameConnections_timer; [apply motionRegionsBtn_setChecked_same|done].
  - destruct (clickable _ _ _); [|done].
    destruct He as [-> ->]. unfold RemoveMotionRegions.
    destruct (FindCamera _ _); [|done]. destruct a; [|done].
    by apply ReconnectCamera_timer.
  - destruct (selectable _ _); [|done].
    destruct He as [-> ->]. unfold VideoFrameAreaSelection.
    destruct (match n with 1 => _ | _ => _ end) as [c|]; [|done].
    cbn. destruct (FindCamera c (m_camDb w)); [|done].
    by apply ReconnectCamera_timer.
  - destruct (clickable _ _ _); [|done]. exact Ht.
  - destruct (timerActive w) eqn:E; [|done].
    unfold timerAgrees.
    destruct (on_updateFeedsTimer_connection reports w) as (_&->&->).
    exact Ht.
Qed.

(** As long as no construction throws, the timer runs exactly when the
    counter is positive. *)
Lemma run_timer es : ∀ w,
  Forall noThrow es → counterAgrees w → timerAgrees w → timerAgrees (run es w).
Proof.
  induction es as [|e es IH]; intros w Hes Hw Ht; [done|].
  apply Forall_cons in Hes as [He Hes].
  apply IH; [done|by apply handle_counter|by apply handle_timer].
Qed.

(** A construction that throws leaves the timer stopped, whatever else is
    connected: the handler stopped it on entry and returns from the [catch]
    block. *)
Lemma failed_connect_leaves_timer_stopped camera s what w :
  m_streamProcessors w !! camId camera = None →
  let w' := ConnectionHandler camera s (Throws what) w in
  m_streamProcessors w' = m_streamProcessors w
  ∧ m_numConnections w' = m_numConnections w
  ∧ timerActive w' = false.
Proof.
  intros Hc. cbv zeta. rewrite ConnectionHandler_unfold.
  rewrite bool_decide_eq_false_2 by (rewrite Hc; by intros [? ?]).
  rewrite connect_throws. cbn.
  by destruct (stopTimer_fields w) as (->&->&->&_).
Qed.

(** The feed of one camera across a tick. *)
Lemma on_updateFeedsTimer_feed reports w k :
  m_camFeeds (on_updateFeedsTimer reports w) !! k = m_camFeeds w !! k
  ∨ is_Some (m_streamProcessors w !! k)
    ∧ VideoFrameUpdated (reports k) = true
    ∧ receivedFrame (reports k) (m_camFeeds w !! k)
        (m_camFeeds (on_updateFeedsTimer reports w) !! k).
Proof.
  unfold on_updateFeedsTimer.
  destruct (poll_keys reports k (streamProcessorKeys w) w
              (streamProcessorKeys_NoDup w)) as [E|(Hin&Hu&Hr)]; [by left|].
  right. by rewrite <- streamProcessorKeys_bound.
Qed.

(** A camera without a stream processor gets no frame on a tick. *)
Corollary tick_skips_unbound_camera reports w k :
  m_streamProcessors w !! k = None →
  m_camFeeds (on_updateFeedsTimer reports w) !! k = m_camFeeds w !! k.
Proof.
  intros Hk.
  destruct (on_updateFeedsTimer_feed reports w k) as [E|([sp Hsp]&_)];
    [done|congruence].
Qed.

(** ** The claims *)

(** C1.  The claim: at every reachable state the connection counter equals
    the number of bound stream processors and the poll timer runs exactly
    when that number is positive, also after a connect whose construction
    fails.  The code at a failing input: camera 1 connects, then the
    construction for camera 2 throws; the counter and the number of bound
    processors are both 1, and the timer is not running. *)
Theorem C1_timer_stopped_while_one_camera_is_connected :
  let w := run [ConnectClicked slot1 Built;
                ConnectClicked slot2 (Throws "Failed to open stream")] startWindow in
  m_numConnections w = 1 ∧ boundCount w = 1 ∧ timerActive w = false.
Proof. vm_compute. done. Qed.

(** C2.  The claim: a connect whose construction fails leaves the slot
    disconnected and changes nothing that affects another slot; the timer
    keeps running and the other slots keep being polled.  The code at a
    failing input: camera 1 is connected and polled; after the failed
    connect of camera 2 the slot of camera 2 is still disconnected, but the
    timer that was running is stopped, and the next timer period brings no
    frame to camera 1, which received one per period before. *)
Theorem C2_failed_connect_stops_polling_of_other_camera :
  let before := run [ConnectClicked slot1 Built; TimerTick freshFrames] startWindow in
  let after := handle (ConnectClicked slot2 (Throws "Failed to open stream")) before in
  timerActive before = true
  ∧ framesShown cam1 before = 1%nat
  ∧ m_streamProcessors after !! cam2 = None
  ∧ m_streamProcessors after !! cam1 = m_streamProcessors before !! cam1
  ∧ timerActive after = false
  ∧ framesShown cam1 (handle (TimerTick freshFrames) after) = 1%nat
  ∧ framesShown cam1 (handle (TimerTick freshFrames) before) = 2%nat.
Proof. vm_compute. done. Qed.

(** C8.  On a timer tick the feed of every camera either stays as it was or
    is handed exactly one frame, the composition of the frame its stream
    processor currently holds; the second happens only for a camera that has
    a bound stream processor reporting a new frame. *)
Theorem C8_one_frame_per_bound_camera_per_tick
    (reports : eCamId → FeedReport) (w : MainWindow) (k : eCamId) :
  m_camFeeds (on_updateFeedsTimer reports w) !! k = m_camFeeds w !! k
  ∨ is_Some (m_streamProcessors w !! k)
    ∧ VideoFrameUpdated (reports k) = true
    ∧ receivedFrame (reports k) (m_camFeeds w !! k)
        (m_camFeeds (on_updateFeedsTimer reports w) !! k).
Proof. apply on_updateFeedsTimer_feed. Qed.

(** C10.  Disconnecting a camera closes the expanded form and resets its
    target to [noCam] when the form is visible and shows that camera; in
    every other case the form and its target are left as they were. *)
Theorem C10_disconnect_closes_expanded_form_of_that_camera
    (s : Slot) (o : Construction) (w : MainWindow) (camera : IpCamera)
    (Hcfg : FindCamera (slotCam s) (m_camDb w) = Some camera)
    (Hbound : is_Some (m_streamProcessors w !! slotCam s)) :
  let w' := on_connectToolButton_clicked s o w in
  m_streamProcessors w' !! slotCam s = None
  ∧ (if form_visible (m_videoForm w) && bool_decide (m_videoFormId w = slotCam s)
     then form_visible (m_videoForm w') = false ∧ m_videoFormId w' = noCam
     else m_videoForm w' = m_videoForm w ∧ m_videoFormId w' = m_videoFormId w).
Proof.
  cbv zeta. unfold on_connectToolButton_clicked. rewrite Hcfg.
  assert (camId camera = slotCam s) as Hid.
  { unfold FindCamera in Hcfg. destruct (cameras _ !! _); by simplify_eq/=. }
  rewrite ConnectionHandler_unfold, Hid, bool_decide_eq_true_2 by done.
  destruct (disconnect_fields camera s (stopTimer w)) as (E1&_&_&_&_&E2&E3&_).
  rewrite Hid in *. rewrite E1, E2, E3. split; [apply lookup_delete_eq|].
  destruct (stopTimer_fields w) as (_&_&_&_&Hf&Hi&_).
  unfold closeFormOf. rewrite Hf, Hi.
  destruct (form_visible (m_videoForm w) && _); cbn; by rewrite ?Hf, ?Hi.
Qed.

Lemma C10_witness :
  let w := run [ConnectClicked slot1 Built; ExpandClicked slot1] startWindow in
  let w' := on_connectToolButton_clicked slot1 Built w in
  form_visible (m_videoForm w) = true
  ∧ m_videoFormId w = cam1
  ∧ m_streamProcessors w' !! slotCam slot1 = None
  ∧ (if form_visible (m_videoForm w) && bool_decide (m_videoFormId w = slotCam slot1)
     then form_visible (m_videoForm w') = false ∧ m_videoFormId w' = noCam
     else m_videoForm w' = m_videoForm w ∧ m_videoFormId w' = m_videoFormId w).
Proof.
  split; [reflexivity|]. split; [reflexivity|].
  apply (C10_disconnect_closes_expanded_form_of_that_camera slot1 Built
           (run [ConnectClicked slot1 Built; ExpandClicked slot1] startWindow)
           (MkCamera cam1 doorCamera)).
  - reflexivity.
  - vm_compute. eauto.
Defined.

(** ** Rounding of binary64 products *)

Lemma digits2_pos_bounds (p : positive) :
  2 ^ (Z.pos (digits2_pos p) - 1) ≤ Z.pos p < 2 ^ Z.pos (digits2_pos p).
Proof.
  induction p as [p IH|p IH|]; cbn [digits2_pos].
  - rewrite Pos2Z.inj_succ.
    replace (Z.succ (Z.pos (digits2_pos p)) - 1) with (Z.pos (digits2_pos p) - 1 + 1) by lia.
    rewrite Z.pow_succ_r, Z.pow_add_r by lia. lia.
  - rewrite Pos2Z.inj_succ.
    replace (Z.succ (Z.pos (digits2_pos p)) - 1) with (Z.pos (digits2_pos p) - 1 + 1) by lia.
    rewrite Z.pow_succ_r, Z.pow_add_r by lia. lia.
  - cbn. lia.
Qed.

Lemma shr_1_inv M0 j mrs : 0 ≤ j → shr_inv M0 j mrs → shr_inv M0 (j + 1) (shr_1 mrs).
Proof.
  intros Hj (Hm&Hb&He). destruct mrs as [m r s]. cbn [shr_m shr_r shr_s] in *.
  assert (0 < 2 ^ j) as Hp by (apply Z.pow_pos_nonneg; lia).
  unfold shr_inv. rewrite Z.pow_add_r, Z.pow_1_r by lia.
  set (P := 2 ^ j) in *.
  assert (r || s = false ↔ M0 = m * P) as He' by exact He. clear He.
  destruct m as [|[p|p|]|p]; cbn [shr_1 shr_m shr_r shr_s]; [| | | |lia].
  - split; [lia|]. split; [lia|]. cbn [orb].
    replace (0 * (P * 2)) with (0 * P) by lia. exact He'.
  - pose proof (Pos2Z.inj_xI p) as Hx.
    split; [lia|]. split; [nia|]. cbn [orb].
    split; [done|]. intros ->. exfalso. nia.
  - pose proof (Pos2Z.inj_xO p) as Hx.
    split; [lia|]. split; [nia|]. cbn [orb].
    replace (Z.pos p * (P * 2)) with (Z.pos p~0 * P) by nia. exact He'.
  - split; [lia|]. split; [nia|]. cbn [orb]. split; [done|]. intros ->. exfalso. nia.
Qed.

Lemma iter_pos_shr_inv M0 p : ∀ j mrs,
  0 ≤ j → shr_inv M0 j mrs → shr_inv M0 (j + Z.pos p) (iter_pos shr_1 p mrs).
Proof.
  induction p as [p IH|p IH|]; intros j mrs Hj H; cbn [iter_pos].
  - replace (j + Z.pos p~1) with (j + 1 + Z.pos p + Z.pos p) by lia.
    apply IH; [lia|]. apply IH; [lia|]. by apply shr_1_inv.
  - replace (j + Z.pos p~0) with (j + Z.pos p + Z.pos p) by lia.
    apply IH; [lia|]. by apply IH.
  - by apply shr_1_inv.
Qed.

(** A shift by [k] places of a record that holds [M0] itself. *)
Lemma shr_inv_shift M0 e k :
  0 ≤ M0 →
  let r := shr (Build_shr_record M0 false false) e k in
  shr_inv M0 (Z.max k 0) (fst r) ∧ snd r = e + Z.max k 0.
Proof.
  intros HM. cbv zeta.
  assert (shr_inv M0 0 (Build_shr_record M0 false false)) as H0.
  { unfold shr_inv. cbn. rewrite Z.mul_1_r. repeat split; lia. }
  destruct k as [|p|p]; cbn [shr fst snd].
  - split; [exact H0|lia].
  - rewrite Z.max_l by lia. split; [|done].
    apply (iter_pos_shr_inv M0 p 0 _ (Z.le_refl 0) H0).
  - rewrite Z.max_r by lia. split; [exact H0|lia].
Qed.

(** Rounding to nearest never passes a multiple of the unit it rounds to. *)
Lemma round_nearest_even_le M0 j mrs c :
  0 ≤ j → shr_inv M0 j mrs → M0 ≤ c * 2 ^ j →
  0 ≤ round_nearest_even (shr_m mrs) (loc_of_shr_record mrs) ≤ c.
Proof.
  intros Hj (Hm&Hb&He) Hc. destruct mrs as [m r s]. cbn [shr_m shr_r shr_s] in *.
  assert (0 < 2 ^ j) as Hp by (apply Z.pow_pos_nonneg; lia).
  assert (m ≤ c) as Hmc by nia.
  destruct r, s; cbn [loc_of_shr_record round_nearest_even orb] in *.
  - assert (m < c) by (destruct (decide (m = c)) as [->|]; [|lia]; nia). lia.
  - assert (M0 ≠ m * 2 ^ j) as Hne by (intros E; apply He in E; done).
    assert (m < c) by (destruct (decide (m = c)) as [->|]; [|lia]; nia).
    destruct (Z.even m); lia.
  - lia.
  - lia.
Qed.

Lemma pow2_lt_exp a b : 0 ≤ a → 2 ^ a < 2 ^ b → a < b.
Proof.
  intros Ha H. destruct (Z.lt_ge_cases a b) as [|Hba]; [done|].
  pose proof (Z.pow_le_mono_r 2 b a ltac:(lia) Hba). lia.
Qed.

(** The product mantissa [M] with exponent [E], rounded to binary64: if its
    value is at most the half-integer [n / 2], so is the rounded value.
    Values are compared after scaling by [2 ^ B], which makes them
    integers. *)
Lemma binary_round_aux_upper (sx : bool) (M : positive) (E B n : Z) :
  0 ≤ E + B → 1 ≤ B → 0 ≤ n < 2 ^ 33 →
  Z.pos M * 2 ^ (E + B) ≤ n * 2 ^ (B - 1) →
  match binary_round_aux Double.prec Double.emax sx (Z.pos M) E loc_Exact with
  | S754_zero s => s = sx
  | S754_finite s m e => s = sx ∧ 0 ≤ e + B ∧ Z.pos m * 2 ^ (e + B) ≤ n * 2 ^ (B - 1)
  | _ => False
  end.
Proof.
  intros HEB HB Hn Hle.
  assert (0 < 2 ^ (E + B)) as HpE by (apply Z.pow_pos_nonneg; lia).
  assert (n * 2 ^ (B - 1) < 2 ^ (B + 32)) as Hbound.
  { replace (B + 32) with (33 + (B - 1)) by lia. rewrite Z.pow_add_r by lia.
    assert (0 < 2 ^ (B - 1)) by (apply Z.pow_pos_nonneg; lia). nia. }
  unfold binary_round_aux, shr_fexp. cbn [shr_record_of_loc Zdigits2].
  set (d := Z.pos (digits2_pos M)).
  set (k := fexp Double.prec Double.emax (d + E) - E).
  destruct (shr_inv_shift (Z.pos M) E k) as [Hinv1 He1]; [lia|].
  destruct (shr (Build_shr_record (Z.pos M) false false) E k) as [mrs1 e1].
  cbn [fst snd] in Hinv1, He1.
  set (m1 := round_nearest_even (shr_m mrs1) (loc_of_shr_record mrs1)).
  assert (0 ≤ e1 + B) as He1B by lia.
  assert (0 ≤ m1 ∧ m1 * 2 ^ (e1 + B) ≤ n * 2 ^ (B - 1)) as [Hm1 Hm1le].
  { destruct (Z.le_gt_cases k 0) as [Hk|Hk].
    - rewrite Z.max_r in Hinv1, He1 by lia.
      destruct (round_nearest_even_le (Z.pos M) 0 mrs1 (Z.pos M)) as [H0 H1];
        [lia|exact Hinv1|lia|].
      fold m1 in H0, H1. split; [exact H0|].
      replace e1 with E by lia. nia.
    - rewrite Z.max_l in Hinv1, He1 by lia.
      assert (e1 ≤ -1) as Hneg.
      { pose proof (digits2_pos_bounds M) as [Hd _]. fold d in Hd.
        assert (2 ^ (d - 1 + (E + B)) < 2 ^ (B + 32)) as Hlt.
        { rewrite Z.pow_add_r by (unfold d; lia). nia. }
        apply pow2_lt_exp in Hlt; [|unfold d; lia].
        subst e1 k. unfold fexp, emin, Double.prec, Double.emax. lia. }
      set (c := n * 2 ^ (- 1 - e1)).
      assert (c * 2 ^ (e1 + B) = n * 2 ^ (B - 1)) as Hc.
      { unfold c. rewrite <- Z.mul_assoc, <- Z.pow_add_r by lia. f_equal. f_equal. lia. }
      assert (Z.pos M ≤ c * 2 ^ k) as HMc.
      { assert (c * 2 ^ (e1 + B) = c * 2 ^ k * 2 ^ (E + B)) as Hsplit.
        { rewrite <- Z.mul_assoc, <- Z.pow_add_r by lia. f_equal. f_equal. lia. }
        nia. }
      destruct (round_nearest_even_le (Z.pos M) k mrs1 c) as [H0 H1];
        [lia|exact Hinv1|exact HMc|].
      fold m1 in H0, H1. split; [exact H0|].
      assert (0 < 2 ^ (e1 + B)) by (apply Z.pow_pos_nonneg; lia). nia. }
  clearbody m1. clear Hinv1.
  set (k2 := fexp Double.prec Double.emax (Zdigits2 m1 + e1) - e1).
  destruct (shr_inv_shift m1 e1 k2 Hm1) as [(Hm2&[Hm2le _]&_) He2].
  destruct (shr (Build_shr_record m1 false false) e1 k2) as [mrs2 e2].
  cbn [fst snd] in Hm2, Hm2le, He2.
  assert (0 ≤ Z.max k2 0) as Hk2 by lia.
  assert (shr_m mrs2 * 2 ^ (e2 + B) ≤ n * 2 ^ (B - 1)) as Hfin.
  { replace (e2 + B) with (Z.max k2 0 + (e1 + B)) by lia.
    rewrite Z.pow_add_r by lia.
    assert (0 < 2 ^ (e1 + B)) by (apply Z.pow_pos_nonneg; lia). nia. }
  destruct (shr_m mrs2) as [|m|m] eqn:Em; [done| |lia].
  assert (e2 < 32) as He2lt.
  { assert (2 ^ (e2 + B) < 2 ^ (B + 32)) as Hlt.
    { assert (0 < 2 ^ (e2 + B)) by (apply Z.pow_pos_nonneg; lia). nia. }
    apply pow2_lt_exp in Hlt; lia. }
  rewrite (proj2 (Z.leb_le e2 (Double.emax - Double.prec)))
    by (unfold Double.emax, Double.prec; lia).
  repeat split; [lia|exact Hfin].
Qed.

Lemma iter_xO_spec (p q : positive) :
  Z.pos (digits2_pos (Pos.iter xO p q)) = Z.pos (digits2_pos p) + Z.pos q
  ∧ Z.pos (Pos.iter xO p q) = Z.pos p * 2 ^ Z.pos q.
Proof.
  induction q as [|q [IH1 IH2]] using Pos.peano_ind.
  - cbn [Pos.iter digits2_pos]. rewrite Pos2Z.inj_succ, Pos2Z.inj_xO. lia.
  - rewrite Pos.iter_succ. cbn [digits2_pos].
    rewrite !Pos2Z.inj_succ, Pos2Z.inj_xO, IH1, IH2, Z.pow_succ_r by lia. lia.
Qed.

(** A mantissa of 53 digits with an exponent in range is not rounded. *)
Lemma binary_round_aux_exact (sx : bool) (mz : positive) (e : Z) :
  Z.pos (digits2_pos mz) = 53 → -1074 ≤ e ≤ 971 →
  binary_round_aux Double.prec Double.emax sx (Z.pos mz) e loc_Exact
  = S754_finite sx mz e.
Proof.
  intros Hd He.
  assert (fexp Double.prec Double.emax (Z.pos (digits2_pos mz) + e) - e = 0) as Hk
    by (rewrite Hd; unfold fexp, emin, Double.prec, Double.emax; lia).
  unfold binary_round_aux, shr_fexp. cbn [shr_record_of_loc Zdigits2].
  rewrite Hk. cbn [shr shr_m loc_of_shr_record round_nearest_even Zdigits2].
  rewrite Hk. cbn [shr shr_m].
  by rewrite (proj2 (Z.leb_le e (Double.emax - Double.prec)))
    by (unfold Double.emax, Double.prec; lia).
Qed.

(** A significand of 53 digits followed by [q] zero bits is rounded to the
    significand itself. *)
Lemma binary_round_aux_shifted (sx : bool) (M mz : positive) (e q : Z) :
  0 < q → Z.pos M = Z.pos mz * 2 ^ q → Z.pos (digits2_pos mz) = 53 →
  -1074 ≤ e ≤ 971 →
  binary_round_aux Double.prec Double.emax sx (Z.pos M) (e - q) loc_Exact
  = S754_finite sx mz e.
Proof.
  intros Hq HM Hd He.
  pose proof (digits2_pos_bounds mz) as [Hz1 Hz2]. rewrite Hd in Hz1, Hz2.
  pose proof (digits2_pos_bounds M) as [HM1 HM2].
  assert (0 < 2 ^ q) as Hpq by (apply Z.pow_pos_nonneg; lia).
  assert (Z.pos (digits2_pos M) = 53 + q) as HdM.
  { assert (2 ^ (Z.pos (digits2_pos M) - 1) < 2 ^ (53 + q)) as H1.
    { rewrite Z.pow_add_r by lia. nia. }
    assert (2 ^ (52 + q) < 2 ^ Z.pos (digits2_pos M)) as H2.
    { rewrite Z.pow_add_r by lia. change (53 - 1) with 52 in Hz1. nia. }
    apply pow2_lt_exp in H1; [|lia]. apply pow2_lt_exp in H2; lia. }
  assert (fexp Double.prec Double.emax (Z.pos (digits2_pos mz) + e) - e = 0) as Hk
    by (rewrite Hd; unfold fexp, emin, Double.prec, Double.emax; lia).
  unfold binary_round_aux, shr_fexp. cbn [shr_record_of_loc Zdigits2].
  rewrite HdM.
  assert (fexp Double.prec Double.emax (53 + q + (e - q)) - (e - q) = q) as ->
    by (unfold fexp, emin, Double.prec, Double.emax; lia).
  pose proof (shr_inv_shift (Z.pos M) (e - q) q ltac:(lia)) as Hinv.
  cbv zeta in Hinv. destruct Hinv as [(H0 & Hb & Hex) He'].
  destruct (shr _ (e - q) q) as [[m r s] e']. cbn [fst snd shr_m shr_r shr_s] in *.
  rewrite Z.max_l in * by lia.
  assert (m = Z.pos mz) as -> by nia.
  assert (r || s = false) as Hrs by (apply Hex; lia).
  apply orb_false_iff in Hrs as [-> ->].
  cbn [loc_of_shr_record shr_r shr_s shr_m round_nearest_even shr_record_of_loc Zdigits2].
  replace e' with e by lia.
  rewrite Hk. cbn [shr shr_m].
  by rewrite (proj2 (Z.leb_le e (Double.emax - Double.prec)))
    by (unfold Double.emax, Double.prec; lia).
Qed.

(** [static_cast<double>(W)] of a positive [int]: a significand of 53 digits
    that holds [W] shifted to the left. *)
Lemma of_int_normal (W : Z) :
  0 < W ≤ Double.INT_MAX →
  ∃ m e, Double.of_int W = S754_finite false m e ∧ -52 ≤ e ≤ 0
         ∧ Z.pos m = W * 2 ^ (- e) ∧ Z.pos (digits2_pos m) = 53.
Proof.
  intros [HW Hmax]. destruct W as [|p|p]; [lia| |lia].
  pose proof (digits2_pos_bounds p) as [Hd1 Hd2].
  set (d := digits2_pos p) in *.
  assert (Z.pos d ≤ 31) as Hd.
  { assert (2 ^ (Z.pos d - 1) < 2 ^ 31) as Hlt by (unfold Double.INT_MAX in Hmax; lia).
    apply pow2_lt_exp in Hlt; lia. }
  set (q := Z.to_pos (53 - Z.pos d)).
  assert (Z.pos q = 53 - Z.pos d) as Hq by (unfold q; rewrite Z2Pos.id; lia).
  destruct (iter_xO_spec p q) as [Hdig Hval]. fold d in Hdig.
  exists (Pos.iter xO p q), (Z.neg q).
  split; [|split; [lia|split; [by rewrite Hval|lia]]].
  unfold Double.of_int, binary_normalize, binary_round. fold d.
  assert (fexp Double.prec Double.emax (Z.pos d + 0) = Z.neg q) as ->
    by (unfold fexp, emin, Double.prec, Double.emax; lia).
  unfold shl_align. rewrite Z.sub_0_r.
  apply binary_round_aux_exact; lia.
Qed.

(** [static_cast<double>(W)] of a positive [int] is exact. *)
Lemma of_int_pos (W : Z) :
  0 < W ≤ Double.INT_MAX →
  ∃ m e, Double.of_int W = S754_finite false m e ∧ -52 ≤ e ≤ 0
         ∧ Z.pos m = W * 2 ^ (- e).
Proof.
  intros HW. destruct (of_int_normal W HW) as (m & e & H1 & H2 & H3 & _).
  by exists m, e.
Qed.

Lemma to_int_finite_upper (m : positive) (e B n : Z) :
  1 ≤ B → 0 ≤ e + B → 0 ≤ n ≤ 2 * Double.INT_MAX →
  Z.pos m * 2 ^ (e + B) ≤ n * 2 ^ (B - 1) →
  0 ≤ Double.to_int (S754_finite false m e)
  ∧ 2 * Double.to_int (S754_finite false m e) ≤ n.
Proof.
  intros HB HeB Hn Hle. unfold Double.to_int.
  set (a := if 0 <=? e then Z.pos m * 2 ^ e else Z.pos m / 2 ^ (- e)).
  assert (0 ≤ a ∧ 2 * a ≤ n) as [Ha0 Ha].
  { assert (0 < 2 ^ (B - 1)) as HpB by (apply Z.pow_pos_nonneg; lia).
    unfold a. destruct (0 <=? e) eqn:Ee.
    - apply Z.leb_le in Ee.
      assert (0 < 2 ^ e) by (apply Z.pow_pos_nonneg; lia).
      replace (e + B) with (e + 1 + (B - 1)) in Hle by lia.
      rewrite Z.pow_add_r, Z.pow_add_r, Z.pow_1_r in Hle by lia. nia.
    - apply Z.leb_gt in Ee.
      assert (0 < 2 ^ (- e)) as Hpe by (apply Z.pow_pos_nonneg; lia).
      assert (0 < 2 ^ (e + B)) as Hpq by (apply Z.pow_pos_nonneg; lia).
      assert (2 ^ (B - 1) * 2 = 2 ^ (e + B) * 2 ^ (- e)) as Hsplit.
      { rewrite <- Z.pow_add_r by lia. replace (e + B + - e) with (B - 1 + 1) by lia.
        by rewrite Z.pow_add_r, Z.pow_1_r by lia. }
      assert (2 * Z.pos m ≤ n * 2 ^ (- e)) as H2m by nia.
      pose proof (Z.mul_div_le (Z.pos m) (2 ^ (- e)) Hpe) as Hdiv.
      pose proof (Z.div_pos (Z.pos m) (2 ^ (- e)) ltac:(lia) Hpe) as Hnn.
      split; [exact Hnn|]. nia. }
  cbv zeta. fold a.
  rewrite (proj2 (andb_true_iff _ _)); [lia|].
  unfold Double.INT_MIN, Double.INT_MAX in *. split; apply Z.leb_le; lia.
Qed.

(** The product of a non-negative [int] and a non-negative finite double,
    converted back to [int]: it is not negative, and it is at most every
    half-integer [n / 2] the exact product is at most. *)
Lemma to_int_mul_upper (W : Z) (f : Double.double) (n : Z) :
  0 ≤ W ≤ Double.INT_MAX → isFraction f = true → 0 ≤ n ≤ 2 * Double.INT_MAX →
  2 * W * fixedPoint f ≤ n * fixedOne →
  0 ≤ Double.to_int (Double.mul (Double.of_int W) f)
  ∧ 2 * Double.to_int (Double.mul (Double.of_int W) f) ≤ n.
Proof.
  intros [HW0 HWmax] Hf Hn Hle.
  destruct (decide (W = 0)) as [->|HWne].
  { assert (Double.of_int 0 = S754_zero false) as -> by reflexivity.
    destruct f as [s|s| |[|] m e]; try done; cbn; lia. }
  destruct (of_int_pos W) as (mW&eW&->&HeW&HmW); [lia|].
  destruct f as [s|s| |[|] mf ef]; try done.
  { cbn. lia. }
  cbn in Hf. apply Z.leb_le in Hf.
  unfold Double.mul, SFmul. cbn [xorb].
  set (B := 1126).
  pose proof (binary_round_aux_upper false (mW * mf) (eW + ef) B n) as HK.
  assert (0 < 2 ^ (ef + 1074)) as Hpf by (apply Z.pow_pos_nonneg; lia).
  assert (Z.pos (mW * mf) * 2 ^ (eW + ef + B) ≤ n * 2 ^ (B - 1)) as HM.
  { rewrite Pos2Z.inj_mul, HmW.
    replace (eW + ef + B) with ((eW + 52) + (ef + 1074)) by (unfold B; lia).
    rewrite Z.pow_add_r by lia.
    assert (W * 2 ^ (- eW) * 2 ^ (eW + 52) = W * 2 ^ 52) as Hw.
    { rewrite <- Z.mul_assoc, <- Z.pow_add_r by lia. f_equal. f_equal. lia. }
    unfold fixedPoint in Hle. unfold fixedOne in Hle.
    replace (B - 1) with (1074 + 51) by (unfold B; lia).
    rewrite (Z.pow_add_r 2 1074 51) by lia.
    assert (0 < 2 ^ 1074) by (apply Z.pow_pos_nonneg; lia).
    set (F := Z.pos mf * 2 ^ (ef + 1074)) in *.
    set (S := 2 ^ 1074) in *.
    replace (W * 2 ^ (- eW) * Z.pos mf * (2 ^ (eW + 52) * 2 ^ (ef + 1074)))
      with (W * 2 ^ (- eW) * 2 ^ (eW + 52) * F) by (unfold F; ring).
    rewrite Hw.
    replace (2 ^ 52) with (2 * 2 ^ 51) by reflexivity.
    assert (0 < 2 ^ 51) by lia. nia. }
  specialize (HK ltac:(unfold B; lia) ltac:(unfold B; lia)
                 ltac:(unfold Double.INT_MAX in Hn; lia) HM).
  destruct (binary_round_aux _ _ _ _ _ _) as [s|s| |s m e]; [|done|done|].
  - cbn. lia.
  - destruct HK as (->&HeB&Hfin).
    apply (to_int_finite_upper m e B n); [unfold B; lia|done|done|done].
Qed.

Lemma isFraction_nonneg f : isFraction f = true → 0 ≤ fixedPoint f.
Proof.
  destruct f as [s|s| |[|] m e]; try done. cbn. intros H%Z.leb_le.
  assert (0 < 2 ^ (e + 1074)) by (apply Z.pow_pos_nonneg; lia). lia.
Qed.

(** A corner and an extent that fit the unit interval give a span of pixels
    within [0, W). *)
Lemma span_within (W : Z) (fx fw : Double.double) :
  0 ≤ W ≤ Double.INT_MAX → isFraction fx = true → isFraction fw = true →
  fixedPoint fx + fixedPoint fw ≤ fixedOne →
  0 ≤ Double.to_int (Double.mul (Double.of_int W) fx)
  ∧ Double.to_int (Double.mul (Double.of_int W) fx)
    + Double.to_int (Double.mul (Double.of_int W) fw) ≤ W.
Proof.
  intros HW Hx Hw Hsum.
  pose proof (isFraction_nonneg _ Hx) as Hx0.
  pose proof (isFraction_nonneg _ Hw) as Hw0.
  assert (0 < fixedOne) as HS by (unfold fixedOne; apply Z.pow_pos_nonneg; lia).
  set (Fx := fixedPoint fx) in *. set (Fw := fixedPoint fw) in *.
  set (S := fixedOne) in *.
  set (k := Double.to_int (Double.mul (Double.of_int W) fx)).
  set (j := Double.to_int (Double.mul (Double.of_int W) fw)).
  assert (0 ≤ k ≤ Double.INT_MAX) as Hk.
  { destruct (to_int_mul_upper W fx (2 * Double.INT_MAX)) as [H0 H1];
      [done|done|unfold Double.INT_MAX; lia| |fold k in H0, H1; lia].
    fold Fx S. unfold Double.INT_MAX in *. nia. }
  assert (0 ≤ j ≤ Double.INT_MAX) as Hj.
  { destruct (to_int_mul_upper W fw (2 * Double.INT_MAX)) as [H0 H1];
      [done|done|unfold Double.INT_MAX; lia| |fold j in H0, H1; lia].
    fold Fw S. unfold Double.INT_MAX in *. nia. }
  assert ((2 * k - 1) * S < 2 * W * Fx) as Hkx.
  { destruct (decide (k = 0)) as [->|Hk0]; [nia|].
    destruct (Z.lt_ge_cases ((2 * k - 1) * S) (2 * W * Fx)) as [|Hle]; [done|].
    destruct (to_int_mul_upper W fx (2 * k - 1)) as [_ H1];
      [done|done|lia|exact Hle|]. fold k in H1. lia. }
  assert ((2 * j - 1) * S < 2 * W * Fw) as Hjw.
  { destruct (decide (j = 0)) as [->|Hj0]; [nia|].
    destruct (Z.lt_ge_cases ((2 * j - 1) * S) (2 * W * Fw)) as [|Hle]; [done|].
    destruct (to_int_mul_upper W fw (2 * j - 1)) as [_ H1];
      [done|done|lia|exact Hle|]. fold j in H1. lia. }
  split; [lia|]. nia.
Qed.

(** A user region of the unit square is converted to a rectangle whose
    pixels all lie within the bitmap it is converted against. *)
Lemma region_within (i : Qt.QImage) (r : region_t) :
  0 ≤ Qt.iwidth i ≤ Double.INT_MAX → 0 ≤ Qt.iheight i ≤ Double.INT_MAX →
  inUnitSquare r →
  pixelsWithin i (CreateQRectFromVideoFrameDims (Qt.iwidth i) (Qt.iheight i) r).
Proof.
  intros HW HH (Hx&Hy&Hw&Hh&Hsx&Hsy).
  destruct (span_within (Qt.iwidth i) _ _ HW Hx Hw Hsx) as [X0 X1].
  destruct (span_within (Qt.iheight i) _ _ HH Hy Hh Hsy) as [Y0 Y1].
  unfold pixelsWithin, CreateQRectFromVideoFrameDims, Qt.rect.
  cbn [Qt.x1 Qt.y1 Qt.x2 Qt.y2]. lia.
Qed.

(** Scaling an [int] that is not negative by the factor one gives the [int]
    back. *)
Lemma scale_by_one (v : Z) :
  0 ≤ v ≤ Double.INT_MAX →
  Double.to_int (Double.mul (Double.of_int v) Double.one) = v.
Proof.
  intros Hv. destruct (decide (v = 0)) as [->|Hv0]; [reflexivity|].
  destruct (of_int_normal v ltac:(lia)) as (m & e & -> & He & Hm & Hd).
  change Double.one with (S754_finite false 4503599627370496 (-52)).
  unfold Double.mul, SFmul. cbn [xorb].
  change (e + -52) with (e - 52).
  rewrite (binary_round_aux_shifted false _ m e 52); [|lia| |done|lia].
  - unfold Double.to_int.
    assert (0 < 2 ^ (- e)) by (apply Z.pow_pos_nonneg; lia).
    assert ((if 0 <=? e then Z.pos m * 2 ^ e else Z.pos m / 2 ^ (- e)) = v) as ->.
    { destruct (0 <=? e) eqn:E.
      - apply Z.leb_le in E. assert (e = 0) as -> by lia. cbn in Hm. cbn. lia.
      - rewrite Hm, Z.div_mul; lia. }
    unfold Double.INT_MIN, Double.INT_MAX in *.
    rewrite (proj2 (Z.leb_le _ _)), (proj2 (Z.leb_le _ _)) by lia. done.
  - rewrite Pos2Z.inj_mul. reflexivity.
Qed.

(** Unscaled, a motion rectangle whose corners have coordinates that are not
    negative is drawn where the detector reported it. *)
Lemma rescaleRect_one (q : Qt.QRect) :
  0 ≤ Qt.x1 q ≤ Double.INT_MAX → 0 ≤ Qt.y1 q ≤ Double.INT_MAX →
  0 ≤ Qt.x2 q ≤ Double.INT_MAX → 0 ≤ Qt.y2 q ≤ Double.INT_MAX →
  rescaleRect Double.one q = q.
Proof.
  intros H1 H2 H3 H4. unfold rescaleRect. destruct (Qt.isNull q); [done|].
  unfold Qt.setTop, Qt.setLeft, Qt.setRight, Qt.setBottom, Qt.top, Qt.left,
    Qt.right, Qt.bottom. cbn [Qt.x1 Qt.y1 Qt.x2 Qt.y2].
  rewrite !scale_by_one by done. by destruct q.
Qed.

(** ** The frame renderer *)

Lemma subscript_fst {V} (d : V) k (m : gmap eCamId V) :
  fst (subscript d k m) = default d (m !! k).
Proof. unfold subscript. by destruct (m !! k). Qed.

Lemma subscript_snd_lookup {V} (d : V) k (m : gmap eCamId V) :
  snd (subscript d k m) !! k = Some (default d (m !! k)).
Proof.
  unfold subscript. destruct (m !! k) eqn:E; cbn; [done|apply lookup_insert_eq].
Qed.


Lemma paint_size i ops :
  Qt.iwidth (Qt.paint i ops) = Qt.iwidth i ∧ Qt.iheight (Qt.paint i ops) = Qt.iheight i.
Proof. unfold Qt.paint. by destruct (Qt.imageIsNull i). Qed.

Lemma composeFrame_size feedW feedH img rect rec en regions :
  Qt.iwidth (composeFrame feedW feedH img rect rec en regions)
  = Qt.iwidth (snd (scaleToFeed feedW feedH img))
  ∧ Qt.iheight (composeFrame feedW feedH img rect rec en regions)
    = Qt.iheight (snd (scaleToFeed feedW feedH img)).
Proof.
  unfold composeFrame. cbv zeta. destruct (_ || _); [apply paint_size|done].
Qed.

(** The size Qt settles on never exceeds the requested one. *)
Lemma scaled_fits i w h :
  Qt.iwidth (Qt.scaled i w h) ≤ Z.max w 0 ∧ Qt.iheight (Qt.scaled i w h) ≤ Z.max h 0.
Proof.
  unfold Qt.scaled, Qt.imageIsNull.
  destruct (Qt.iwidth i <=? 0) eqn:Ew; [cbn; lia|].
  destruct (Qt.iheight i <=? 0) eqn:Eh; [cbn; lia|].
  destruct (w <? 1) eqn:Ew1; [cbn; lia|].
  destruct (h <? 1) eqn:Eh1; [cbn; lia|].
  cbn [orb].
  apply Z.leb_gt in Ew, Eh. apply Z.ltb_ge in Ew1, Eh1.
  set (ns := Qt.size_scaled_keep _ _).
  assert (Qt.wd ns ≤ w ∧ Qt.ht ns ≤ h) as [Hw Hh].
  { subst ns. unfold Qt.size_scaled_keep. cbn.
    rewrite (proj2 (Z.eqb_neq _ 0)), (proj2 (Z.eqb_neq _ 0)) by lia. cbn.
    rewrite !Z.quot_div_nonneg by nia.
    destruct (_ <=? w) eqn:E; cbn.
    - apply Z.leb_le in E. lia.
    - apply Z.leb_gt in E. split; [lia|].
      apply Z.div_le_upper_bound; [lia|].
      assert (w + 1 ≤ Z.div (h * Qt.iwidth i) (Qt.iheight i)) as H1 by lia.
      assert (Qt.iheight i * Z.div (h * Qt.iwidth i) (Qt.iheight i) ≤ h * Qt.iwidth i)
        by (apply Z.mul_div_le; lia).
      nia. }
  destruct (_ && _) eqn:E.
  - apply andb_true_iff in E as [E1 E2]. apply Z.eqb_eq in E1, E2. lia.
  - cbn. lia.
Qed.


Lemma rescaleRect_null scalar rect :
  Qt.isNull rect = true → rescaleRect scalar rect = rect.
Proof. intros H. unfold rescaleRect. by rewrite H. Qed.


(** C3.  A 1920x1080 frame shown in a 640x360 feed gives a 640x360 bitmap
    with scale factor 640/1920, the double nearest to 1/3; the motion
    rectangle (300,300,100,100) of the raw frame is drawn at (100,100,34,34),
    each value within one pixel of (100,100,33,33).  For every frame and
    feed, the frame is rescaled exactly when it is wider or taller than the
    feed, with factor newWidth / rawWidth; otherwise the factor is 1 and the
    frame is shown as it is. *)
Theorem C3_full_hd_frame_in_640x360_feed :
  (∀ px,
     let frame := Qt.MkImage 1920 1080 px in
     let shown := composeFrame 640 360 frame (Qt.rect 300 300 100 100) false false [] in
     let drawn := rescaleRect (fst (scaleToFeed 640 360 frame)) (Qt.rect 300 300 100 100) in
     Qt.iwidth shown = 640 ∧ Qt.iheight shown = 360
     ∧ fst (scaleToFeed 640 360 frame) = Double.div (Double.of_int 1) (Double.of_int 3)
     ∧ paintOps shown = [Qt.DrawRect (Qt.MkPen Qt.green 2) drawn]
     ∧ drawn = Qt.rect 100 100 34 34
     ∧ Z.abs (Qt.left drawn - 100) ≤ 1 ∧ Z.abs (Qt.top drawn - 100) ≤ 1
     ∧ Z.abs (Qt.rwidth drawn - 33) ≤ 1 ∧ Z.abs (Qt.rheight drawn - 33) ≤ 1)
  ∧ (∀ feedW feedH frame,
       scaleToFeed feedW feedH frame
       = if bool_decide (feedW < Qt.iwidth frame ∨ feedH < Qt.iheight frame)
         then (Double.div (Double.of_int (fst (fittedSize feedW feedH frame)))
                 (Double.of_int (Qt.iwidth frame)),
               Qt.scaled frame (fst (fittedSize feedW feedH frame))
                 (snd (fittedSize feedW feedH frame)))
         else (Double.one, frame)).
Proof.
  split.
  - intros px. vm_compute. repeat split; congruence.
  - intros feedW feedH frame. unfold scaleToFeed, exceedsFeed.
    case_bool_decide as H.
    + rewrite (proj2 (orb_true_iff _ _)); [done|].
      destruct H; [left|right]; by apply Z.ltb_lt.
    + rewrite (proj2 (orb_false_iff _ _)); [done|].
      split; apply Z.ltb_ge; lia.
Qed.







Lemma scaled_cases i w h :
  Qt.scaled i w h = i
  ∨ Qt.scaled i w h = Qt.nullImage
  ∨ Qt.scaled i w h
    = Qt.MkImage (Qt.iwidth (Qt.scaled i w h)) (Qt.iheight (Qt.scaled i w h))
        (Qt.SmoothScaled (Qt.pixels i) (Qt.iwidth (Qt.scaled i w h))
           (Qt.iheight (Qt.scaled i w h))).
Proof.
  unfold Qt.scaled. destruct (Qt.imageIsNull i); [by right; left|].
  destruct (_ || _); [by right; left|].
  destruct (_ && _); [by left|by right; right].
Qed.

Lemma labelRect_within i :
  withinFrame i (labelRect i) = (1 <=? Qt.iwidth i) && (17 <=? Qt.iheight i).
Proof.
  unfold withinFrame, labelRect, Qt.imageRect, Qt.rect, Qt.setTop, Qt.top. cbn.
  destruct (1 <=? Qt.iwidth i) eqn:E1, (17 <=? Qt.iheight i) eqn:E2; cbn;
    rewrite ?andb_true_iff, ?andb_false_iff, ?Z.leb_le, ?Z.ltb_lt, ?Z.leb_gt, ?Z.ltb_ge;
    rewrite ?Z.leb_le, ?Z.leb_gt in E1, E2; lia.
Qed.

Lemma to_int_range (d : Double.double) :
  Double.INT_MIN ≤ Double.to_int d ≤ Double.INT_MAX.
Proof.
  unfold Double.to_int, Double.INT_MIN, Double.INT_MAX.
  destruct d as [s|s| |s m e]; try lia.
  set (v := if s then _ else _).
  destruct (Z.leb_spec (-2147483648) v), (Z.leb_spec v 2147483647); cbn [andb]; lia.
Qed.

Lemma fittedSize_range feedW feedH frame :
  feedW ≤ Double.INT_MAX → feedH ≤ Double.INT_MAX →
  fst (fittedSize feedW feedH frame) ≤ Double.INT_MAX
  ∧ snd (fittedSize feedW feedH frame) ≤ Double.INT_MAX.
Proof.
  intros HW HH. unfold fittedSize. cbv zeta.
  destruct (Double.ltb _ _); cbn [fst snd]; split; try done; apply to_int_range.
Qed.

Lemma scaled_nonneg i w h :
  0 ≤ Qt.iwidth i → 0 ≤ Qt.iheight i →
  0 ≤ Qt.iwidth (Qt.scaled i w h) ∧ 0 ≤ Qt.iheight (Qt.scaled i w h).
Proof.
  intros Hw Hh. unfold Qt.scaled.
  destruct (Qt.imageIsNull i); [done|]. destruct (_ || _); [done|].
  destruct (_ && _); [done|]. cbn. lia.
Qed.

(** The displayed bitmap has dimensions an [int] holds. *)
Lemma display_range feedW feedH frame :
  0 ≤ Qt.iwidth frame ≤ Double.INT_MAX → 0 ≤ Qt.iheight frame ≤ Double.INT_MAX →
  feedW ≤ Double.INT_MAX → feedH ≤ Double.INT_MAX →
  let display := snd (scaleToFeed feedW feedH frame) in
  0 ≤ Qt.iwidth display ≤ Double.INT_MAX ∧ 0 ≤ Qt.iheight display ≤ Double.INT_MAX.
Proof.
  intros Hw Hh HW HH. cbv zeta. unfold scaleToFeed.
  destruct (exceedsFeed _ _ _); cbn [snd]; [|done].
  destruct (fittedSize_range feedW feedH frame HW HH) as [F1 F2].
  destruct (scaled_fits frame (fst (fittedSize feedW feedH frame))
              (snd (fittedSize feedW feedH frame))) as [S1 S2].
  destruct (scaled_nonneg frame (fst (fittedSize feedW feedH frame))
              (snd (fittedSize feedW feedH frame))) as [N1 N2]; [lia|lia|].
  unfold Double.INT_MAX in *. lia.
Qed.

Lemma withinFrame_size i j q :
  Qt.iwidth i = Qt.iwidth j → Qt.iheight i = Qt.iheight j →
  withinFrame i q = withinFrame j q.
Proof. unfold withinFrame. by intros -> ->. Qed.

Lemma labelRect_size i j :
  Qt.iwidth i = Qt.iwidth j → Qt.iheight i = Qt.iheight j → labelRect i = labelRect j.
Proof. unfold labelRect, Qt.imageRect. by intros -> ->. Qed.

(** The rectangles drawn in cyan are the user regions. *)
Lemma annotations_cyan display rect rec en regions pen q :
  Qt.DrawRect pen q ∈ annotations display rect rec en regions →
  Qt.pen_color pen = Qt.cyan →
  ∃ r, r ∈ regions
       ∧ q = CreateQRectFromVideoFrameDims (Qt.iwidth display) (Qt.iheight display) r.
Proof.
  unfold annotations. cbv zeta. intros Hin Hpen.
  apply elem_of_app in Hin as [Hin|Hin].
  - apply list_elem_of_fmap in Hin as (q' & E & Hq). injection E as _ ->.
    unfold drawnRegions in Hq. destruct en; [|by apply elem_of_nil in Hq].
    apply list_elem_of_fmap in Hq as (r & -> & Hr). by exists r.
  - apply elem_of_app in Hin as [Hin|Hin].
    + destruct (Qt.isNull rect); [by apply elem_of_nil in Hin|].
      apply list_elem_of_singleton in Hin. injection Hin as -> _.
      unfold motionPen in Hpen. cbn in Hpen. by destruct (intersectsMotionRegion _ _).
    + destruct rec; [|by apply elem_of_nil in Hin].
      by apply list_elem_of_singleton in Hin.
Qed.

(** Every other rectangle drawn is the rescaled motion rectangle. *)
Lemma annotations_motion display rect rec en regions pen q :
  Qt.DrawRect pen q ∈ annotations display rect rec en regions →
  Qt.pen_color pen ≠ Qt.cyan →
  q = rect ∧ Qt.isNull rect = false.
Proof.
  unfold annotations. cbv zeta. intros Hin Hpen.
  apply elem_of_app in Hin as [Hin|Hin].
  - apply list_elem_of_fmap in Hin as (q' & E & Hq). injection E as -> _. done.
  - apply elem_of_app in Hin as [Hin|Hin].
    + destruct (Qt.isNull rect); [by apply elem_of_nil in Hin|].
      apply list_elem_of_singleton in Hin. by injection Hin as _ ->.
    + destruct rec; [|by apply elem_of_nil in Hin].
      by apply list_elem_of_singleton in Hin.
Qed.

(** The one text drawn is the recording label. *)
Lemma annotations_label display rect rec en regions pen q text :
  Qt.DrawText pen q text ∈ annotations display rect rec en regions →
  q = labelRect display ∧ rec = true.
Proof.
  unfold annotations. cbv zeta. intros Hin.
  apply elem_of_app in Hin as [Hin|Hin].
  - by apply list_elem_of_fmap in Hin as (q' & E & Hq).
  - apply elem_of_app in Hin as [Hin|Hin].
    + destruct (Qt.isNull rect); [by apply elem_of_nil in Hin|].
      by apply list_elem_of_singleton in Hin.
    + destruct rec; [|by apply elem_of_nil in Hin].
      apply list_elem_of_singleton in Hin. by injection Hin as _ ->.
Qed.

Lemma withinFrame_coordinates i q :
  Qt.iwidth i ≤ Double.INT_MAX → Qt.iheight i ≤ Double.INT_MAX →
  withinFrame i q = true →
  isCoordinate (Qt.x1 q) ∧ isCoordinate (Qt.y1 q)
  ∧ isCoordinate (Qt.x2 q) ∧ isCoordinate (Qt.y2 q).
Proof.
  unfold withinFrame, isCoordinate. intros Hw Hh H.
  repeat (apply andb_true_iff in H as [H ?]).
  repeat match goal with
         | H : (_ <=? _) = true |- _ => apply Z.leb_le in H
         | H : (_ <? _) = true |- _ => apply Z.ltb_lt in H
         end.
  lia.
Qed.

(** C9, as the code has it.  For a frame and a feed whose dimensions are
    those of an [int], the renderer builds its result from the raw frame
    without changing it: the displayed bitmap is the frame itself or Qt's
    aspect-preserving rescale of it, with the annotations painted on top when
    a painter was opened.  Unscaled, the bitmap has the dimensions of the
    frame; rescaled, its dimensions never exceed newWidth x newHeight.  Every
    user region that lies in the unit square is drawn, in cyan, on pixels of
    the bitmap only.  The rectangle of the recording label lies within the
    bitmap exactly when the bitmap is at least one pixel wide and more than 16
    pixels high.  A motion rectangle that lies within the raw frame lies
    within the bitmap when the frame is shown unscaled; rescaled, it is drawn
    where the products put it. *)
Theorem C9_rendered_bitmap_and_its_annotations
    (feedW feedH : Z) (frame : Qt.QImage) (motionRect : Qt.QRect)
    (isRecording editOn : bool) (regions : regions_t)
    (Hwidth : 0 ≤ Qt.iwidth frame ≤ Double.INT_MAX)
    (Hheight : 0 ≤ Qt.iheight frame ≤ Double.INT_MAX)
    (Hfeed : feedW ≤ Double.INT_MAX ∧ feedH ≤ Double.INT_MAX) :
  let sd := scaleToFeed feedW feedH frame in
  let display := snd sd in
  let rect := rescaleRect (fst sd) motionRect in
  let ops := annotations display rect isRecording editOn regions in
  let shown := composeFrame feedW feedH frame motionRect isRecording editOn regions in
  (display = frame ∨ display = Qt.nullImage
   ∨ display = Qt.MkImage (Qt.iwidth display) (Qt.iheight display)
                 (Qt.SmoothScaled (Qt.pixels frame) (Qt.iwidth display)
                    (Qt.iheight display)))
  ∧ (shown = display
     ∨ shown = Qt.MkImage (Qt.iwidth display) (Qt.iheight display)
                 (Qt.Painted (Qt.pixels display) ops))
  ∧ (if exceedsFeed feedW feedH frame
     then Qt.iwidth shown ≤ Z.max (fst (fittedSize feedW feedH frame)) 0
          ∧ Qt.iheight shown ≤ Z.max (snd (fittedSize feedW feedH frame)) 0
     else Qt.iwidth shown = Qt.iwidth frame ∧ Qt.iheight shown = Qt.iheight frame)
  ∧ (∀ pen q, Qt.DrawRect pen q ∈ ops → Qt.pen_color pen = Qt.cyan →
       ∃ r, r ∈ regions
            ∧ q = CreateQRectFromVideoFrameDims (Qt.iwidth shown) (Qt.iheight shown) r
            ∧ (inUnitSquare r → pixelsWithin shown q))
  ∧ (∀ pen q text, Qt.DrawText pen q text ∈ ops →
       q = labelRect shown
       ∧ withinFrame shown q = (1 <=? Qt.iwidth shown) && (17 <=? Qt.iheight shown))
  ∧ (∀ pen q, Qt.DrawRect pen q ∈ ops → Qt.pen_color pen ≠ Qt.cyan →
       q = rect
       ∧ (exceedsFeed feedW feedH frame = false → withinFrame frame motionRect = true →
          q = motionRect ∧ withinFrame shown q = true)).
Proof.
  cbv zeta. destruct Hfeed as [HW HH].
  destruct (composeFrame_size feedW feedH frame motionRect isRecording editOn regions)
    as [Hw Hh].
  destruct (display_range feedW feedH frame Hwidth Hheight HW HH) as [Dw Dh].
  set (sd := scaleToFeed feedW feedH frame) in *.
  set (shown := composeFrame feedW feedH frame motionRect isRecording editOn regions) in *.
  split; [|split; [|split; [|split; [|split]]]].
  - subst sd. unfold scaleToFeed. destruct (exceedsFeed _ _ _); cbn [snd]; [|by left].
    apply scaled_cases.
  - subst shown. unfold composeFrame. cbv zeta. fold sd. destruct (_ || _); [|by left].
    unfold Qt.paint. destruct (Qt.imageIsNull _); [by left|by right].
  - rewrite Hw, Hh. subst sd. unfold scaleToFeed.
    destruct (exceedsFeed _ _ _); cbn [snd]; [apply scaled_fits|done].
  - intros pen q Hin Hpen.
    destruct (annotations_cyan _ _ _ _ _ _ _ Hin Hpen) as (r & Hr & ->).
    exists r. rewrite Hw, Hh. split; [done|]. split; [done|]. intros Hunit.
    destruct (region_within (snd sd) r Dw Dh Hunit) as (P1&P2&P3&P4).
    unfold pixelsWithin. rewrite Hw, Hh. done.
  - intros pen q text Hin.
    destruct (annotations_label _ _ _ _ _ _ _ _ Hin) as [-> _].
    split; [by apply labelRect_size|].
    rewrite (labelRect_size (snd sd) shown) by done. apply labelRect_within.
  - intros pen q Hin Hpen.
    destruct (annotations_motion _ _ _ _ _ _ _ Hin Hpen) as [-> _].
    split; [done|]. intros Hun Hin'.
    destruct (withinFrame_coordinates frame motionRect ltac:(lia) ltac:(lia) Hin')
      as (C1&C2&C3&C4).
    assert (sd = (Double.one, frame)) as Hsd
      by (subst sd; unfold scaleToFeed; by rewrite Hun).
    rewrite Hsd in *. cbn [fst snd] in *.
    rewrite rescaleRect_one by done. split; [done|].
    by rewrite (withinFrame_size shown frame).
Qed.

Lemma C9_witness :
  let frame := Qt.MkImage 1920 1080 (Qt.Captured 1) in
  let region := regionOfSelection middleSelection in
  let shown := composeFrame 640 360 frame (Qt.rect 300 300 100 100) true true [region] in
  (0 ≤ Qt.iwidth frame ≤ Double.INT_MAX ∧ 0 ≤ Qt.iheight frame ≤ Double.INT_MAX
   ∧ 640 ≤ Double.INT_MAX ∧ 360 ≤ Double.INT_MAX)
  ∧ inUnitSquare region
  ∧ paintOps shown
    = [Qt.DrawRect (Qt.MkPen Qt.cyan 2) (Qt.MkRect 160 90 479 269);
       Qt.DrawRect (Qt.MkPen Qt.green 2) (Qt.MkRect 100 100 133 133);
       Qt.DrawText (Qt.MkPen Qt.red 1) (Qt.MkRect 0 16 639 359) "Recording"]
  ∧ pixelsWithin shown (Qt.MkRect 160 90 479 269).
Proof.
  cbv zeta.
  assert (inUnitSquare (regionOfSelection middleSelection)) as Hunit.
  { vm_compute. repeat split; discriminate. }
  split; [vm_compute; repeat split; discriminate|].
  split; [exact Hunit|]. split; [reflexivity|].
  destruct (C9_rendered_bitmap_and_its_annotations 640 360
              (Qt.MkImage 1920 1080 (Qt.Captured 1)) (Qt.rect 300 300 100 100) true true
              [regionOfSelection middleSelection])
    as (_ & _ & _ & Hregions & _).
  - vm_compute. split; discriminate.
  - vm_compute. split; discriminate.
  - vm_compute. split; discriminate.
  - destruct (Hregions (Qt.MkPen Qt.cyan 2) (Qt.MkRect 160 90 479 269))
      as (r & Hr & _ & Hin).
    + vm_compute. apply list_elem_of_here.
    + reflexivity.
    + apply list_elem_of_singleton in Hr as ->. exact (Hin Hunit).
Defined.

(** C9, as the claim has it, fails: a 1920x1080 frame in a 380x250 feed, with
    a motion rectangle that lies within the raw frame and touches its bottom
    edge.  The code computes 380x213 and the factor 380/1920; the bitmap Qt
    returns is 378x213, and the rectangle is drawn down to row 213, one row
    below the last row of the bitmap. *)
Lemma C9_motion_rectangle_drawn_below_the_bitmap :
  let frame := Qt.MkImage 1920 1080 (Qt.Captured 1) in
  let motionRect := Qt.rect 900 980 100 100 in
  let shown := composeFrame 380 250 frame motionRect false false [] in
  withinFrame frame motionRect = true
  ∧ fittedSize 380 250 frame = (380, 213)
  ∧ Qt.iwidth shown = 378 ∧ Qt.iheight shown = 213
  ∧ paintOps shown = [Qt.DrawRect (Qt.MkPen Qt.green 2) (Qt.MkRect 178 193 197 213)]
  ∧ annotationsWithinFrame shown = false.
Proof. vm_compute. done. Qed.

(** ** The affordances of a slot *)

Lemma resetButtons_affordances s w :
  affordances (slotUi s (ui (resetButtons s w))) = disconnectedAffordances.
Proof.
  unfold resetButtons, motionRegionsBtn_setChecked,
    on_motionDetectorRegionsToolButton_toggled, EnableMotionRegionsSetup, Qt.setChecked.
  cbv zeta. destruct s; cbn; repeat (case_match; cbn); reflexivity.
Qed.

Lemma resetWidgets_affordances c s w :
  affordances (slotUi s (ui (resetWidgets c s w))) = disconnectedAffordances.
Proof. apply resetButtons_affordances. Qed.

Lemma disconnect_affordances camera s w :
  affordances (slotUi s (ui (disconnectCamera camera s w))) = disconnectedAffordances.
Proof.
  unfold disconnectCamera. cbv zeta.
  destruct (countDown_fields
              (eraseRegionSetup (camId camera)
                 (resetWidgets (camId camera) s
                    (eraseCamera (camId camera) (closeFormOf (camId camera) w)))))
    as (_&_&_&_&_&_&_&_&_&->&_).
  destruct (eraseRegionSetup_fields (camId camera)
              (resetWidgets (camId camera) s
                 (eraseCamera (camId camera) (closeFormOf (camId camera) w))))
    as (_&_&_&_&_&_&_&_&_&->&_).
  apply resetWidgets_affordances.
Qed.

Lemma FindCamera_camId c db camera : FindCamera c db = Some camera → camId camera = c.
Proof. unfold FindCamera. destruct (cameras db !! c); intros; by simplify_eq/=. Qed.

(** A click on connect for a camera that is configured and not bound, with a
    construction that succeeds, is the connect branch. *)
Lemma on_connect_connects s w camera :
  FindCamera (slotCam s) (m_camDb w) = Some camera →
  m_streamProcessors w !! slotCam s = None →
  on_connectToolButton_clicked s Built w = connectCamera camera s Built (stopTimer w).
Proof.
  intros Hcfg Hfree. unfold on_connectToolButton_clicked. rewrite Hcfg.
  rewrite ConnectionHandler_unfold, (FindCamera_camId _ _ _ Hcfg).
  rewrite bool_decide_eq_false_2; [done|]. rewrite Hfree. by intros [? ?].
Qed.

(** A click on connect for a camera that is configured and bound is the
    disconnect branch, whatever a construction would do. *)
Lemma on_connect_disconnects s o w camera :
  FindCamera (slotCam s) (m_camDb w) = Some camera →
  is_Some (m_streamProcessors w !! slotCam s) →
  on_connectToolButton_clicked s o w = disconnectCamera camera s (stopTimer w).
Proof.
  intros Hcfg Hbound. unfold on_connectToolButton_clicked. rewrite Hcfg.
  rewrite ConnectionHandler_unfold, (FindCamera_camId _ _ _ Hcfg).
  by rewrite bool_decide_eq_true_2.
Qed.

(** C5.  With the camera configuration unchanged, connecting a disconnected
    slot and toggling again leaves the slot disconnected with the affordances
    it started from: record, snapshot, expand, storage and edit-regions
    disabled and the connect icon shown. *)
Theorem C5_connect_then_disconnect_restores_affordances
    (s : Slot) (o : Construction) (w : MainWindow) (camera : IpCamera)
    (Hcfg : FindCamera (slotCam s) (m_camDb w) = Some camera)
    (Hfree : m_streamProcessors w !! slotCam s = None)
    (Horig : affordances (slotUi s (ui w)) = disconnectedAffordances) :
  let connected := on_connectToolButton_clicked s Built w in
  let back := on_connectToolButton_clicked s o connected in
  is_Some (m_streamProcessors connected !! slotCam s)
  ∧ m_streamProcessors back !! slotCam s = None
  ∧ affordances (slotUi s (ui back)) = affordances (slotUi s (ui w))
  ∧ affordances (slotUi s (ui back))
    = MkAffordances false false false false false ICON_CONNECT.
Proof.
  cbv zeta. rewrite (on_connect_connects s w camera Hcfg Hfree).
  pose proof (FindCamera_camId _ _ _ Hcfg) as Hid.
  assert (is_Some (m_streamProcessors (connectCamera camera s Built (stopTimer w))
                   !! slotCam s)) as Hbound.
  { rewrite connect_built_streamProcessors, Hid, lookup_insert_eq. by eexists. }
  assert (FindCamera (slotCam s) (m_camDb (connectCamera camera s Built (stopTimer w)))
          = Some camera) as Hcfg'.
  { destruct (connect_camDb camera s Built (stopTimer w)) as [-> _].
    by destruct (stopTimer_fields w) as (_&_&_&->&_). }
  rewrite (on_connect_disconnects s o _ camera Hcfg' Hbound).
  split; [done|]. split.
  - destruct (disconnect_fields camera s
                (stopTimer (connectCamera camera s Built (stopTimer w)))) as (->&_).
    rewrite Hid. apply lookup_delete_eq.
  - rewrite Horig. split; apply disconnect_affordances.
Qed.

Lemma C5_witness :
  let connected := on_connectToolButton_clicked slot1 Built startWindow in
  let back := on_connectToolButton_clicked slot1 Built connected in
  affordances (slotUi slot1 (ui connected))
  = MkAffordances true true true false true ICON_DISCONNECT
  ∧ is_Some (m_streamProcessors connected !! slotCam slot1)
  ∧ m_streamProcessors back !! slotCam slot1 = None
  ∧ affordances (slotUi slot1 (ui back)) = affordances (slotUi slot1 (ui startWindow))
  ∧ affordances (slotUi slot1 (ui back))
    = MkAffordances false false false false false ICON_CONNECT.
Proof.
  cbv zeta. split; [reflexivity|].
  apply (C5_connect_then_disconnect_restores_affordances slot1 Built startWindow
           (MkCamera cam1 doorCamera)); reflexivity.
Defined.

(** ** Region editing *)

Lemma appendRegion_fields c region w :
  workingRegions c (appendRegion c region w) = (workingRegions c w ++ [region])%list
  ∧ sameConnections w (appendRegion c region w).
Proof.
  split; [|by repeat split].
  unfold workingRegions, appendRegion. cbn.
  by rewrite lookup_insert_eq, subscript_fst.
Qed.

Lemma clearRegions_fields c w :
  workingRegions c (clearRegions c w) = []
  ∧ sameConnections w (clearRegions c w).
Proof.
  split; [|by repeat split].
  unfold workingRegions, clearRegions. cbn. by rewrite lookup_insert_eq.
Qed.

Lemma storeWorkingRegions_fields c camera w :
  let w' := storeWorkingRegions c camera w in
  m_camDb w' = Save (UpdateCamera (with_motionRegions (workingRegions c w) camera)
                       (m_camDb w))
  ∧ workingRegions c w' = workingRegions c w
  ∧ m_streamProcessors w' = m_streamProcessors w
  ∧ m_numConnections w' = m_numConnections w
  ∧ m_prefs w' = m_prefs w
  ∧ m_motionAreaSetupEnabled w' = m_motionAreaSetupEnabled w.
Proof.
  cbv zeta. unfold storeWorkingRegions, workingRegions. cbn.
  rewrite subscript_fst, subscript_snd_lookup. done.
Qed.

(** The store after a camera record has been put into it and saved. *)
Lemma stored_camera c camera rs db :
  camId camera = c →
  let db' := Save (UpdateCamera (with_motionRegions rs camera) db) in
  FindCamera c db' = Some (with_motionRegions rs camera)
  ∧ persistedRegions c db' = Some rs.
Proof.
  intros <-. cbv zeta. unfold FindCamera, persistedRegions. cbn.
  rewrite lookup_insert_eq. cbn. by destruct camera.
Qed.

Lemma EnableMotionRegionsSetup_on c s b1 b2 w feed camera :
  m_camFeeds w !! c = Some feed →
  FindCamera c (m_camDb w) = Some camera →
  let w' := EnableMotionRegionsSetup c true s b1 b2 w in
  m_camMotionRegions w' !! c = Some (motionRegions (settings camera))
  ∧ m_motionAreaSetupEnabled w' !! c = Some true
  ∧ m_camFeeds w' !! c = Some (SetEnableSelection true feed).
Proof.
  intros Hf Hc. cbv zeta. unfold EnableMotionRegionsSetup. cbn.
  rewrite Hf. cbn. rewrite Hc. cbn. by rewrite !lookup_insert_eq.
Qed.

(** With the camera bound and the second construction succeeding,
    [ReconnectCamera] rebinds the camera to a stream processor built from the
    stored record, gives it a new feed, and re-enters region editing with
    the stored regions. *)
Lemma ReconnectCamera_rebinds s o1 w camera :
  FindCamera (slotCam s) (m_camDb w) = Some camera →
  is_Some (m_streamProcessors w !! slotCam s) →
  let c := slotCam s in
  let w' := ReconnectCamera c o1 Built w in
  m_streamProcessors (on_connectToolButton_clicked s o1 w) !! c = None
  ∧ m_streamProcessors w' !! c = Some (newStreamProcessor camera (m_prefs w))
  ∧ m_camMotionRegions w' !! c = Some (motionRegions (settings camera))
  ∧ m_motionAreaSetupEnabled w' !! c = Some true
  ∧ (∃ feed, m_camFeeds w' !! c = Some feed ∧ vf_frames feed = []
             ∧ vf_enableSelection feed = true)
  ∧ m_camDb w' = m_camDb w.
Proof.
  intros Hcfg Hbound. cbv zeta.
  pose proof (FindCamera_camId _ _ _ Hcfg) as Hid.
  unfold ReconnectCamera.
  assert (camSlot (slotCam s) = Some s) as -> by by destruct s.
  rewrite (on_connect_disconnects s o1 w camera Hcfg Hbound).
  set (wd := disconnectCamera camera s (stopTimer w)).
  destruct (disconnect_fields camera s (stopTimer w))
    as (Hsp&_&_&Hdb&Hpr&_&_&_&_&_). fold wd in Hsp, Hdb, Hpr.
  destruct (stopTimer_fields w) as (_&_&_&Hdb0&_&_&_&_&_&_&Hpr0).
  rewrite Hdb0 in Hdb. rewrite Hpr0 in Hpr.
  assert (m_streamProcessors wd !! slotCam s = None) as Hfree.
  { rewrite Hsp, Hid. apply lookup_delete_eq. }
  assert (FindCamera (slotCam s) (m_camDb wd) = Some camera) as Hcfg'
    by by rewrite Hdb.
  rewrite (on_connect_connects s wd camera Hcfg' Hfree).
  set (wc := connectCamera camera s Built (stopTimer wd)).
  destruct (stopTimer_fields wd) as (Hsp1&_&_&Hdb1&_&_&_&_&_&_&Hpr1).
  assert (m_camDb wc = m_camDb w) as Hdbc.
  { subst wc. destruct (connect_camDb camera s Built (stopTimer wd)) as [-> _].
    by rewrite Hdb1. }
  assert (m_camFeeds wc !! slotCam s
          = Some (MkFeed (cameraNumber (camId camera))
                    (Qt.wd (feedSizeFor (camId camera) (stopTimer wd)))
                    (Qt.ht (feedSizeFor (camId camera) (stopTimer wd))) false []))
    as Hfeed.
  { subst wc. rewrite connect_built_camFeeds, Hid. apply lookup_insert_eq. }
  assert (FindCamera (slotCam s) (m_camDb wc) = Some camera) as Hcfgc
    by by rewrite Hdbc.
  destruct (EnableMotionRegionsSetup_on (slotCam s) s RemoveRegionsBtn MotionRegionsBtn
              wc _ camera Hfeed Hcfgc) as (Hr&He&Hf).
  destruct (EnableMotionRegionsSetup_same (slotCam s) true s RemoveRegionsBtn
              MotionRegionsBtn wc) as (Hs1&_&_&Hs2&_).
  split; [done|]. rewrite Hs1, Hs2, Hr, He, Hf.
  repeat split; try done.
  - subst wc. rewrite connect_built_streamProcessors, Hid, lookup_insert_eq.
    by rewrite Hpr1, Hpr.
  - by eexists.
Qed.

Lemma workingRegions_lookup c w rs :
  m_camMotionRegions w !! c = Some rs → workingRegions c w = rs.
Proof. unfold workingRegions. by intros ->. Qed.

Lemma cameraNumber_target s :
  match cameraNumber (slotCam s) with
  | 1 => Some cam1 | 2 => Some cam2 | 3 => Some cam3 | 4 => Some cam4
  | _ => None
  end = Some (slotCam s).
Proof. by destruct s. Qed.

(** *** Region editing happens on bound cameras only *)

Lemma editingIsBoundAt_bindings k w w' :
  bindings w' = bindings w → editingIsBoundAt k w → editingIsBoundAt k w'.
Proof.
  unfold bindings, editingIsBoundAt. intros [= -> -> ->]. done.
Qed.

Lemma EnableMotionRegionsSetup_bound c enable s b1 b2 w k :
  editingIsBoundAt k w → editingIsBoundAt k (EnableMotionRegionsSetup c enable s b1 b2 w).
Proof.
  unfold editingIsBoundAt, EnableMotionRegionsSetup. intros [H1 H2]. cbn.
  destruct (m_camFeeds w !! c) as [feed|] eqn:Hf; [|done].
  destruct enable; cbn.
  - destruct (FindCamera c (m_camDb w)); cbn;
      (destruct (decide (k = c)) as [->|Hk];
       [rewrite ?lookup_insert_eq; split; [by eauto|]; intros _; apply H2; by rewrite Hf
       |rewrite ?lookup_insert_ne by done; done]).
  - destruct (decide (k = c)) as [->|Hk].
    + rewrite lookup_delete_eq, lookup_insert_eq. split; [done|].
      intros _; apply H2; by rewrite Hf.
    + by rewrite lookup_delete_ne, lookup_insert_ne.
Qed.

Lemma motionRegionsBtn_setChecked_bound s b w k :
  editingIsBoundAt k w → editingIsBoundAt k (motionRegionsBtn_setChecked s b w).
Proof.
  intros H. unfold motionRegionsBtn_setChecked.
  destruct (Qt.setChecked b _) as [q [v|]]; cbn [fst snd]; [|done].
  by apply EnableMotionRegionsSetup_bound.
Qed.

Lemma resetWidgets_bound c s w k :
  editingIsBoundAt k w → editingIsBoundAt k (resetWidgets c s w).
Proof.
  intros H. unfold resetWidgets, resetButtons. cbv zeta.
  eapply editingIsBoundAt_bindings; [reflexivity|].
  apply motionRegionsBtn_setChecked_bound.
  eapply editingIsBoundAt_bindings; [|exact H].
  unfold resetGroupBox, onCamSlotUi. by destruct (camSlot c).
Qed.

Lemma countDown_bindings w : bindings (countDown w) = bindings w.
Proof. unfold countDown. cbv zeta. by destruct (0 <? _). Qed.

Lemma disconnect_bound camera s w k :
  editingIsBoundAt k w → editingIsBoundAt k (disconnectCamera camera s w).
Proof.
  intros H. destruct (decide (k = camId camera)) as [->|Hk].
  - destruct (disconnect_fields camera s w) as (_&_&_&_&_&_&_&Hf&_&He).
    unfold editingIsBoundAt. rewrite Hf, He. split; [done|]. by intros [? ?].
  - unfold disconnectCamera. cbv zeta.
    eapply (editingIsBoundAt_bindings k
              (eraseRegionSetup (camId camera)
                 (resetWidgets (camId camera) s
                    (eraseCamera (camId camera) (closeFormOf (camId camera) w))))).
    { apply countDown_bindings. }
    assert (editingIsBoundAt k
              (resetWidgets (camId camera) s
                 (eraseCamera (camId camera) (closeFormOf (camId camera) w)))) as [H1 H2].
    { apply resetWidgets_bound. destruct H as [H1 H2].
      unfold editingIsBoundAt, closeFormOf.
      destruct (_ && _); cbn; by rewrite !lookup_delete_ne. }
    unfold editingIsBoundAt. cbn. by rewrite lookup_delete_ne.
Qed.

Lemma connect_bound camera s o w k :
  editingIsBoundAt k w → editingIsBoundAt k (connectCamera camera s o w).
Proof.
  intros [H1 H2]. destruct o; [|done].
  unfold editingIsBoundAt.
  rewrite connect_built_streamProcessors, connect_built_camFeeds.
  destruct (connect_built_regions camera s w) as [_ ->].
  destruct (decide (k = camId camera)) as [->|Hk].
  - rewrite !lookup_insert_eq. by eauto.
  - by rewrite !lookup_insert_ne.
Qed.

Lemma stopTimer_bindings w : bindings (stopTimer w) = bindings w.
Proof. unfold stopTimer. by destruct (timerActive w). Qed.

Lemma on_connect_bound s o w k :
  editingIsBoundAt k w → editingIsBoundAt k (on_connectToolButton_clicked s o w).
Proof.
  intros H. unfold on_connectToolButton_clicked.
  destruct (FindCamera _ _) as [camera|]; [|done].
  rewrite ConnectionHandler_unfold.
  pose proof (editingIsBoundAt_bindings k w (stopTimer w) (stopTimer_bindings w) H).
  case_bool_decide; [by apply disconnect_bound|by apply connect_bound].
Qed.

Lemma ReconnectCamera_bound c o1 o2 w k :
  editingIsBoundAt k w → editingIsBoundAt k (ReconnectCamera c o1 o2 w).
Proof.
  intros H. unfold ReconnectCamera. destruct (camSlot c); [|done].
  apply EnableMotionRegionsSetup_bound. by do 2 apply on_connect_bound.
Qed.

Lemma UpdateCamFeedFrame_bound c img rect rec w k :
  editingIsBoundAt k w → editingIsBoundAt k (UpdateCamFeedFrame c img rect rec w).
Proof.
  unfold editingIsBoundAt, UpdateCamFeedFrame. intros [H1 H2].
  destruct (m_camFeeds w !! c) as [feed|] eqn:Hf; [|done]. cbn.
  unfold subscript.
  destruct (decide (k = c)) as [->|Hk].
  - rewrite lookup_insert_eq. split; [by eauto|]. intros _. apply H2. by rewrite Hf.
  - rewrite lookup_insert_ne by done.
    destruct (m_motionAreaSetupEnabled w !! c); cbn; [done|].
    by rewrite lookup_insert_ne.
Qed.

Lemma pollStreamProcessor_bound r c w k :
  editingIsBoundAt k w → editingIsBoundAt k (pollStreamProcessor r c w).
Proof.
  intros H. unfold pollStreamProcessor. destruct (VideoFrameUpdated r); [|done].
  pose proof (UpdateCamFeedFrame_bound c (CurrentVideoFrame r) (motionBoundingRect r)
                (VideoWritingEnabled r) w k H) as [H1 H2].
  set (wu := UpdateCamFeedFrame _ _ _ _ w) in *.
  assert (bindings (SetFpsInTitle c (CurrentFps r) (OriginalFps r) wu) = bindings wu)
    as Hb by (unfold SetFpsInTitle, onCamSlotUi; by destruct (camSlot c)).
  destruct (_ && _); [|by eapply editingIsBoundAt_bindings].
  unfold editingIsBoundAt. cbn.
  injection Hb as Hb1 Hb2 Hb3. rewrite Hb1, Hb2, Hb3.
  split; [|done]. unfold subscript.
  destruct (m_motionAreaSetupEnabled wu !! c) eqn:E; cbn; [done|].
  destruct (decide (k = c)) as [->|Hk].
  - by rewrite lookup_insert_eq.
  - by rewrite lookup_insert_ne.
Qed.

Lemma pollKeys_bound reports l k : ∀ w,
  editingIsBoundAt k w → editingIsBoundAt k (pollKeys reports l w).
Proof.
  induction l as [|c l IH]; intros w H; [done|].
  rewrite pollKeys_cons. by apply IH, pollStreamProcessor_bound.
Qed.

Lemma VideoFrameAreaSelection_bound n sel o1 o2 w k :
  editingIsBoundAt k w → editingIsBoundAt k (VideoFrameAreaSelection n sel o1 o2 w).
Proof.
  intros H. unfold VideoFrameAreaSelection.
  destruct (match n with 1 => _ | _ => _ end) as [c|]; [|done]. cbv zeta.
  destruct (FindCamera c _); [|done]. by apply ReconnectCamera_bound.
Qed.

Lemma RemoveMotionRegions_bound c a o1 o2 w k :
  editingIsBoundAt k w → editingIsBoundAt k (RemoveMotionRegions c a o1 o2 w).
Proof.
  intros H. unfold RemoveMotionRegions.
  destruct (FindCamera c _); [|done]. destruct a; [|done].
  by apply ReconnectCamera_bound.
Qed.

Lemma handle_bound e w : editingIsBound w → editingIsBound (handle e w).
Proof.
  intros H k. specialize (H k).
  destruct e as [s o|s|s a o1 o2|n sel o1 o2|s|reports]; unfold handle.
  - destruct (clickable _ _ _); [|done]. by apply on_connect_bound.
  - destruct (clickable _ _ _); [|done]. by apply motionRegionsBtn_setChecked_bound.
  - destruct (clickable _ _ _); [|done]. by apply RemoveMotionRegions_bound.
  - destruct (selectable _ _); [|done]. by apply VideoFrameAreaSelection_bound.
  - by destruct (clickable _ _ _).
  - destruct (timerActive w); [|done]. by apply pollKeys_bound.
Qed.

Lemma initialWindow_bound prefs db sz : editingIsBound (initialWindow prefs db sz).
Proof. intros k. split; [done|]. by intros [? ?]. Qed.

(** In every window a run can reach, region editing is on for bound cameras
    only. *)
Lemma run_bound es : ∀ w, editingIsBound w → editingIsBound (run es w).
Proof.
  induction es as [|e es IH]; intros w Hw; [done|].
  apply IH. by apply handle_bound.
Qed.

(** *** The working set across a reconnect, whatever the constructions do *)

Lemma EnableMotionRegionsSetup_off_regions c s b1 b2 w k :
  workingRegions k (EnableMotionRegionsSetup c false s b1 b2 w) = []
  ∨ workingRegions k (EnableMotionRegionsSetup c false s b1 b2 w) = workingRegions k w.
Proof.
  unfold workingRegions, EnableMotionRegionsSetup. cbn.
  destruct (m_camFeeds w !! c); [|by right]. cbn.
  destruct (decide (k = c)) as [->|Hk].
  - left. by rewrite lookup_delete_eq.
  - right. by rewrite lookup_delete_ne.
Qed.

Lemma EnableMotionRegionsSetup_on_regions c s b1 b2 w k :
  workingRegions k (EnableMotionRegionsSetup c true s b1 b2 w) = workingRegions k w
  ∨ k = c ∧ ∃ camera, FindCamera c (m_camDb w) = Some camera
                      ∧ workingRegions k (EnableMotionRegionsSetup c true s b1 b2 w)
                        = motionRegions (settings camera).
Proof.
  unfold workingRegions, EnableMotionRegionsSetup. cbn.
  destruct (m_camFeeds w !! c); [|by left]. cbn.
  destruct (FindCamera c (m_camDb w)) as [camera|] eqn:E; [|by left]. cbn.
  destruct (decide (k = c)) as [->|Hk].
  - right. split; [done|]. exists camera. by rewrite lookup_insert_eq.
  - left. by rewrite lookup_insert_ne.
Qed.

Lemma unchecking_regions s w k :
  workingRegions k (motionRegionsBtn_setChecked s false w) = []
  ∨ workingRegions k (motionRegionsBtn_setChecked s false w) = workingRegions k w.
Proof.
  unfold motionRegionsBtn_setChecked, Qt.setChecked.
  destruct (negb _ || _); cbn [fst snd]; [by right|].
  apply (EnableMotionRegionsSetup_off_regions (slotCam s) s RemoveRegionsBtn
           RemoveRegionsBtn
           (onButton s MotionRegionsBtn _ w) k).
Qed.

Lemma disconnect_regions camera s w k :
  workingRegions k (disconnectCamera camera s w) = []
  ∨ workingRegions k (disconnectCamera camera s w) = workingRegions k w.
Proof.
  unfold disconnectCamera. cbv zeta. set (c := camId camera).
  unfold workingRegions at 1 2.
  destruct (countDown_fields
              (eraseRegionSetup c (resetWidgets c s (eraseCamera c (closeFormOf c w)))))
    as (_&_&_&_&_&_&_&->&_).
  destruct (eraseRegionSetup_fields c (resetWidgets c s (eraseCamera c (closeFormOf c w))))
    as (_&_&_&_&_&_&_&->&_).
  destruct (decide (k = c)) as [->|Hk]; [left; by rewrite lookup_delete_eq|].
  rewrite lookup_delete_ne by done.
  unfold resetWidgets, resetButtons. cbv zeta.
  change (m_camMotionRegions (onButton s RemoveRegionsBtn (Qt.setVisible false) ?x))
    with (m_camMotionRegions x).
  match goal with
  | |- context [motionRegionsBtn_setChecked s false ?x] =>
      destruct (unchecking_regions s x k) as [E|E]; unfold workingRegions in E;
      rewrite E; [by left|]
  end.
  right. unfold resetGroupBox, onCamSlotUi, closeFormOf, workingRegions.
  destruct (camSlot c), (form_visible _ && _); cbn; by rewrite lookup_delete_ne.
Qed.

Lemma on_connect_regions s o w k :
  workingRegions k (on_connectToolButton_clicked s o w) = []
  ∨ workingRegions k (on_connectToolButton_clicked s o w) = workingRegions k w.
Proof.
  unfold on_connectToolButton_clicked.
  destruct (FindCamera _ _) as [camera|]; [|by right].
  rewrite ConnectionHandler_unfold.
  assert (workingRegions k (stopTimer w) = workingRegions k w) as Hst.
  { unfold workingRegions. by destruct (stopTimer_fields w) as (_&_&_&_&_&_&_&->&_). }
  case_bool_decide.
  - rewrite <- Hst. apply disconnect_regions.
  - right. rewrite <- Hst. unfold workingRegions. destruct o; [|done].
    by destruct (connect_built_regions camera s (stopTimer w)) as [-> _].
Qed.

Lemma ReconnectCamera_camDb c o1 o2 w :
  m_camDb (ReconnectCamera c o1 o2 w) = m_camDb w.
Proof.
  unfold ReconnectCamera. destruct (camSlot c) as [s|]; [|done].
  destruct (EnableMotionRegionsSetup_same c true s RemoveRegionsBtn MotionRegionsBtn
              (on_connectToolButton_clicked s o2 (on_connectToolButton_clicked s o1 w)))
    as (_&_&_&->&_).
  destruct (on_connect_camDb s o2 (on_connectToolButton_clicked s o1 w)) as [-> _].
  by destruct (on_connect_camDb s o1 w) as [-> _].
Qed.

(** After a reconnect the working set of the camera is what it was, or
    empty, or the regions the store holds for the camera. *)
Lemma ReconnectCamera_regions c o1 o2 w :
  workingRegions c (ReconnectCamera c o1 o2 w) = workingRegions c w
  ∨ workingRegions c (ReconnectCamera c o1 o2 w) = []
  ∨ ∃ camera, FindCamera c (m_camDb w) = Some camera
              ∧ workingRegions c (ReconnectCamera c o1 o2 w)
                = motionRegions (settings camera).
Proof.
  unfold ReconnectCamera. destruct (camSlot c) as [s|]; [|by left].
  set (w1 := on_connectToolButton_clicked s o1 w).
  set (w2 := on_connectToolButton_clicked s o2 w1).
  destruct (EnableMotionRegionsSetup_on_regions c s RemoveRegionsBtn MotionRegionsBtn w2 c)
    as [E|(_&camera&Hc&E)].
  - rewrite E. subst w2.
    destruct (on_connect_regions s o2 w1 c) as [->| ->]; [by right; left|].
    subst w1. destruct (on_connect_regions s o1 w c) as [->| ->];
      [by right; left|by left].
  - right. right. exists camera. split; [|done].
    subst w2 w1. destruct (on_connect_camDb s o2 (on_connectToolButton_clicked s o1 w))
      as [Hd _]. rewrite Hd in Hc.
    by destruct (on_connect_camDb s o1 w) as [Hd' _]; rewrite Hd' in Hc.
Qed.

(** Without a feed for the camera, [EnableMotionRegionsSetup] only shows or
    hides the first button (the guard of lines 1540-1544). *)
Lemma EnableMotionRegionsSetup_no_feed c enable s b1 b2 w :
  m_camFeeds w !! c = None →
  EnableMotionRegionsSetup c enable s b1 b2 w = onButton s b1 (Qt.setVisible enable) w.
Proof.
  intros Hf. unfold EnableMotionRegionsSetup. cbv zeta.
  change (m_camFeeds (onButton s b1 (Qt.setVisible enable) w)) with (m_camFeeds w).
  by rewrite Hf.
Qed.

(** With the camera bound and the second construction throwing,
    [ReconnectCamera] leaves the camera without stream processor and without
    feed, and its working set and edit flag erased. *)
Lemma ReconnectCamera_fails s o1 what w camera :
  FindCamera (slotCam s) (m_camDb w) = Some camera →
  is_Some (m_streamProcessors w !! slotCam s) →
  let c := slotCam s in
  let w' := ReconnectCamera c o1 (Throws what) w in
  m_streamProcessors w' !! c = None
  ∧ m_camFeeds w' !! c = None
  ∧ m_camMotionRegions w' !! c = None
  ∧ m_motionAreaSetupEnabled w' !! c = None.
Proof.
  intros Hcfg Hbound. cbv zeta.
  pose proof (FindCamera_camId _ _ _ Hcfg) as Hid.
  unfold ReconnectCamera.
  assert (camSlot (slotCam s) = Some s) as -> by by destruct s.
  rewrite (on_connect_disconnects s o1 w camera Hcfg Hbound).
  destruct (disconnect_fields camera s (stopTimer w))
    as (Hsp&_&_&Hdb&_&_&_&Hfd&Hrg&Hfl).
  cbv zeta in Hsp, Hdb, Hfd, Hrg, Hfl. rewrite Hid in Hsp, Hfd, Hrg, Hfl.
  destruct (stopTimer_fields w) as (_&_&_&Hdb0&_).
  rewrite Hdb0 in Hdb.
  revert Hsp Hdb Hfd Hrg Hfl.
  generalize (disconnectCamera camera s (stopTimer w)). intros wd Hsp Hdb Hfd Hrg Hfl.
  assert (m_streamProcessors wd !! slotCam s = None) as Hfree.
  { rewrite Hsp. apply lookup_delete_eq. }
  assert (on_connectToolButton_clicked s (Throws what) wd
          = set_errorBoxes (what :: errorBoxes (stopTimer wd)) (stopTimer wd)) as ->.
  { unfold on_connectToolButton_clicked. rewrite Hdb, Hcfg.
    rewrite ConnectionHandler_unfold, Hid.
    rewrite bool_decide_eq_false_2; [apply connect_throws|].
    rewrite Hfree. by intros [? ?]. }
  destruct (stopTimer_fields wd) as (S1&_&_&_&_&_&S7&S8&S9&_).
  revert S1 S7 S8 S9. generalize (stopTimer wd). intros ws S1 S7 S8 S9.
  rewrite EnableMotionRegionsSetup_no_feed
    by (change (m_camFeeds (set_errorBoxes ?x ws)) with (m_camFeeds ws); by rewrite S7).
  change (m_streamProcessors (onButton ?a ?b ?f (set_errorBoxes ?x ws)))
    with (m_streamProcessors ws).
  change (m_camFeeds (onButton ?a ?b ?f (set_errorBoxes ?x ws))) with (m_camFeeds ws).
  change (m_camMotionRegions (onButton ?a ?b ?f (set_errorBoxes ?x ws)))
    with (m_camMotionRegions ws).
  change (m_motionAreaSetupEnabled (onButton ?a ?b ?f (set_errorBoxes ?x ws)))
    with (m_motionAreaSetupEnabled ws).
  by rewrite S1, S7, S8, S9.
Qed.

(** C6, as the code has it.  A completed drag on a slot in region-editing
    mode, with the camera configured, appends exactly one region to the
    working set, writes the set to the camera record and saves it, and
    disconnects the slot, whatever the two constructions of the reconnect do.
    If the construction of the new stream processor succeeds, the slot is
    reconnected to a stream processor built from the updated record, with a
    new feed and region editing on, and the working set is again the
    persisted one, so their sizes agree.  If it throws, the slot stays
    disconnected and the working set, erased by the disconnect, stays empty
    while the store holds the new set.  The window is any window in which
    region editing is on for bound cameras only, as in every window a run
    reaches ([run_bound]). *)
Theorem C6_drag_appends_persists_and_reconnects
    (s : Slot) (sel : Qt.QRectF) (o1 o2 : Construction) (w : MainWindow)
    (camera : IpCamera)
    (Hwf : editingIsBound w)
    (Hcfg : FindCamera (slotCam s) (m_camDb w) = Some camera)
    (Hedit : m_motionAreaSetupEnabled w !! slotCam s = Some true) :
  let c := slotCam s in
  let new := (workingRegions c w ++ [regionOfSelection sel])%list in
  let saved := storeWorkingRegions c camera (appendRegion c (regionOfSelection sel) w) in
  let w' := VideoFrameAreaSelection (cameraNumber c) sel o1 o2 w in
  w' = ReconnectCamera c o1 o2 saved
  ∧ workingRegions c saved = new
  ∧ FindCamera c (m_camDb saved) = Some (with_motionRegions new camera)
  ∧ persistedRegions c (m_camDb saved) = Some new
  ∧ FindCamera c (m_camDb w') = Some (with_motionRegions new camera)
  ∧ persistedRegions c (m_camDb w') = Some new
  ∧ m_streamProcessors (on_connectToolButton_clicked s o1 saved) !! c = None
  ∧ match o2 with
    | Built =>
        m_streamProcessors w' !! c
        = Some (newStreamProcessor (with_motionRegions new camera) (m_prefs w))
        ∧ (∃ feed, m_camFeeds w' !! c = Some feed ∧ vf_frames feed = []
                   ∧ vf_enableSelection feed = true)
        ∧ m_motionAreaSetupEnabled w' !! c = Some true
        ∧ workingRegions c w' = new
        ∧ Some (length (workingRegions c w')) = length <$> persistedRegions c (m_camDb w')
    | Throws _ =>
        m_streamProcessors w' !! c = None
        ∧ m_camFeeds w' !! c = None
        ∧ m_motionAreaSetupEnabled w' !! c = None
        ∧ workingRegions c w' = []
    end.
Proof.
  assert (is_Some (m_streamProcessors w !! slotCam s)) as Hbound.
  { destruct (Hwf (slotCam s)) as [H1 H2]. auto. }
  cbv zeta. unfold VideoFrameAreaSelection. rewrite cameraNumber_target.
  set (region := regionOfSelection sel).
  destruct (appendRegion_fields (slotCam s) region w)
    as (Hwork&Hsp&_&_&Hdb&Hpr&_).
  rewrite Hdb, Hcfg.
  set (wa := appendRegion (slotCam s) region w) in *.
  destruct (storeWorkingRegions_fields (slotCam s) camera wa)
    as (Hdb'&Hwork'&Hsp'&_&Hpr'&_).
  set (wp := storeWorkingRegions (slotCam s) camera wa) in *.
  pose proof (FindCamera_camId _ _ _ Hcfg) as Hid.
  destruct (stored_camera (slotCam s) camera (workingRegions (slotCam s) wa)
              (m_camDb wa) Hid) as [Hfind Hpers].
  rewrite <- Hdb' in Hfind, Hpers. rewrite Hwork in Hfind, Hpers.
  assert (is_Some (m_streamProcessors wp !! slotCam s)) as Hbound'
    by by rewrite Hsp', Hsp.
  rewrite ReconnectCamera_camDb.
  split; [done|]. split; [by rewrite Hwork', Hwork|].
  split; [done|]. split; [done|]. split; [done|]. split; [done|].
  split.
  { rewrite (on_connect_disconnects s o1 wp _ Hfind Hbound').
    destruct (disconnect_fields (with_motionRegions
                (workingRegions (slotCam s) w ++ [region])%list camera) s (stopTimer wp))
      as (->&_).
    replace (camId (with_motionRegions _ camera)) with (slotCam s)
      by (by destruct camera; cbn in *).
    apply lookup_delete_eq. }
  destruct o2 as [|what].
  - destruct (ReconnectCamera_rebinds s o1 wp _ Hfind Hbound')
      as (_&Hnew&Hreg&Hen&Hfeed&_).
    rewrite (workingRegions_lookup _ _ _ Hreg), Hnew, Hpers, Hpr', Hpr.
    repeat split; done.
  - destruct (ReconnectCamera_fails s o1 what wp _ Hfind Hbound')
      as (H1&H2&H3&H4).
    unfold workingRegions. rewrite H1, H2, H3, H4. done.
Qed.

Lemma C6_witness :
  let w' := VideoFrameAreaSelection 1 middleSelection Built Built editingWindow in
  m_motionAreaSetupEnabled editingWindow !! cam1 = Some true
  ∧ workingRegions cam1 editingWindow = []
  ∧ workingRegions cam1 w' = [regionOfSelection middleSelection]
  ∧ persistedRegions cam1 (m_camDb w') = Some [regionOfSelection middleSelection]
  ∧ Some (length (workingRegions cam1 w')) = length <$> persistedRegions cam1 (m_camDb w').
Proof.
  cbv zeta. split; [reflexivity|]. split; [reflexivity|].
  destruct (C6_drag_appends_persists_and_reconnects slot1 middleSelection Built Built
              editingWindow (MkCamera cam1 doorCamera))
    as (_&_&_&_&_&H3&_&_&_&_&H1&H8).
  - apply run_bound, initialWindow_bound.
  - reflexivity.
  - reflexivity.
  - split; [exact H1|]. split; [exact H3|exact H8].
Defined.

(** C6, as the claim has it, fails when the construction of the new stream
    processor throws: the region is appended and persisted and the slot is
    disconnected, but it is not reconnected, and the working set, erased by
    the disconnect, is empty while the persisted set holds one region. *)
Lemma C6_failed_reconnect_leaves_working_set_empty :
  let w' := VideoFrameAreaSelection 1 middleSelection Built
              (Throws "Failed to open stream") editingWindow in
  is_Some (m_streamProcessors editingWindow !! cam1)
  ∧ m_motionAreaSetupEnabled editingWindow !! cam1 = Some true
  ∧ FindCamera cam1 (m_camDb editingWindow) = Some (MkCamera cam1 doorCamera)
  ∧ m_streamProcessors w' !! cam1 = None
  ∧ length (workingRegions cam1 w') = 0%nat
  ∧ length <$> persistedRegions cam1 (m_camDb w') = Some 1%nat.
Proof. vm_compute. repeat split; eauto. Qed.

(** C7.  For a configured camera, declining the question of "remove regions"
    changes nothing at all, so no reconnect happens and both region sets stay
    as they were; confirming it leaves the camera with an empty region list
    in the store, saved, and an empty working set, whatever the reconnect
    that follows does. *)
Theorem C7_remove_regions_needs_confirmation
    (c : eCamId) (o1 o2 : Construction) (w : MainWindow) (camera : IpCamera)
    (Hcfg : FindCamera c (m_camDb w) = Some camera) :
  RemoveMotionRegions c No o1 o2 w = w
  ∧ persistedRegions c (m_camDb (RemoveMotionRegions c Yes o1 o2 w)) = Some []
  ∧ FindCamera c (m_camDb (RemoveMotionRegions c Yes o1 o2 w))
    = Some (with_motionRegions [] camera)
  ∧ workingRegions c (RemoveMotionRegions c Yes o1 o2 w) = [].
Proof.
  unfold RemoveMotionRegions. rewrite Hcfg. split; [done|].
  destruct (clearRegions_fields c w) as (Hclear&_&_&_&Hdb&_).
  set (wc := clearRegions c w) in *.
  destruct (storeWorkingRegions_fields c camera wc) as (Hdb'&Hwork&_).
  set (wp := storeWorkingRegions c camera wc) in *.
  destruct (stored_camera c camera (workingRegions c wc) (m_camDb wc)
              (FindCamera_camId _ _ _ Hcfg)) as [Hfind Hpers].
  rewrite <- Hdb', Hclear in Hfind, Hpers.
  rewrite ReconnectCamera_camDb, Hpers, Hfind.
  split; [done|]. split; [done|].
  destruct (ReconnectCamera_regions c o1 o2 wp) as [E|[E|(cam'&Hc&E)]].
  - by rewrite E, Hwork.
  - done.
  - rewrite E. rewrite Hfind in Hc. by simplify_eq.
Qed.

Lemma C7_witness :
  let w := VideoFrameAreaSelection 1 middleSelection Built Built editingWindow in
  workingRegions cam1 w = [regionOfSelection middleSelection]
  ∧ persistedRegions cam1 (m_camDb w) = Some [regionOfSelection middleSelection]
  ∧ RemoveMotionRegions cam1 No Built Built w = w
  ∧ persistedRegions cam1 (m_camDb (RemoveMotionRegions cam1 Yes Built Built w)) = Some []
  ∧ workingRegions cam1 (RemoveMotionRegions cam1 Yes Built Built w) = [].
Proof.
  cbv zeta. split; [reflexivity|]. split; [reflexivity|].
  destruct (C7_remove_regions_needs_confirmation cam1 Built Built
              (VideoFrameAreaSelection 1 middleSelection Built Built editingWindow)
              (MkCamera cam1
                 (MkSettings "rtsp://192.168.1.20/stream1" "Front door" "" false false
                    [regionOfSelection middleSelection])))
    as (H1&H2&_&H4).
  - reflexivity.
  - split; [exact H1|]. split; [exact H2|exact H4].
Defined.

(** The remove-regions button is hidden at start-up and takes a click while
    region editing is on: the click reaches [RemoveMotionRegions], which
    empties the stored and the working set of the camera. *)
Lemma remove_regions_button_takes_a_click :
  let w := run [AreaSelected 1 middleSelection Built Built] editingWindow in
  let w' := handle (RemoveRegionsClicked slot1 Yes Built Built) w in
  clickable slot1 RemoveRegionsBtn startWindow = false
  ∧ clickable slot1 RemoveRegionsBtn w = true
  ∧ persistedRegions cam1 (m_camDb w) = Some [regionOfSelection middleSelection]
  ∧ w' = RemoveMotionRegions cam1 Yes Built Built w
  ∧ persistedRegions cam1 (m_camDb w') = Some []
  ∧ workingRegions cam1 w' = [].
Proof. vm_compute. repeat split. Qed.

(** ** A click on connect and the other cameras *)

Lemma cameraState_ext k w w' :
  m_streamProcessors w' = m_streamProcessors w →
  m_camFeeds w' = m_camFeeds w →
  m_camMotionRegions w' = m_camMotionRegions w →
  m_motionAreaSetupEnabled w' = m_motionAreaSetupEnabled w →
  cameraState k w' = cameraState k w.
Proof. unfold cameraState. by intros -> -> -> ->. Qed.

Lemma onButton_cameraState k s b f w : cameraState k (onButton s b f w) = cameraState k w.
Proof. reflexivity. Qed.

Lemma EnableMotionRegionsSetup_other c enable s b1 b2 w k :
  k ≠ c → cameraState k (EnableMotionRegionsSetup c enable s b1 b2 w) = cameraState k w.
Proof.
  intros Hk. unfold cameraState, EnableMotionRegionsSetup. cbn.
  destruct (m_camFeeds w !! c); [|done].
  destruct enable; cbn.
  - destruct (FindCamera c (m_camDb w)); cbn; by rewrite ?lookup_insert_ne.
  - by rewrite !lookup_delete_ne, lookup_insert_ne.
Qed.

Lemma motionRegionsBtn_setChecked_other s b w k :
  k ≠ slotCam s →
  cameraState k (motionRegionsBtn_setChecked s b w) = cameraState k w.
Proof.
  intros Hk. unfold motionRegionsBtn_setChecked.
  destruct (Qt.setChecked b _) as [q [v|]]; cbn [fst snd]; [|done].
  unfold on_motionDetectorRegionsToolButton_toggled.
  by rewrite EnableMotionRegionsSetup_other.
Qed.

Lemma resetWidgets_other c s w k :
  k ≠ slotCam s → cameraState k (resetWidgets c s w) = cameraState k w.
Proof.
  intros Hk. unfold resetWidgets, resetButtons. cbv zeta.
  rewrite onButton_cameraState, motionRegionsBtn_setChecked_other by done.
  rewrite !onButton_cameraState.
  apply cameraState_ext; unfold resetGroupBox, onCamSlotUi; by destruct (camSlot c).
Qed.

Lemma countDown_cameraState k w : cameraState k (countDown w) = cameraState k w.
Proof. unfold countDown. cbv zeta. by destruct (0 <? _). Qed.

Lemma disconnect_other camera s w k :
  k ≠ camId camera → k ≠ slotCam s →
  cameraState k (disconnectCamera camera s w) = cameraState k w.
Proof.
  intros Hc Hs. unfold disconnectCamera. cbv zeta.
  set (c := camId camera) in *.
  transitivity (cameraState k (eraseRegionSetup c (resetWidgets c s
                                 (eraseCamera c (closeFormOf c w))))).
  { apply countDown_cameraState. }
  transitivity (cameraState k (resetWidgets c s (eraseCamera c (closeFormOf c w)))).
  { unfold cameraState. cbn. by rewrite !lookup_delete_ne. }
  rewrite resetWidgets_other by done.
  unfold cameraState, closeFormOf.
  destruct (_ && _); cbn; by rewrite !lookup_delete_ne.
Qed.

Lemma connect_other camera s o w k :
  k ≠ camId camera → cameraState k (connectCamera camera s o w) = cameraState k w.
Proof.
  intros Hk. destruct o; [|done]. unfold cameraState.
  rewrite connect_built_streamProcessors, connect_built_camFeeds.
  destruct (connect_built_regions camera s w) as [-> ->].
  by rewrite !lookup_insert_ne.
Qed.

Lemma stopTimer_cameraState k w : cameraState k (stopTimer w) = cameraState k w.
Proof. unfold stopTimer. by destruct (timerActive w). Qed.

(** What a click on connect leaves alone: everything the window holds for
    the cameras of the other slots, the camera store and the preferences. *)
Lemma on_connect_other s o w k :
  k ≠ slotCam s →
  cameraState k (on_connectToolButton_clicked s o w) = cameraState k w.
Proof.
  intros Hk. unfold on_connectToolButton_clicked.
  destruct (FindCamera _ _) as [camera|] eqn:Hcfg; [|done].
  pose proof (FindCamera_camId _ _ _ Hcfg) as Hid.
  rewrite ConnectionHandler_unfold. rewrite <- (stopTimer_cameraState k w).
  case_bool_decide.
  - apply disconnect_other; by rewrite ?Hid.
  - apply connect_other. by rewrite Hid.
Qed.

(** The stream processor of the camera of the slot after a click on
    connect: gone if there was one, built from the stored camera record and
    the preferences if there was none and the construction succeeds. *)
Lemma on_connect_processor s o w :
  m_streamProcessors (on_connectToolButton_clicked s o w) !! slotCam s
  = match FindCamera (slotCam s) (m_camDb w), m_streamProcessors w !! slotCam s, o with
    | None, p, _ => p
    | Some _, Some _, _ => None
    | Some camera, None, Built => Some (newStreamProcessor camera (m_prefs w))
    | Some _, None, Throws _ => None
    end.
Proof.
  destruct (FindCamera _ _) as [camera|] eqn:Hcfg.
  - pose proof (FindCamera_camId _ _ _ Hcfg) as Hid.
    destruct (m_streamProcessors w !! slotCam s) as [sp|] eqn:Hsp.
    + rewrite (on_connect_disconnects s o w camera Hcfg) by by rewrite Hsp.
      destruct (disconnect_fields camera s (stopTimer w)) as (->&_).
      rewrite Hid. apply lookup_delete_eq.
    + unfold on_connectToolButton_clicked. rewrite Hcfg, ConnectionHandler_unfold, Hid.
      rewrite bool_decide_eq_false_2 by (rewrite Hsp; by intros [? ?]).
      destruct (stopTimer_fields w) as (Hp&_&_&_&_&_&_&_&_&_&Hpr).
      destruct o.
      * rewrite connect_built_streamProcessors, Hid, lookup_insert_eq. by rewrite Hpr.
      * rewrite connect_throws. cbn. by rewrite Hp.
  - unfold on_connectToolButton_clicked. by rewrite Hcfg.
Qed.

(** The rest of what the window holds for the camera of the slot after a
    click that finds the camera configured: after a disconnect no feed, no
    working regions and no edit flag; after a connect a new feed without
    frames, the regions and the flag as they were. *)
Lemma on_connect_state s o w camera :
  FindCamera (slotCam s) (m_camDb w) = Some camera →
  let c := slotCam s in
  let w' := on_connectToolButton_clicked s o w in
  match m_streamProcessors w !! c, o with
  | Some _, _ =>
      m_camFeeds w' !! c = None ∧ m_camMotionRegions w' !! c = None
      ∧ m_motionAreaSetupEnabled w' !! c = None
  | None, Built =>
      (∃ feed, m_camFeeds w' !! c = Some feed ∧ vf_frames feed = []
               ∧ vf_enableSelection feed = false)
      ∧ m_camMotionRegions w' !! c = m_camMotionRegions w !! c
      ∧ m_motionAreaSetupEnabled w' !! c = m_motionAreaSetupEnabled w !! c
  | None, Throws _ =>
      m_camFeeds w' !! c = m_camFeeds w !! c
      ∧ m_camMotionRegions w' !! c = m_camMotionRegions w !! c
      ∧ m_motionAreaSetupEnabled w' !! c = m_motionAreaSetupEnabled w !! c
  end.
Proof.
  intros Hcfg. cbv zeta. pose proof (FindCamera_camId _ _ _ Hcfg) as Hid.
  destruct (stopTimer_fields w) as (Hp&_&_&_&_&_&Hf&Hr&He&_).
  destruct (m_streamProcessors w !! slotCam s) as [sp|] eqn:Hsp.
  - rewrite (on_connect_disconnects s o w camera Hcfg) by by rewrite Hsp.
    destruct (disconnect_fields camera s (stopTimer w)) as (_&_&_&_&_&_&_&H1&H2&H3).
    by rewrite Hid in H1, H2, H3.
  - unfold on_connectToolButton_clicked. rewrite Hcfg, ConnectionHandler_unfold, Hid.
    rewrite bool_decide_eq_false_2 by (rewrite Hsp; by intros [? ?]).
    destruct o.
    + rewrite connect_built_camFeeds, Hid, lookup_insert_eq.
      destruct (connect_built_regions camera s (stopTimer w)) as [-> ->].
      rewrite Hr, He. split; [by eexists|done].
    + rewrite connect_throws. cbn. by rewrite Hf, Hr, He.
Qed.

(** ** Invariants of the window over all its handlers *)

Lemma counterAgrees_fields w w' :
  connectionFields w' = connectionFields w → counterAgrees w → counterAgrees w'.
Proof.
  unfold connectionFields, counterAgrees, boundCount. intros E.
  injection E as E1 E2 E3. by rewrite E1, E2.
Qed.

Lemma timerAgrees_fields w w' :
  connectionFields w' = connectionFields w → timerAgrees w → timerAgrees w'.
Proof.
  unfold connectionFields, timerAgrees. intros E.
  injection E as E1 E2 E3. by rewrite E2, E3.
Qed.

Lemma keepsFeeds_refl w : keepsFeeds w w.
Proof. by repeat split. Qed.

Lemma keepsFeeds_trans w1 w2 w3 : keepsFeeds w1 w2 → keepsFeeds w2 w3 → keepsFeeds w1 w3.
Proof.
  intros (E1&F1&D1) (E2&F2&D2). split; [congruence|]. split.
  - intros k. by rewrite F2, F1.
  - intros k H. by apply D2, D1.
Qed.

Lemma keepsFeeds_ext w w' :
  m_streamProcessors w' = m_streamProcessors w →
  m_camFeeds w' = m_camFeeds w →
  m_camDb w' = m_camDb w →
  keepsFeeds w w'.
Proof. intros E1 E2 E3. unfold keepsFeeds. by rewrite E1, E2, E3. Qed.

Lemma keepsFeeds_consistentAt k w w' :
  keepsFeeds w w' → consistentAt k w → consistentAt k w'.
Proof.
  intros (E&F&D) [H1 H2]. unfold consistentAt. rewrite E, F. split; [done|].
  intros Hb. destruct (H2 Hb) as [Hc Hn]. split; [by apply D|done].
Qed.

Lemma is_Some_insert_existing {V} (m : gmap eCamId V) c v k :
  is_Some (m !! c) → is_Some (<[c := v]> m !! k) ↔ is_Some (m !! k).
Proof.
  intros Hc. destruct (decide (k = c)) as [->|Hk].
  - rewrite lookup_insert_eq. split; [done|by eauto].
  - by rewrite lookup_insert_ne.
Qed.

Lemma EnableMotionRegionsSetup_keepsFeeds c enable s b1 b2 w :
  keepsFeeds w (EnableMotionRegionsSetup c enable s b1 b2 w).
Proof.
  destruct (EnableMotionRegionsSetup_same c enable s b1 b2 w) as (E&_&_&D&_).
  split; [done|]. split; [|by rewrite D].
  intros k. unfold EnableMotionRegionsSetup. cbn.
  destruct (m_camFeeds w !! c) as [feed|] eqn:Hf; [|done].
  assert (is_Some (<[c := SetEnableSelection enable feed]> (m_camFeeds w) !! k)
          ↔ is_Some (m_camFeeds w !! k)) as Hi
    by (apply is_Some_insert_existing; by rewrite Hf).
  destruct enable; cbn; [|done]. by destruct (FindCamera c (m_camDb w)).
Qed.

Lemma motionRegionsBtn_setChecked_keepsFeeds s b w :
  keepsFeeds w (motionRegionsBtn_setChecked s b w).
Proof.
  unfold motionRegionsBtn_setChecked.
  destruct (Qt.setChecked b _) as [q [v|]]; cbn [fst snd].
  - eapply keepsFeeds_trans; [|apply EnableMotionRegionsSetup_keepsFeeds].
    by apply keepsFeeds_ext.
  - by apply keepsFeeds_ext.
Qed.

Lemma UpdateCamFeedFrame_keepsFeeds c img rect rec w :
  keepsFeeds w (UpdateCamFeedFrame c img rect rec w).
Proof.
  unfold UpdateCamFeedFrame.
  destruct (m_camFeeds w !! c) as [feed|] eqn:Hf; [|apply keepsFeeds_refl].
  split; [done|]. split; [|done]. intros k. cbn.
  apply is_Some_insert_existing. by rewrite Hf.
Qed.

Lemma SetFpsInTitle_maps c fps originalFps w :
  m_streamProcessors (SetFpsInTitle c fps originalFps w) = m_streamProcessors w
  ∧ m_camFeeds (SetFpsInTitle c fps originalFps w) = m_camFeeds w
  ∧ m_camDb (SetFpsInTitle c fps originalFps w) = m_camDb w.
Proof. unfold SetFpsInTitle, onCamSlotUi. by destruct (camSlot c). Qed.

Lemma pollStreamProcessor_keepsFeeds r c w : keepsFeeds w (pollStreamProcessor r c w).
Proof.
  unfold pollStreamProcessor. destruct (VideoFrameUpdated r); [|apply keepsFeeds_refl].
  eapply keepsFeeds_trans; [apply UpdateCamFeedFrame_keepsFeeds|].
  set (wu := UpdateCamFeedFrame _ _ _ _ w).
  destruct (SetFpsInTitle_maps c (CurrentFps r) (OriginalFps r) wu) as (E1&E2&E3).
  destruct (_ && _); (apply keepsFeeds_ext; [exact E1|exact E2|exact E3]).
Qed.

Lemma pollKeys_keepsFeeds reports l : ∀ w, keepsFeeds w (pollKeys reports l w).
Proof.
  induction l as [|c l IH]; intros w; [apply keepsFeeds_refl|].
  rewrite pollKeys_cons.
  eapply keepsFeeds_trans; [apply pollStreamProcessor_keepsFeeds|apply IH].
Qed.

Lemma storeWorkingRegions_keepsFeeds c camera w :
  keepsFeeds w (storeWorkingRegions c camera w).
Proof.
  split; [done|]. split; [done|]. intros k Hk.
  unfold storeWorkingRegions. cbn.
  destruct (decide (k = camId camera)) as [->|Hne].
  - rewrite lookup_insert_eq. by eexists.
  - by rewrite lookup_insert_ne.
Qed.

(** A click on connect keeps the camera of the slot, and every other
    camera, consistent. *)
Lemma on_connect_consistent s o w k :
  consistentAt k w → consistentAt k (on_connectToolButton_clicked s o w).
Proof.
  intros H. destruct (on_connect_camDb s o w) as [Hdb _].
  destruct (decide (k = slotCam s)) as [->|Hk].
  - destruct (FindCamera (slotCam s) (m_camDb w)) as [camera|] eqn:Hcfg.
    + pose proof (on_connect_processor s o w) as Hp.
      pose proof (on_connect_state s o w camera Hcfg) as Hs. cbv zeta in Hs.
      rewrite Hcfg in Hp. destruct H as [H1 H2].
      unfold consistentAt. rewrite Hdb.
      assert (is_Some (cameras (m_camDb w) !! slotCam s)) as Hc.
      { unfold FindCamera in Hcfg. destruct (cameras _ !! _); [by eexists|done]. }
      destruct (m_streamProcessors w !! slotCam s) as [sp|] eqn:Hsp.
      * destruct Hs as (Hf&_). rewrite Hp, Hf. split; [done|]. by intros [? ?].
      * destruct o.
        -- destruct Hs as ((feed&Hf&_)&_). rewrite Hp, Hf.
           split; [split; by eauto|]. intros _. split; [done|by destruct s].
        -- destruct Hs as (Hf&_). rewrite Hp, Hf. split; [done|]. by intros [? ?].
    + unfold on_connectToolButton_clicked. by rewrite Hcfg.
  - pose proof (on_connect_other s o w k Hk) as E. unfold cameraState in E.
    injection E as E1 E2 _ _. unfold consistentAt. by rewrite E1, E2, Hdb.
Qed.

Lemma ReconnectCamera_consistent c o1 o2 w k :
  consistentAt k w → consistentAt k (ReconnectCamera c o1 o2 w).
Proof.
  intros H. unfold ReconnectCamera. destruct (camSlot c); [|done].
  eapply keepsFeeds_consistentAt; [apply EnableMotionRegionsSetup_keepsFeeds|].
  by do 2 apply on_connect_consistent.
Qed.

Lemma handle_consistent e w : consistent w → consistent (handle e w).
Proof.
  intros H k. specialize (H k).
  destruct e as [s o|s|s a o1 o2|n sel o1 o2|s|reports]; unfold handle.
  - destruct (clickable _ _ _); [|done]. by apply on_connect_consistent.
  - destruct (clickable _ _ _); [|done].
    eapply keepsFeeds_consistentAt; [apply motionRegionsBtn_setChecked_keepsFeeds|done].
  - destruct (clickable _ _ _); [|done]. unfold RemoveMotionRegions.
    destruct (FindCamera _ _); [|done]. destruct a; [|done].
    apply ReconnectCamera_consistent.
    eapply keepsFeeds_consistentAt; [apply storeWorkingRegions_keepsFeeds|].
    eapply keepsFeeds_consistentAt; [|exact H]. by apply keepsFeeds_ext.
  - destruct (selectable _ _); [|done]. unfold VideoFrameAreaSelection.
    destruct (match n with 1 => _ | _ => _ end) as [c|]; [|done]. cbv zeta.
    assert (consistentAt k (appendRegion c (regionOfSelection sel) w)) as Ha
      by (eapply keepsFeeds_consistentAt; [|exact H]; by apply keepsFeeds_ext).
    destruct (FindCamera c _); [|done].
    apply ReconnectCamera_consistent.
    eapply keepsFeeds_consistentAt; [apply storeWorkingRegions_keepsFeeds|done].
  - destruct (clickable _ _ _); [|done].
    eapply keepsFeeds_consistentAt; [|exact H]. by apply keepsFeeds_ext.
  - destruct (timerActive w); [|done].
    eapply keepsFeeds_consistentAt; [apply pollKeys_keepsFeeds|done].
Qed.

Lemma SetupCameraInDb_fields c s d w :
  connectionFields (SetupCameraInDb c s d w) = connectionFields w
  ∧ bindings (SetupCameraInDb c s d w) = bindings w
  ∧ m_prefs (SetupCameraInDb c s d w) = m_prefs w
  ∧ ∀ k, cameraState k (SetupCameraInDb c s d w) = cameraState k w.
Proof. destruct d as [|camera [|]]; done. Qed.

Lemma SetupCameraInDb_consistent c s d w k :
  consistentAt k w →
  (k = c → m_streamProcessors w !! c = None) →
  consistentAt k (SetupCameraInDb c s d w).
Proof.
  intros [H1 H2] Hc. destruct d as [|camera valid]; [done|].
  unfold consistentAt. destruct valid; cbn.
  - split; [done|]. intros Hb. destruct (H2 Hb) as [Hk Hn]. split; [|done].
    destruct (decide (k = camId camera)) as [->|Hne].
    + rewrite lookup_insert_eq. by eexists.
    + by rewrite lookup_insert_ne.
  - split; [done|]. intros Hb. destruct (H2 Hb) as [Hk Hn]. split; [|done].
    destruct (decide (k = c)) as [->|Hne].
    + rewrite (Hc eq_refl) in Hb. by destruct Hb.
    + by rewrite lookup_delete_ne.
Qed.

(** The camera of the slot has no stream processor when the setup dialog
    opens: the handler disconnects a bound, configured camera first. *)
Lemma settings_dialog_on_unbound_camera s o w :
  consistentAt (slotCam s) w →
  let reconnect := DoesCameraExist (slotCam s) (m_camDb w)
                   && bool_decide (is_Some (m_streamProcessors w !! slotCam s)) in
  m_streamProcessors (if reconnect then on_connectToolButton_clicked s o w else w)
  !! slotCam s = None.
Proof.
  intros [H1 H2]. cbv zeta. unfold DoesCameraExist.
  case_bool_decide as Hex; case_bool_decide as Hb; cbn.
  - rewrite on_connect_processor. unfold FindCamera.
    destruct Hex as [cfg ->]. destruct Hb as [sp ->]. done.
  - by apply eq_None_not_Some.
  - destruct (H2 Hb) as [Hc _]. done.
  - by apply eq_None_not_Some.
Qed.

Lemma on_settings_consistent s d o1 o2 w :
  consistent w → consistent (on_settingsToolButton_clicked s d o1 o2 w).
Proof.
  intros H k. unfold on_settingsToolButton_clicked. cbv zeta.
  pose proof (settings_dialog_on_unbound_camera s o1 w (H (slotCam s))) as Hnone.
  cbv zeta in Hnone.
  set (reconnect := DoesCameraExist _ _ && _) in *.
  set (w1 := if reconnect then on_connectToolButton_clicked s o1 w else w) in *.
  assert (consistentAt k w1) as H1.
  { subst w1. destruct reconnect; [by apply on_connect_consistent|done]. }
  assert (consistentAt k (SetupCameraInDb (slotCam s) s d w1)) as H2
    by (apply SetupCameraInDb_consistent; [done|by intros ->]).
  destruct (Qt.enabled _ && reconnect); [by apply on_connect_consistent|done].
Qed.

Lemma on_settings_counter s d o1 o2 w :
  counterAgrees w → counterAgrees (on_settingsToolButton_clicked s d o1 o2 w).
Proof.
  intros H. unfold on_settingsToolButton_clicked. cbv zeta.
  set (reconnect := DoesCameraExist _ _ && _).
  set (w1 := if reconnect then on_connectToolButton_clicked s o1 w else w).
  assert (counterAgrees w1) as H1
    by (subst w1; destruct reconnect; [by apply on_connect_counter|done]).
  destruct (SetupCameraInDb_fields (slotCam s) s d w1) as (E&_).
  pose proof (counterAgrees_fields _ _ E H1).
  destruct (Qt.enabled _ && reconnect); [by apply on_connect_counter|done].
Qed.

Lemma on_settings_timer s d w :
  counterAgrees w → timerAgrees w →
  timerAgrees (on_settingsToolButton_clicked s d Built Built w).
Proof.
  intros Hc H. unfold on_settingsToolButton_clicked. cbv zeta.
  set (reconnect := DoesCameraExist _ _ && _).
  set (w1 := if reconnect then on_connectToolButton_clicked s Built w else w).
  assert (counterAgrees w1 ∧ timerAgrees w1) as [Hc1 H1].
  { subst w1. destruct reconnect; [|done].
    split; [by apply on_connect_counter|by apply on_connect_timer]. }
  destruct (SetupCameraInDb_fields (slotCam s) s d w1) as (E&_).
  pose proof (counterAgrees_fields _ _ E Hc1).
  pose proof (timerAgrees_fields _ _ E H1).
  destruct (Qt.enabled _ && reconnect); [by apply on_connect_timer|done].
Qed.

Lemma on_settings_bound s d o1 o2 w :
  editingIsBound w → editingIsBound (on_settingsToolButton_clicked s d o1 o2 w).
Proof.
  intros H k. unfold on_settingsToolButton_clicked. cbv zeta.
  set (reconnect := DoesCameraExist _ _ && _).
  set (w1 := if reconnect then on_connectToolButton_clicked s o1 w else w).
  assert (editingIsBoundAt k w1) as H1
    by (subst w1; destruct reconnect; [by apply on_connect_bound|done]).
  destruct (SetupCameraInDb_fields (slotCam s) s d w1) as (_&E&_).
  pose proof (editingIsBoundAt_bindings k _ _ E H1).
  destruct (Qt.enabled _ && reconnect); [by apply on_connect_bound|done].
Qed.

Lemma recreateFeed_fields s w :
  connectionFields (recreateFeed s w) = connectionFields w
  ∧ keepsFeeds w (recreateFeed s w)
  ∧ m_camMotionRegions (recreateFeed s w) = m_camMotionRegions w
  ∧ m_camDb (recreateFeed s w) = m_camDb w
  ∧ m_prefs (recreateFeed s w) = m_prefs w.
Proof.
  unfold recreateFeed. cbv zeta. case_bool_decide as Hf; [|by repeat split].
  split; [done|]. split; [|done]. split; [done|]. split; [|done].
  intros k. cbn. destruct (decide (k = slotCam s)) as [->|Hk].
  - rewrite lookup_insert_eq. split; [done|by eauto].
  - by rewrite lookup_insert_ne, lookup_delete_ne.
Qed.

Lemma recreateFeed_bound s w k :
  editingIsBoundAt k w → editingIsBoundAt k (recreateFeed s w).
Proof.
  intros [H1 H2]. destruct (recreateFeed_fields s w) as (_&(E&F&_)&_).
  unfold editingIsBoundAt. rewrite E, F. split; [|done].
  intros Ht. apply H1. revert Ht. unfold recreateFeed. cbv zeta.
  case_bool_decide; [|done]. cbn. unfold subscript.
  destruct (m_motionAreaSetupEnabled w !! slotCam s) eqn:Ee; cbn; [done|].
  destruct (decide (k = slotCam s)) as [->|Hk].
  - by rewrite lookup_insert_eq.
  - by rewrite lookup_insert_ne.
Qed.

Lemma clickConnectOfAll_cons os c cs w :
  clickConnectOfAll os (c :: cs) w = clickConnectOfAll os cs (clickConnectOf c (os c) w).
Proof. reflexivity. Qed.

Lemma clickConnectOf_invariants c o w :
  (counterAgrees w → counterAgrees (clickConnectOf c o w))
  ∧ (editingIsBound w → editingIsBound (clickConnectOf c o w))
  ∧ (consistent w → consistent (clickConnectOf c o w)).
Proof.
  unfold clickConnectOf. destruct (camSlot c) as [s|]; [|done].
  split; [apply on_connect_counter|]. split.
  - intros H k. apply on_connect_bound, H.
  - intros H k. apply on_connect_consistent, H.
Qed.

Lemma clickConnectOfAll_invariants os cs : ∀ w,
  (counterAgrees w → counterAgrees (clickConnectOfAll os cs w))
  ∧ (editingIsBound w → editingIsBound (clickConnectOfAll os cs w))
  ∧ (consistent w → consistent (clickConnectOfAll os cs w)).
Proof.
  induction cs as [|c cs IH]; intros w; [done|].
  rewrite clickConnectOfAll_cons.
  destruct (IH (clickConnectOf c (os c) w)) as (I1&I2&I3).
  destruct (clickConnectOf_invariants c (os c) w) as (J1&J2&J3).
  split; [|split]; intros H; auto.
Qed.

Lemma clickConnectOfAll_timer os cs : ∀ w,
  (∀ c, os c = Built) → counterAgrees w → timerAgrees w →
  timerAgrees (clickConnectOfAll os cs w).
Proof.
  induction cs as [|c cs IH]; intros w Hos Hc Ht; [done|].
  rewrite clickConnectOfAll_cons.
  destruct (clickConnectOf_invariants c (os c) w) as (J1&_).
  apply IH; [done|auto|]. unfold clickConnectOf. rewrite Hos.
  destruct (camSlot c); [by apply on_connect_timer|done].
Qed.

Lemma checkStartupConnection_invariants onStartup o s w :
  (counterAgrees w → counterAgrees (checkStartupConnection onStartup o s w))
  ∧ (editingIsBound w → editingIsBound (checkStartupConnection onStartup o s w))
  ∧ (consistent w → consistent (checkStartupConnection onStartup o s w))
  ∧ (o s = Built → counterAgrees w → timerAgrees w →
     timerAgrees (checkStartupConnection onStartup o s w)).
Proof.
  unfold checkStartupConnection. cbv zeta.
  set (w1 := onButton s ConnectBtn _ w).
  destruct (_ && _); [|done].
  split; [apply (on_connect_counter s (o s) w1)|]. split; [|split].
  - intros H k. apply (on_connect_bound s (o s) w1), H.
  - intros H k. apply (on_connect_consistent s (o s) w1), H.
  - intros ->. apply (on_connect_timer s w1).
Qed.

(** Every handler keeps the counter equal to the number of stream
    processors, keeps region editing on bound cameras, and keeps feeds,
    stream processors and the store consistent. *)
Lemma perform_invariants a w :
  (counterAgrees w → counterAgrees (perform a w))
  ∧ (editingIsBound w → editingIsBound (perform a w))
  ∧ (consistent w → consistent (perform a w)).
Proof.
  destruct a as [e|s d o1 o2|s writing|sizes|d o1 o2|onStartup o|]; unfold perform.
  - split; [apply handle_counter|]. split; [apply handle_bound|apply handle_consistent].
  - split; [apply on_settings_counter|].
    split; [apply on_settings_bound|apply on_settings_consistent].
  - destruct (clickable _ _ _); [|done].
    unfold on_recordToolButton_clicked, RecordActionHandler.
    destruct (m_streamProcessors w !! slotCam s); [|done]. by destruct writing.
  - unfold resizeEvent. cbv zeta.
    set (w0 := onSlotUi slot4 _ _).
    assert (connectionFields w0 = connectionFields w ∧ bindings w0 = bindings w
            ∧ keepsFeeds w w0) as (E0&B0&K0) by (by repeat split).
    destruct (recreateFeed_fields slot1 w0) as (E1&K1&_).
    destruct (recreateFeed_fields slot2 (recreateFeed slot1 w0)) as (E2&K2&_).
    destruct (recreateFeed_fields slot3 (recreateFeed slot2 (recreateFeed slot1 w0)))
      as (E3&K3&_).
    destruct (recreateFeed_fields slot4
                (recreateFeed slot3 (recreateFeed slot2 (recreateFeed slot1 w0))))
      as (E4&K4&_).
    split; [|split].
    + intros H. eapply counterAgrees_fields; [|exact H]. congruence.
    + intros H k. do 4 apply recreateFeed_bound.
      eapply editingIsBoundAt_bindings; [exact B0|apply H].
    + intros H k. eapply keepsFeeds_consistentAt; [|apply H].
      repeat (eapply keepsFeeds_trans; [|eassumption]). apply keepsFeeds_refl.
  - unfold on_actionPreferences_triggered. destruct d as [|prefs]; [done|]. cbv zeta.
    set (w0 := set_prefs prefs w). set (cs := camFeedKeys w0).
    destruct (clickConnectOfAll_invariants o1 cs w0) as (I1&I2&I3).
    destruct (clickConnectOfAll_invariants o2 cs (clickConnectOfAll o1 cs w0))
      as (J1&J2&J3).
    split; [|split]; intros H; [apply J1, I1|apply J2, I2|apply J3, I3]; exact H.
  - unfold CheckStartupConnections. cbv zeta.
    set (w1 := checkStartupConnection onStartup o slot1 w).
    set (w2 := checkStartupConnection onStartup o slot2 w1).
    set (w3 := checkStartupConnection onStartup o slot3 w2).
    destruct (checkStartupConnection_invariants onStartup o slot1 w) as (A1&A2&A3&_).
    destruct (checkStartupConnection_invariants onStartup o slot2 w1) as (B1&B2&B3&_).
    destruct (checkStartupConnection_invariants onStartup o slot3 w2) as (C1&C2&C3&_).
    destruct (checkStartupConnection_invariants onStartup o slot4 w3) as (D1&D2&D3&_).
    split; [|split]; intros H; auto.
  - unfold closeEvent. by destruct (form_visible _).
Qed.

Lemma perform_timer a w :
  noThrowIn a → counterAgrees w → timerAgrees w → timerAgrees (perform a w).
Proof.
  intros Ha Hc Ht.
  destruct a as [e|s d o1 o2|s writing|sizes|d o1 o2|onStartup o|];
    unfold perform, noThrowIn in *.
  - by apply handle_timer.
  - destruct Ha as [-> ->]. by apply on_settings_timer.
  - destruct (clickable _ _ _); [|done].
    unfold on_recordToolButton_clicked, RecordActionHandler.
    destruct (m_streamProcessors w !! slotCam s); [|done]. by destruct writing.
  - unfold resizeEvent. cbv zeta.
    set (w0 := onSlotUi slot4 _ _).
    destruct (recreateFeed_fields slot1 w0) as (E1&_).
    destruct (recreateFeed_fields slot2 (recreateFeed slot1 w0)) as (E2&_).
    destruct (recreateFeed_fields slot3 (recreateFeed slot2 (recreateFeed slot1 w0)))
      as (E3&_).
    destruct (recreateFeed_fields slot4
                (recreateFeed slot3 (recreateFeed slot2 (recreateFeed slot1 w0))))
      as (E4&_).
    eapply timerAgrees_fields; [|exact Ht].
    transitivity (connectionFields w0); [congruence|done].
  - destruct Ha as [H1 H2]. unfold on_actionPreferences_triggered.
    destruct d as [|prefs]; [done|]. cbv zeta.
    set (w0 := set_prefs prefs w). set (cs := camFeedKeys w0).
    destruct (clickConnectOfAll_invariants o1 cs w0) as (I1&_).
    apply clickConnectOfAll_timer; [done|by apply I1|].
    by apply clickConnectOfAll_timer.
  - unfold CheckStartupConnections. cbv zeta.
    set (w1 := checkStartupConnection onStartup o slot1 w).
    set (w2 := checkStartupConnection onStartup o slot2 w1).
    set (w3 := checkStartupConnection onStartup o slot3 w2).
    destruct (checkStartupConnection_invariants onStartup o slot1 w) as (A1&_&_&A4).
    destruct (checkStartupConnection_invariants onStartup o slot2 w1) as (B1&_&_&B4).
    destruct (checkStartupConnection_invariants onStartup o slot3 w2) as (C1&_&_&C4).
    destruct (checkStartupConnection_invariants onStartup o slot4 w3) as (_&_&_&D4).
    auto 10.
  - unfold closeEvent. by destruct (form_visible _).
Qed.

Lemma initialWindow_consistent prefs db sz : consistent (initialWindow prefs db sz).
Proof.
  intros k. unfold consistentAt. cbn. rewrite !lookup_empty.
  split; [split|]; by intros [? ?]. Qed.

Lemma consistent_at_most_four w : consistent w → (size (m_streamProcessors w) ≤ 4)%nat.
Proof.
  intros H. rewrite <- size_dom.
  assert (dom (m_streamProcessors w) ⊆ ({[cam1; cam2; cam3; cam4]} : gset eCamId)) as Hs.
  { intros k Hk. apply elem_of_dom in Hk. destruct (H k) as [_ H2].
    destruct (H2 Hk) as [_ Hn]. destruct k; [done|set_solver..]. }
  apply subseteq_size in Hs. etrans; [exact Hs|]. by vm_compute.
Qed.

(** ** The buttons show the connection state *)

Lemma keepsAffordances_refl w : keepsAffordances w w.
Proof. by split. Qed.

Lemma keepsAffordances_trans w1 w2 w3 :
  keepsAffordances w1 w2 → keepsAffordances w2 w3 → keepsAffordances w1 w3.
Proof. intros [E1 H1] [E2 H2]. split; [congruence|]. intros s. by rewrite H2. Qed.

Lemma keepsAffordances_ext w w' :
  m_streamProcessors w' = m_streamProcessors w → ui w' = ui w → keepsAffordances w w'.
Proof. intros E1 E2. split; [done|]. intros s. by rewrite E2. Qed.

Lemma keepsAffordances_agree w w' :
  keepsAffordances w w' → affordancesAgree w → affordancesAgree w'.
Proof. intros [E H] Hw s. unfold affordancesAgreeAt. rewrite H, E. apply Hw. Qed.

Lemma slotUi_setSlotUi_eq s x u : slotUi s (setSlotUi s x u) = x.
Proof. by destruct s. Qed.

Lemma slotUi_setSlotUi_ne s s' x u : s' ≠ s → slotUi s' (setSlotUi s x u) = slotUi s' u.
Proof. by destruct s, s'. Qed.

Lemma onSlotUi_keepsAffordances s f w :
  (∀ u, affordances (f u) = affordances u) → keepsAffordances w (onSlotUi s f w).
Proof.
  intros Hf. split; [done|]. intros s'. unfold onSlotUi. cbn.
  destruct s, s'; cbn; auto.
Qed.

Lemma onCamSlotUi_keepsAffordances c f w :
  (∀ u, affordances (f u) = affordances u) → keepsAffordances w (onCamSlotUi c f w).
Proof.
  intros Hf. unfold onCamSlotUi.
  destruct (camSlot c); [by apply onSlotUi_keepsAffordances|apply keepsAffordances_refl].
Qed.

Lemma onButton_keepsAffordances s b f w :
  (∀ u, affordances (setButton b (f (button b u)) u) = affordances u) →
  keepsAffordances w (onButton s b f w).
Proof. intros Hf. by apply (onSlotUi_keepsAffordances s (λ u, setButton b (f (button b u)) u)). Qed.

Lemma setVisible_affordances b v u :
  affordances (setButton b (Qt.setVisible v (button b u)) u) = affordances u.
Proof. by destruct b. Qed.

Lemma setChecked_affordances b v u :
  affordances (setButton b (fst (Qt.setChecked v (button b u))) u) = affordances u.
Proof. unfold Qt.setChecked. destruct b; cbn; by destruct (_ || _). Qed.

Lemma EnableMotionRegionsSetup_keepsAffordances c enable s b1 b2 w :
  keepsAffordances w (EnableMotionRegionsSetup c enable s b1 b2 w).
Proof.
  unfold EnableMotionRegionsSetup. cbv zeta.
  pose proof (onButton_keepsAffordances s b1 (Qt.setVisible enable) w
                (setVisible_affordances b1 enable)) as H1.
  change (m_camFeeds (onButton s b1 (Qt.setVisible enable) w)) with (m_camFeeds w).
  destruct (m_camFeeds w !! c) as [feed|]; [|exact H1].
  eapply keepsAffordances_trans; [exact H1|].
  destruct enable.
  - eapply keepsAffordances_trans;
      [|apply onButton_keepsAffordances, setChecked_affordances].
    apply keepsAffordances_ext; by destruct (FindCamera _ _).
  - by apply keepsAffordances_ext.
Qed.

Lemma motionRegionsBtn_setChecked_keepsAffordances s b w :
  keepsAffordances w (motionRegionsBtn_setChecked s b w).
Proof.
  unfold motionRegionsBtn_setChecked. cbv zeta.
  assert (keepsAffordances w
            (onButton s MotionRegionsBtn
               (λ _, fst (Qt.setChecked b (motionRegionsBtn (slotUi s (ui w))))) w)) as H1.
  { split; [done|]. intros s'. unfold onButton, Qt.setChecked. cbn.
    destruct s, s'; cbn; repeat case_match; reflexivity. }
  destruct (snd _); [|exact H1].
  eapply keepsAffordances_trans; [exact H1|].
  apply EnableMotionRegionsSetup_keepsAffordances.
Qed.

Lemma UpdateCamFeedFrame_keepsAffordances c img rect rec w :
  keepsAffordances w (UpdateCamFeedFrame c img rect rec w).
Proof.
  unfold UpdateCamFeedFrame.
  destruct (m_camFeeds w !! c); [by apply keepsAffordances_ext|apply keepsAffordances_refl].
Qed.

Lemma pollStreamProcessor_keepsAffordances r c w :
  keepsAffordances w (pollStreamProcessor r c w).
Proof.
  unfold pollStreamProcessor.
  destruct (VideoFrameUpdated r); [|apply keepsAffordances_refl]. cbv zeta.
  assert (keepsAffordances w
            (SetFpsInTitle c (CurrentFps r) (OriginalFps r)
               (UpdateCamFeedFrame c (CurrentVideoFrame r) (motionBoundingRect r)
                  (VideoWritingEnabled r) w))) as H1.
  { eapply keepsAffordances_trans; [apply UpdateCamFeedFrame_keepsAffordances|].
    by apply onCamSlotUi_keepsAffordances. }
  destruct (_ && _); [|exact H1].
  eapply keepsAffordances_trans; [exact H1|]. by apply keepsAffordances_ext.
Qed.

Lemma pollKeys_keepsAffordances reports l : ∀ w, keepsAffordances w (pollKeys reports l w).
Proof.
  induction l as [|c l IH]; intros w; [apply keepsAffordances_refl|].
  rewrite pollKeys_cons.
  eapply keepsAffordances_trans; [apply pollStreamProcessor_keepsAffordances|apply IH].
Qed.

(** The widgets of the other slots after a click on connect. *)
Lemma onSlotUi_other s f w s' :
  s' ≠ s → slotUi s' (ui (onSlotUi s f w)) = slotUi s' (ui w).
Proof. intros. unfold onSlotUi. cbn. by apply slotUi_setSlotUi_ne. Qed.

Lemma onButton_other s b f w s' :
  s' ≠ s → slotUi s' (ui (onButton s b f w)) = slotUi s' (ui w).
Proof. intros. unfold onButton. cbn. by apply slotUi_setSlotUi_ne. Qed.

Lemma camSlot_slotCam s : camSlot (slotCam s) = Some s.
Proof. by destruct s. Qed.

Lemma EnableMotionRegionsSetup_otherSlot c enable s b1 b2 w s' :
  s' ≠ s →
  slotUi s' (ui (EnableMotionRegionsSetup c enable s b1 b2 w)) = slotUi s' (ui w).
Proof.
  intros Hs. rewrite <- (onButton_other s b1 (Qt.setVisible enable) w s' Hs).
  unfold EnableMotionRegionsSetup. cbv zeta.
  destruct (m_camFeeds _ !! c) as [feed|]; [|done].
  destruct enable; [|done].
  rewrite onButton_other by done. by destruct (FindCamera _ _).
Qed.

Lemma motionRegionsBtn_setChecked_otherSlot s b w s' :
  s' ≠ s → slotUi s' (ui (motionRegionsBtn_setChecked s b w)) = slotUi s' (ui w).
Proof.
  intros Hs. unfold motionRegionsBtn_setChecked. cbv zeta.
  destruct (snd _).
  - unfold on_motionDetectorRegionsToolButton_toggled.
    rewrite EnableMotionRegionsSetup_otherSlot by done. by apply onButton_other.
  - by apply onButton_other.
Qed.

Lemma resetWidgets_otherSlot s w s' :
  s' ≠ s → slotUi s' (ui (resetWidgets (slotCam s) s w)) = slotUi s' (ui w).
Proof.
  intros Hs. unfold resetWidgets, resetButtons. cbv zeta.
  rewrite onButton_other, motionRegionsBtn_setChecked_otherSlot by done.
  rewrite !onButton_other by done.
  unfold resetGroupBox, onCamSlotUi. rewrite camSlot_slotCam. by apply onSlotUi_other.
Qed.

Lemma disconnect_otherSlot camera s w s' :
  camId camera = slotCam s → s' ≠ s →
  slotUi s' (ui (disconnectCamera camera s w)) = slotUi s' (ui w).
Proof.
  intros Hid Hs. unfold disconnectCamera. cbv zeta. rewrite Hid.
  set (c := slotCam s).
  destruct (countDown_fields
              (eraseRegionSetup c (resetWidgets c s (eraseCamera c (closeFormOf c w)))))
    as (_&_&_&_&_&_&_&_&_&->&_).
  destruct (eraseRegionSetup_fields c (resetWidgets c s (eraseCamera c (closeFormOf c w))))
    as (_&_&_&_&_&_&_&_&_&->&_).
  unfold c. rewrite resetWidgets_otherSlot by done.
  unfold closeFormOf. by destruct (_ && _).
Qed.

Lemma countUp_ui w : ui (countUp w) = ui w.
Proof. reflexivity. Qed.

Lemma enableWidgets_otherSlot camera s w s' :
  s' ≠ s → slotUi s' (ui (enableWidgets camera s w)) = slotUi s' (ui w).
Proof. intros Hs. unfold enableWidgets. cbv zeta. by rewrite !onButton_other. Qed.

Lemma addFeed_otherSlot camera s w s' :
  camId camera = slotCam s → s' ≠ s →
  slotUi s' (ui (addFeed camera w)) = slotUi s' (ui w).
Proof.
  intros Hid Hs. unfold addFeed, onCamSlotUi. cbv zeta.
  rewrite Hid, camSlot_slotCam. exact (onSlotUi_other s _ w s' Hs).
Qed.

Lemma connect_otherSlot camera s o w s' :
  camId camera = slotCam s → s' ≠ s →
  slotUi s' (ui (connectCamera camera s o w)) = slotUi s' (ui w).
Proof.
  intros Hid Hs. destruct o; [|done].
  unfold connectCamera. cbv zeta.
  rewrite countUp_ui, enableWidgets_otherSlot by done.
  by rewrite (addFeed_otherSlot camera s _ s' Hid Hs).
Qed.

Lemma on_connect_otherSlot s o w s' :
  s' ≠ s → slotUi s' (ui (on_connectToolButton_clicked s o w)) = slotUi s' (ui w).
Proof.
  intros Hs. unfold on_connectToolButton_clicked.
  destruct (FindCamera _ _) as [camera|] eqn:Hcfg; [|done].
  pose proof (FindCamera_camId _ _ _ Hcfg) as Hid.
  rewrite ConnectionHandler_unfold.
  destruct (stopTimer_fields w) as (_&_&_&_&_&_&_&_&_&Hu&_). rewrite <- Hu.
  case_bool_decide; [by apply disconnect_otherSlot|by apply connect_otherSlot].
Qed.

Lemma onButton_slotUi s b f w :
  slotUi s (ui (onButton s b f w))
  = setButton b (f (button b (slotUi s (ui w)))) (slotUi s (ui w)).
Proof. unfold onButton. cbn. apply slotUi_setSlotUi_eq. Qed.

Lemma enableWidgets_affordances camera s w :
  affordances (slotUi s (ui (enableWidgets camera s w))) = connectedAffordances camera.
Proof.
  unfold enableWidgets. cbv zeta. rewrite !onButton_slotUi.
  generalize (slotUi s (ui w)). intros u. reflexivity.
Qed.

Lemma connect_affordances camera s w :
  affordances (slotUi s (ui (connectCamera camera s Built w))) = connectedAffordances camera.
Proof.
  unfold connectCamera. cbv zeta. rewrite countUp_ui. apply enableWidgets_affordances.
Qed.

(** A click on connect keeps the buttons of every slot in step with the
    connection state. *)
Lemma on_connect_affordancesAgree s o w :
  affordancesAgree w → affordancesAgree (on_connectToolButton_clicked s o w).
Proof.
  intros Hw s'. unfold affordancesAgreeAt.
  assert (s' = s ∨ s' ≠ s) as [->|Hs] by (destruct s, s'; (by left) || by right).
  - rewrite on_connect_processor.
    destruct (FindCamera _ _) as [camera|] eqn:Hcfg.
    + destruct (m_streamProcessors w !! slotCam s) as [sp|] eqn:Hsp.
      * rewrite (on_connect_disconnects s o w camera Hcfg) by by rewrite Hsp.
        apply disconnect_affordances.
      * specialize (Hw s). unfold affordancesAgreeAt in Hw. rewrite Hsp in Hw.
        destruct o.
        -- rewrite (on_connect_connects s w camera Hcfg Hsp).
           apply connect_affordances.
        -- unfold on_connectToolButton_clicked. rewrite Hcfg, ConnectionHandler_unfold.
           rewrite (FindCamera_camId _ _ _ Hcfg).
           rewrite bool_decide_eq_false_2 by (rewrite Hsp; by intros [? ?]).
           rewrite connect_throws. cbn.
           destruct (stopTimer_fields w) as (_&_&_&_&_&_&_&_&_&->&_). exact Hw.
    + unfold on_connectToolButton_clicked. rewrite Hcfg. apply Hw.
  - rewrite on_connect_otherSlot by done.
    assert (slotCam s' ≠ slotCam s) as Hk by (by destruct s, s').
    pose proof (on_connect_other s o w (slotCam s') Hk) as E.
    unfold cameraState in E. injection E as E _ _ _. rewrite E. apply Hw.
Qed.

Lemma ReconnectCamera_affordancesAgree c o1 o2 w :
  affordancesAgree w → affordancesAgree (ReconnectCamera c o1 o2 w).
Proof.
  intros H. unfold ReconnectCamera. destruct (camSlot c); [|done].
  eapply keepsAffordances_agree; [apply EnableMotionRegionsSetup_keepsAffordances|].
  by do 2 apply on_connect_affordancesAgree.
Qed.

Lemma handle_affordancesAgree e w : affordancesAgree w → affordancesAgree (handle e w).
Proof.
  intros H.
  destruct e as [s o|s|s a o1 o2|n sel o1 o2|s|reports]; unfold handle.
  - destruct (clickable _ _ _); [|done]. by apply on_connect_affordancesAgree.
  - destruct (clickable _ _ _); [|done].
    eapply keepsAffordances_agree; [apply motionRegionsBtn_setChecked_keepsAffordances|done].
  - destruct (clickable _ _ _); [|done]. unfold RemoveMotionRegions.
    destruct (FindCamera _ _); [|done]. destruct a; [|done].
    apply ReconnectCamera_affordancesAgree.
    eapply keepsAffordances_agree; [|exact H]. by apply keepsAffordances_ext.
  - destruct (selectable _ _); [|done]. unfold VideoFrameAreaSelection.
    destruct (match n with 1 => _ | _ => _ end) as [c|]; [|done]. cbv zeta.
    destruct (FindCamera c _); [|done].
    apply ReconnectCamera_affordancesAgree.
    eapply keepsAffordances_agree; [|exact H]. by apply keepsAffordances_ext.
  - destruct (clickable _ _ _); [|done].
    eapply keepsAffordances_agree; [|exact H]. by apply keepsAffordances_ext.
  - destruct (timerActive w); [|done].
    eapply keepsAffordances_agree; [apply pollKeys_keepsAffordances|done].
Qed.

Lemma SetupCameraInDb_keepsAffordances c s d w :
  keepsAffordances w (SetupCameraInDb c s d w).
Proof.
  unfold SetupCameraInDb. destruct d as [|camera valid]; [apply keepsAffordances_refl|].
  cbv zeta.
  eapply keepsAffordances_trans; [|by apply onButton_keepsAffordances].
  apply keepsAffordances_ext; by destruct valid.
Qed.

Lemma on_settings_affordancesAgree s d o1 o2 w :
  affordancesAgree w → affordancesAgree (on_settingsToolButton_clicked s d o1 o2 w).
Proof.
  intros H. unfold on_settingsToolButton_clicked. cbv zeta.
  set (reconnect := DoesCameraExist _ _ && _).
  set (w1 := if reconnect then on_connectToolButton_clicked s o1 w else w).
  assert (affordancesAgree w1) as H1
    by (subst w1; destruct reconnect; [by apply on_connect_affordancesAgree|done]).
  pose proof (keepsAffordances_agree _ _
                (SetupCameraInDb_keepsAffordances (slotCam s) s d w1) H1).
  destruct (Qt.enabled _ && reconnect); [by apply on_connect_affordancesAgree|done].
Qed.

Lemma recreateFeed_keepsAffordances s w : keepsAffordances w (recreateFeed s w).
Proof.
  unfold recreateFeed. cbv zeta.
  case_bool_decide; [by apply keepsAffordances_ext|apply keepsAffordances_refl].
Qed.

Lemma resizeEvent_keepsAffordances sizes w : keepsAffordances w (resizeEvent sizes w).
Proof.
  unfold resizeEvent. cbv zeta.
  repeat (eapply keepsAffordances_trans; [|apply recreateFeed_keepsAffordances]).
  repeat (eapply keepsAffordances_trans; [|by apply onSlotUi_keepsAffordances]).
  apply keepsAffordances_refl.
Qed.

Lemma RecordActionHandler_keepsAffordances c s writing w :
  keepsAffordances w (fst (RecordActionHandler c s writing w)).
Proof.
  unfold RecordActionHandler.
  destruct (m_streamProcessors w !! c); [|apply keepsAffordances_refl].
  destruct writing; cbn [fst];
    (eapply keepsAffordances_trans; by apply onButton_keepsAffordances).
Qed.

Lemma clickConnectOfAll_affordancesAgree os cs : ∀ w,
  affordancesAgree w → affordancesAgree (clickConnectOfAll os cs w).
Proof.
  induction cs as [|c cs IH]; intros w H; [done|].
  rewrite clickConnectOfAll_cons. apply IH. unfold clickConnectOf.
  destruct (camSlot c); [by apply on_connect_affordancesAgree|done].
Qed.

Lemma set_prefs_keepsAffordances prefs w : keepsAffordances w (set_prefs prefs w).
Proof. by apply keepsAffordances_ext. Qed.

Lemma checkStartupConnection_affordancesAgree onStartup o s w :
  affordancesAgree w → affordancesAgree (checkStartupConnection onStartup o s w).
Proof.
  intros H. unfold checkStartupConnection. cbv zeta.
  set (w1 := onButton s ConnectBtn _ w).
  assert (affordancesAgree w1) as H1.
  { eapply keepsAffordances_agree; [|exact H]. by apply onButton_keepsAffordances. }
  destruct (_ && _); [by apply on_connect_affordancesAgree|done].
Qed.

Lemma perform_affordancesAgree a w : affordancesAgree w → affordancesAgree (perform a w).
Proof.
  intros H.
  destruct a as [e|s d o1 o2|s writing|sizes|d o1 o2|onStartup o|]; unfold perform.
  - by apply handle_affordancesAgree.
  - by apply on_settings_affordancesAgree.
  - destruct (clickable _ _ _); [|done].
    eapply keepsAffordances_agree; [apply RecordActionHandler_keepsAffordances|done].
  - eapply keepsAffordances_agree; [apply resizeEvent_keepsAffordances|done].
  - unfold on_actionPreferences_triggered. destruct d as [|prefs]; [done|]. cbv zeta.
    do 2 apply clickConnectOfAll_affordancesAgree.
    eapply keepsAffordances_agree; [apply set_prefs_keepsAffordances|done].
  - unfold CheckStartupConnections. cbv zeta.
    by do 4 apply checkStartupConnection_affordancesAgree.
  - unfold closeEvent. destruct (form_visible _); [|done].
    eapply keepsAffordances_agree; [|exact H]. by apply keepsAffordances_ext.
Qed.

Lemma initialWindow_affordancesAgree prefs db sz :
  affordancesAgree (initialWindow prefs db sz).
Proof. intros s. unfold affordancesAgreeAt. cbn. rewrite lookup_empty. by destruct s. Qed.

Lemma performAll_affordancesAgree acts : ∀ w,
  affordancesAgree w → affordancesAgree (performAll acts w).
Proof.
  induction acts as [|a acts IH]; intros w H; [done|].
  apply IH. by apply perform_affordancesAgree.
Qed.

(** X1.  Every handler of the window keeps the connection counter equal to
    the number of bound stream processors: connects that succeed or throw,
    disconnects, the settings and preferences dialogs, resizes, region
    edits, polls, start-up and close. *)
Theorem X1_counter_counts_bound_cameras
    (acts : list Action) (w : MainWindow) (Hc : counterAgrees w) :
  m_numConnections (performAll acts w)
  = Z.of_nat (size (m_streamProcessors (performAll acts w))).
Proof.
  revert w Hc. induction acts as [|a acts IH]; intros w Hc; [exact Hc|].
  apply (IH (perform a w)). by apply perform_invariants.
Qed.

Lemma X1_witness :
  let acts := [Started true (λ _, Built);
               Basic (ConnectClicked slot3 Built);
               Basic (ConnectClicked slot1 (Throws "no route to host"));
               SettingsClicked slot2 SetupRejected Built (Throws "timeout");
               Basic (ConnectClicked slot1 Built)] in
  size (m_streamProcessors (performAll acts startWindow)) = 1%nat
  ∧ m_numConnections (performAll acts startWindow)
    = Z.of_nat (size (m_streamProcessors (performAll acts startWindow))).
Proof.
  cbv zeta. split; [reflexivity|].
  apply (X1_counter_counts_bound_cameras
           [Started true (λ _, Built);
            Basic (ConnectClicked slot3 Built);
            Basic (ConnectClicked slot1 (Throws "no route to host"));
            SettingsClicked slot2 SetupRejected Built (Throws "timeout");
            Basic (ConnectClicked slot1 Built)] startWindow).
  reflexivity.
Defined.

(** X2.  Every handler keeps the maps of the window consistent: a camera has
    a feed widget exactly when it has a stream processor; a camera with a
    stream processor is configured in the camera store and is never
    [noCam]; region editing is on only for a camera that has a feed; and at
    most four cameras are connected. *)
Theorem X2_feeds_processors_and_store_stay_consistent
    (acts : list Action) (w : MainWindow)
    (Hk : consistent w) (He : editingIsBound w) :
  let w' := performAll acts w in
  (∀ k, (is_Some (m_camFeeds w' !! k) ↔ is_Some (m_streamProcessors w' !! k))
        ∧ (is_Some (m_streamProcessors w' !! k)
           → DoesCameraExist k (m_camDb w') = true ∧ k ≠ noCam)
        ∧ (m_motionAreaSetupEnabled w' !! k = Some true
           → is_Some (m_camFeeds w' !! k)))
  ∧ (size (m_streamProcessors w') ≤ 4)%nat.
Proof.
  cbv zeta.
  assert (editingIsBound (performAll acts w) ∧ consistent (performAll acts w))
    as [H2 H3].
  { revert w Hk He. induction acts as [|a acts IH]; intros w Hk He; [done|].
    destruct (perform_invariants a w) as (_&I2&I3). apply (IH (perform a w)); auto. }
  split; [|by apply consistent_at_most_four].
  intros k. destruct (H3 k) as [F B]. destruct (H2 k) as [E _].
  split; [exact F|]. split; [|exact E].
  intros Hb. destruct (B Hb) as [Hc Hn]. split; [|done].
  unfold DoesCameraExist. by apply bool_decide_eq_true.
Qed.

Lemma X2_witness :
  let w' := performAll [Started true (λ _, Built);
                        Basic (MotionRegionsClicked slot1);
                        Resized (λ _, Qt.MkSize 320 180);
                        SettingsClicked slot2 (SetupAccepted (MkCamera cam2 yardCamera) false)
                          Built Built] startWindow in
  (∀ k, (is_Some (m_camFeeds w' !! k) ↔ is_Some (m_streamProcessors w' !! k))
        ∧ (is_Some (m_streamProcessors w' !! k)
           → DoesCameraExist k (m_camDb w') = true ∧ k ≠ noCam)
        ∧ (m_motionAreaSetupEnabled w' !! k = Some true
           → is_Some (m_camFeeds w' !! k)))
  ∧ (size (m_streamProcessors w') ≤ 4)%nat.
Proof.
  cbv zeta.
  apply (X2_feeds_processors_and_store_stay_consistent
           [Started true (λ _, Built);
            Basic (MotionRegionsClicked slot1);
            Resized (λ _, Qt.MkSize 320 180);
            SettingsClicked slot2 (SetupAccepted (MkCamera cam2 yardCamera) false)
              Built Built] startWindow).
  - apply initialWindow_consistent.
  - apply initialWindow_bound.
Defined.

(** X3.  As long as no stream processor construction throws, every handler
    keeps the poll timer running exactly when at least one camera is
    connected. *)
Theorem X3_timer_runs_iff_connected_without_failures
    (acts : list Action) (w : MainWindow)
    (Hok : Forall noThrowIn acts) (Hc : counterAgrees w) (Ht : timerAgrees w) :
  let w' := performAll acts w in
  timerActive w' = bool_decide (0 < size (m_streamProcessors w'))%nat.
Proof.
  cbv zeta.
  assert (counterAgrees (performAll acts w) ∧ timerAgrees (performAll acts w))
    as [Hc' Ht'].
  { revert w Hc Ht. induction acts as [|a acts IH]; intros w Hc Ht; [done|].
    apply Forall_cons in Hok as [Ha Hacts].
    apply (IH Hacts (perform a w)); [by apply perform_invariants|by apply perform_timer]. }
  unfold timerAgrees in Ht'. unfold counterAgrees, boundCount in Hc'.
  rewrite Ht', Hc'.
  case_bool_decide as E; [apply Z.ltb_lt|apply Z.ltb_ge]; lia.
Qed.

Lemma X3_witness :
  let w' := performAll [Started true (λ _, Built);
                        SettingsClicked slot1 SetupRejected Built Built;
                        Basic (ConnectClicked slot2 Built)] startWindow in
  size (m_streamProcessors w') = 1%nat
  ∧ timerActive w' = bool_decide (0 < size (m_streamProcessors w'))%nat.
Proof.
  cbv zeta. split; [reflexivity|].
  apply (X3_timer_runs_iff_connected_without_failures
           [Started true (λ _, Built);
            SettingsClicked slot1 SetupRejected Built Built;
            Basic (ConnectClicked slot2 Built)] startWindow).
  - repeat constructor.
  - reflexivity.
  - reflexivity.
Defined.

(** X4.  Every handler keeps the buttons of a slot in step with the
    connection state of its camera: with no stream processor, record,
    snapshot, expand, storage and edit-regions are disabled and the connect
    icon is shown; with one, snapshot, expand and edit-regions are enabled,
    record is enabled unless the camera records on a schedule, storage is
    enabled unless its storage address is empty, and the disconnect icon is
    shown. *)
Theorem X4_buttons_show_the_connection_state
    (acts : list Action) (w : MainWindow) (s : Slot) (Ha : affordancesAgree w) :
  let w' := performAll acts w in
  affordances (slotUi s (ui w'))
  = match m_streamProcessors w' !! slotCam s with
    | Some sp =>
        MkAffordances (negb (enableScheduledRecording (settings (sp_camera sp))))
          true true (negb (String.eqb (storageHttpUrl (settings (sp_camera sp))) ""))
          true ICON_DISCONNECT
    | None => MkAffordances false false false false false ICON_CONNECT
    end.
Proof.
  cbv zeta. revert w Ha. induction acts as [|a acts IH]; intros w Ha; [apply Ha|].
  apply (IH (perform a w)). by apply perform_affordancesAgree.
Qed.

Lemma X4_witness :
  let w' := performAll [Started true (λ _, Built);
                        Basic (ConnectClicked slot2 Built);
                        Resized (λ _, Qt.MkSize 320 180)] startWindow in
  is_Some (m_streamProcessors w' !! cam1)
  ∧ affordances (slotUi slot1 (ui w'))
    = match m_streamProcessors w' !! slotCam slot1 with
      | Some sp =>
          MkAffordances (negb (enableScheduledRecording (settings (sp_camera sp))))
            true true (negb (String.eqb (storageHttpUrl (settings (sp_camera sp))) ""))
            true ICON_DISCONNECT
      | None => MkAffordances false false false false false ICON_CONNECT
      end.
Proof.
  cbv zeta. split; [vm_compute; eauto|].
  apply (X4_buttons_show_the_connection_state
           [Started true (λ _, Built);
            Basic (ConnectClicked slot2 Built);
            Resized (λ _, Qt.MkSize 320 180)] startWindow slot1).
  apply initialWindow_affordancesAgree.
Defined.

(** ** The connect button across a click on it *)

Lemma resetButtons_connectEnabled s w :
  Qt.enabled (connectBtn (slotUi s (ui (resetButtons s w))))
  = Qt.enabled (connectBtn (slotUi s (ui w))).
Proof.
  unfold resetButtons, motionRegionsBtn_setChecked,
    on_motionDetectorRegionsToolButton_toggled, EnableMotionRegionsSetup, Qt.setChecked.
  cbv zeta. destruct s; cbn; repeat (case_match; cbn); reflexivity.
Qed.

Lemma disconnect_connectEnabled camera s w :
  Qt.enabled (connectBtn (slotUi s (ui (disconnectCamera camera s w))))
  = Qt.enabled (connectBtn (slotUi s (ui w))).
Proof.
  unfold disconnectCamera. cbv zeta. set (c := camId camera).
  destruct (countDown_fields
              (eraseRegionSetup c (resetWidgets c s (eraseCamera c (closeFormOf c w)))))
    as (_&_&_&_&_&_&_&_&_&->&_).
  destruct (eraseRegionSetup_fields c (resetWidgets c s (eraseCamera c (closeFormOf c w))))
    as (_&_&_&_&_&_&_&_&_&->&_).
  unfold resetWidgets. rewrite resetButtons_connectEnabled.
  unfold resetGroupBox, onCamSlotUi, closeFormOf.
  destruct (camSlot c) as [t|]; destruct (_ && _); try done;
    destruct t, s; reflexivity.
Qed.

Lemma connect_connectEnabled camera s o w :
  Qt.enabled (connectBtn (slotUi s (ui (connectCamera camera s o w))))
  = Qt.enabled (connectBtn (slotUi s (ui w))).
Proof.
  destruct o; [|done]. unfold connectCamera. cbv zeta. rewrite countUp_ui.
  unfold enableWidgets. cbv zeta. rewrite !onButton_slotUi.
  unfold addFeed, onCamSlotUi. cbv zeta.
  destruct (camSlot (camId camera)) as [t|]; [|done].
  destruct t, s; reflexivity.
Qed.

Lemma on_connect_connectEnabled s o w :
  Qt.enabled (connectBtn (slotUi s (ui (on_connectToolButton_clicked s o w))))
  = Qt.enabled (connectBtn (slotUi s (ui w))).
Proof.
  unfold on_connectToolButton_clicked.
  destruct (FindCamera _ _) as [camera|]; [|done].
  rewrite ConnectionHandler_unfold.
  destruct (stopTimer_fields w) as (_&_&_&_&_&_&_&_&_&Hu&_). rewrite <- Hu.
  case_bool_decide; [apply disconnect_connectEnabled|apply connect_connectEnabled].
Qed.

(** X5.  A click on the connect button of one slot, whether it connects,
    disconnects or fails, changes nothing the window holds for the camera of
    another slot (stream processor, feed, working regions, edit flag), none
    of the widgets of the other slot, and neither the camera store nor the
    preferences. *)
Theorem X5_connect_click_leaves_other_slots_alone
    (s s' : Slot) (o : Construction) (w : MainWindow) (Hs : s' ≠ s) :
  let w' := on_connectToolButton_clicked s o w in
  cameraState (slotCam s') w' = cameraState (slotCam s') w
  ∧ slotUi s' (ui w') = slotUi s' (ui w)
  ∧ m_camDb w' = m_camDb w
  ∧ m_prefs w' = m_prefs w.
Proof.
  cbv zeta. split; [|split].
  - apply on_connect_other. by destruct s, s'.
  - by apply on_connect_otherSlot.
  - apply on_connect_camDb.
Qed.

Lemma X5_witness :
  let w := run [ConnectClicked slot2 Built; MotionRegionsClicked slot2] startWindow in
  let w' := on_connectToolButton_clicked slot1 Built w in
  is_Some (m_streamProcessors w' !! cam1)
  ∧ cameraState (slotCam slot2) w' = cameraState (slotCam slot2) w
  ∧ slotUi slot2 (ui w') = slotUi slot2 (ui w)
  ∧ m_camDb w' = m_camDb w
  ∧ m_prefs w' = m_prefs w.
Proof.
  cbv zeta. split; [vm_compute; eauto|].
  apply (X5_connect_click_leaves_other_slots_alone slot1 slot2 Built
           (run [ConnectClicked slot2 Built; MotionRegionsClicked slot2] startWindow)).
  discriminate.
Defined.

(** ** The settings handler *)

(** X6.  Accepting the camera setup dialog with a record that is not valid
    removes the camera of the slot from the store and saves the store;
    whether or not the camera was connected, the slot ends without stream
    processor and without feed, and its connect button is disabled. *)
Theorem X6_invalid_camera_record_removes_the_camera
    (s : Slot) (edited : IpCamera) (o1 o2 : Construction) (w : MainWindow)
    (Hk : consistentAt (slotCam s) w) :
  let w' := on_settingsToolButton_clicked s (SetupAccepted edited false) o1 o2 w in
  DoesCameraExist (slotCam s) (m_camDb w') = false
  ∧ stored (m_camDb w') !! slotCam s = None
  ∧ m_streamProcessors w' !! slotCam s = None
  ∧ m_camFeeds w' !! slotCam s = None
  ∧ Qt.enabled (connectBtn (slotUi s (ui w'))) = false.
Proof.
  cbv zeta. unfold on_settingsToolButton_clicked. cbv zeta.
  pose proof (settings_dialog_on_unbound_camera s o1 w Hk) as Hnone. cbv zeta in Hnone.
  set (reconnect := DoesCameraExist _ _ && _) in *.
  set (w1 := if reconnect then on_connectToolButton_clicked s o1 w else w) in *.
  assert (consistentAt (slotCam s) w1) as [Hf1 _].
  { subst w1. destruct reconnect; [by apply on_connect_consistent|done]. }
  assert (m_camFeeds w1 !! slotCam s = None) as Hfeed.
  { apply eq_None_not_Some. intros Hf. apply Hf1 in Hf. rewrite Hnone in Hf.
    by destruct Hf. }
  assert (Qt.enabled (connectBtn (slotUi s (ui (SetupCameraInDb (slotCam s) s
            (SetupAccepted edited false) w1)))) = false) as Hen.
  { unfold SetupCameraInDb. cbv zeta. rewrite onButton_slotUi. reflexivity. }
  rewrite Hen. cbn [andb].
  split; [|split; [|split; [|split]]]; try done.
  - unfold DoesCameraExist. apply bool_decide_eq_false. cbn.
    rewrite lookup_delete_eq. by intros [? ?].
  - cbn. apply lookup_delete_eq.
Qed.

Lemma X6_witness :
  let w := run [ConnectClicked slot1 Built] startWindow in
  let w' := on_settingsToolButton_clicked slot1
              (SetupAccepted (MkCamera cam1 (MkSettings "" "" "" false false [])) false)
              Built Built w in
  is_Some (m_streamProcessors w !! cam1)
  ∧ DoesCameraExist (slotCam slot1) (m_camDb w') = false
  ∧ stored (m_camDb w') !! slotCam slot1 = None
  ∧ m_streamProcessors w' !! slotCam slot1 = None
  ∧ m_camFeeds w' !! slotCam slot1 = None
  ∧ Qt.enabled (connectBtn (slotUi slot1 (ui w'))) = false.
Proof.
  cbv zeta. split; [vm_compute; eauto|].
  apply (X6_invalid_camera_record_removes_the_camera slot1
           (MkCamera cam1 (MkSettings "" "" "" false false [])) Built Built
           (run [ConnectClicked slot1 Built] startWindow)).
  vm_compute. split; [split; intros _; eauto|]. intros _. split; [eauto|discriminate].
Defined.

Lemma SetupCameraInDb_connectEnabled c s d w :
  Qt.enabled (connectBtn (slotUi s (ui (SetupCameraInDb c s d w))))
  = match d with
    | SetupRejected => Qt.enabled (connectBtn (slotUi s (ui w)))
    | SetupAccepted _ valid => valid
    end.
Proof.
  destruct d as [|camera valid]; [done|].
  unfold SetupCameraInDb. cbv zeta. by rewrite onButton_slotUi.
Qed.

Lemma SetupCameraInDb_camDb c s d w :
  m_camDb (SetupCameraInDb c s d w)
  = match d with
    | SetupRejected => m_camDb w
    | SetupAccepted camera true => Save (UpdateCamera camera (m_camDb w))
    | SetupAccepted camera false => Save (RemoveCamera c (m_camDb w))
    end.
Proof. by destruct d as [|camera [|]]. Qed.

(** X7.  The settings button of a connected camera stops its stream before
    the setup dialog opens and starts it again afterwards if the connect
    button of the slot is then enabled (lines 219-224): that is, if the dialog
    was accepted with a valid record, which enables the button, or was
    rejected with the button enabled, which leaves it so.  With a
    construction that succeeds the camera ends connected with a stream
    processor built from the record now in the store (the edited one, if the
    dialog was accepted for this camera) and saving to the completed save
    folder of the preferences, with a new feed without frames, with region
    editing off, and with the connection counter as before. *)
Theorem X7_settings_on_connected_camera_restarts_its_stream
    (s : Slot) (d : SetupDialog) (o1 : Construction) (w : MainWindow)
    (Hk : consistentAt (slotCam s) w)
    (Hb : is_Some (m_streamProcessors w !! slotCam s))
    (Hd : match d with
          | SetupRejected => Qt.enabled (connectBtn (slotUi s (ui w))) = true
          | SetupAccepted _ valid => valid = true
          end) :
  let c := slotCam s in
  let w' := on_settingsToolButton_clicked s d o1 Built w in
  ∃ camera,
    FindCamera c (m_camDb w') = Some camera
    ∧ m_streamProcessors w' !! c = Some (newStreamProcessor camera (m_prefs w))
    ∧ (∃ feed, m_camFeeds w' !! c = Some feed ∧ vf_frames feed = []
               ∧ vf_enableSelection feed = false)
    ∧ m_camMotionRegions w' !! c = None
    ∧ m_motionAreaSetupEnabled w' !! c = None
    ∧ m_numConnections w' = m_numConnections w
    ∧ match d with
      | SetupRejected => m_camDb w' = m_camDb w
      | SetupAccepted edited _ =>
          stored (m_camDb w') !! camId edited = Some (settings edited)
          ∧ (camId edited = c → camera = edited)
      end.
Proof.
  cbv zeta. unfold on_settingsToolButton_clicked. cbv zeta.
  destruct Hk as [_ Hcfg]. destruct (Hcfg Hb) as [[cfg0 Hcfg0] _].
  assert (FindCamera (slotCam s) (m_camDb w) = Some (MkCamera (slotCam s) cfg0)) as Hfind
    by (unfold FindCamera; by rewrite Hcfg0).
  assert (DoesCameraExist (slotCam s) (m_camDb w)
          && bool_decide (is_Some (m_streamProcessors w !! slotCam s)) = true) as ->.
  { unfold DoesCameraExist. rewrite !bool_decide_eq_true_2; [done|done|by eexists]. }
  set (w1 := on_connectToolButton_clicked s o1 w).
  (* the first click disconnects *)
  pose proof (on_connect_processor s o1 w) as Hp1.
  pose proof (on_connect_state s o1 w _ Hfind) as Hs1. cbv zeta in Hs1.
  rewrite Hfind in Hp1. destruct Hb as [sp0 Hsp0]. rewrite Hsp0 in Hp1, Hs1.
  destruct Hs1 as (Hf1&Hr1&He1). fold w1 in Hp1, Hf1, Hr1, He1.
  assert (m_numConnections w1 = m_numConnections w - 1) as Hn1.
  { unfold w1. rewrite (on_connect_disconnects s o1 w _ Hfind) by (by rewrite Hsp0).
    destruct (disconnect_fields (MkCamera (slotCam s) cfg0) s (stopTimer w)) as (_&->&_).
    by destruct (stopTimer_fields w) as (_&->&_). }
  destruct (on_connect_camDb s o1 w) as [Hdb1 Hpr1]. fold w1 in Hdb1, Hpr1.
  pose proof (on_connect_connectEnabled s o1 w) as Hen1. fold w1 in Hen1.
  (* the dialog *)
  set (w2 := SetupCameraInDb (slotCam s) s d w1).
  destruct (SetupCameraInDb_fields (slotCam s) s d w1) as (Hc2&_&Hpr2&Hst2).
  fold w2 in Hc2, Hpr2, Hst2.
  pose proof (SetupCameraInDb_connectEnabled (slotCam s) s d w1) as Hen2.
  pose proof (SetupCameraInDb_camDb (slotCam s) s d w1) as Hdb2.
  fold w2 in Hen2, Hdb2.
  assert (Qt.enabled (connectBtn (slotUi s (ui w2))) = true) as ->.
  { rewrite Hen2. destruct d; [congruence|done]. }
  cbn [andb].
  pose proof (Hst2 (slotCam s)) as Hst. unfold cameraState in Hst.
  injection Hst as Hp2 Hf2 Hr2 He2.
  rewrite Hp1 in Hp2. rewrite Hr1 in Hr2. rewrite He1 in He2.
  unfold connectionFields in Hc2. injection Hc2 as _ Hn2 _.
  assert (∃ camera, FindCamera (slotCam s) (m_camDb w2) = Some camera
            ∧ match d with
              | SetupRejected => m_camDb w2 = m_camDb w
              | SetupAccepted edited _ =>
                  stored (m_camDb w2) !! camId edited = Some (settings edited)
                  ∧ (camId edited = slotCam s → camera = edited)
              end) as (camera&Hfind2&Hd2).
  { rewrite Hdb2. destruct d as [|edited valid].
    - exists (MkCamera (slotCam s) cfg0). by rewrite Hdb1.
    - subst valid. unfold FindCamera. cbn. rewrite Hdb1.
      destruct (decide (camId edited = slotCam s)) as [E|E].
      + exists edited. rewrite <- E, !lookup_insert_eq. by destruct edited.
      + exists (MkCamera (slotCam s) cfg0).
        rewrite lookup_insert_ne, Hcfg0, lookup_insert_eq by done. done. }
  exists camera.
  pose proof (on_connect_processor s Built w2) as Hp3.
  pose proof (on_connect_state s Built w2 _ Hfind2) as Hs3. cbv zeta in Hs3.
  rewrite Hfind2, Hp2 in Hp3. rewrite Hp2 in Hs3.
  destruct Hs3 as (Hf3&Hr3&He3).
  destruct (on_connect_camDb s Built w2) as [Hdb3 Hpr3].
  rewrite Hdb3. split; [exact Hfind2|].
  split; [by rewrite Hp3, Hpr2, Hpr1|].
  split; [exact Hf3|]. split; [by rewrite Hr3|]. split; [by rewrite He3|].
  split; [|exact Hd2].
  rewrite (on_connect_connects s w2 camera Hfind2 Hp2), connect_built_numConnections.
  destruct (stopTimer_fields w2) as (_&->&_). lia.
Qed.

Lemma X7_witness :
  let w := run [ConnectClicked slot1 Built; MotionRegionsClicked slot1] startWindow in
  let edited := MkCamera cam1
                  (MkSettings "rtsp://192.168.1.30/live" "Garage" "" true false []) in
  let w' := on_settingsToolButton_clicked slot1 (SetupAccepted edited true)
              Built Built w in
  m_motionAreaSetupEnabled w !! cam1 = Some true
  ∧ ∃ camera,
      FindCamera cam1 (m_camDb w') = Some camera
      ∧ m_streamProcessors w' !! cam1 = Some (newStreamProcessor camera (m_prefs w))
      ∧ (∃ feed, m_camFeeds w' !! cam1 = Some feed ∧ vf_frames feed = []
                 ∧ vf_enableSelection feed = false)
      ∧ m_camMotionRegions w' !! cam1 = None
      ∧ m_motionAreaSetupEnabled w' !! cam1 = None
      ∧ m_numConnections w' = m_numConnections w
      ∧ stored (m_camDb w') !! camId edited = Some (settings edited)
      ∧ (camId edited = cam1 → camera = edited).
Proof.
  cbv zeta. split; [reflexivity|].
  apply (X7_settings_on_connected_camera_restarts_its_stream slot1
           (SetupAccepted (MkCamera cam1
              (MkSettings "rtsp://192.168.1.30/live" "Garage" "" true false [])) true)
           Built
           (run [ConnectClicked slot1 Built; MotionRegionsClicked slot1] startWindow)).
  - vm_compute. split; [split; intros _; eauto|]. intros _. split; [eauto|discriminate].
  - vm_compute. eauto.
  - reflexivity.
Defined.

(** ** The preferences handler *)

Lemma camSlot_Some c s : camSlot c = Some s → slotCam s = c.
Proof. destruct c; intros; by simplify_eq/=. Qed.

Lemma clickConnectOf_other c o w k :
  k ≠ c → cameraState k (clickConnectOf c o w) = cameraState k w.
Proof.
  intros Hk. unfold clickConnectOf. destruct (camSlot c) as [s|] eqn:E; [|done].
  apply on_connect_other. by rewrite (camSlot_Some _ _ E).
Qed.

Lemma clickConnectOf_camDb c o w :
  m_camDb (clickConnectOf c o w) = m_camDb w ∧ m_prefs (clickConnectOf c o w) = m_prefs w.
Proof.
  unfold clickConnectOf. destruct (camSlot c); [apply on_connect_camDb|done].
Qed.

Lemma clickConnectOf_processor c o w :
  c ≠ noCam →
  m_streamProcessors (clickConnectOf c o w) !! c
  = toggledProcessor (FindCamera c (m_camDb w)) (m_streamProcessors w !! c) o (m_prefs w).
Proof.
  intros Hc. unfold clickConnectOf.
  destruct (camSlot c) as [s|] eqn:E; [|by destruct c].
  rewrite <- (camSlot_Some _ _ E). apply on_connect_processor.
Qed.

Lemma clickConnectOfAll_other os cs : ∀ w k,
  k ∉ cs → cameraState k (clickConnectOfAll os cs w) = cameraState k w.
Proof.
  induction cs as [|c cs IH]; intros w k Hk; [done|].
  rewrite clickConnectOfAll_cons. apply not_elem_of_cons in Hk as [Hc Hk].
  rewrite IH by done. by apply clickConnectOf_other.
Qed.

Lemma clickConnectOfAll_camDb os cs : ∀ w,
  m_camDb (clickConnectOfAll os cs w) = m_camDb w
  ∧ m_prefs (clickConnectOfAll os cs w) = m_prefs w.
Proof.
  induction cs as [|c cs IH]; intros w; [done|].
  rewrite clickConnectOfAll_cons.
  destruct (IH (clickConnectOf c (os c) w)) as [-> ->]. apply clickConnectOf_camDb.
Qed.

(** Each camera of a list without repetitions is toggled once. *)
Lemma clickConnectOfAll_in os cs : ∀ w k,
  NoDup cs → k ∈ cs → k ≠ noCam →
  m_streamProcessors (clickConnectOfAll os cs w) !! k
  = toggledProcessor (FindCamera k (m_camDb w)) (m_streamProcessors w !! k) (os k)
      (m_prefs w).
Proof.
  induction cs as [|c cs IH]; intros w k Hnd Hin Hk; [by apply elem_of_nil in Hin|].
  rewrite clickConnectOfAll_cons. apply NoDup_cons in Hnd as [Hn Hnd].
  apply elem_of_cons in Hin as [->|Hin].
  - pose proof (clickConnectOfAll_other os cs (clickConnectOf c (os c) w) c Hn) as E.
    unfold cameraState in E. injection E as E _ _ _. rewrite E.
    by apply clickConnectOf_processor.
  - rewrite (IH _ k Hnd Hin Hk).
    destruct (clickConnectOf_camDb c (os c) w) as [-> ->].
    assert (k ≠ c) as Hne by (by intros ->).
    pose proof (clickConnectOf_other c (os c) w k Hne) as E.
    unfold cameraState in E. injection E as E _ _ _. by rewrite E.
Qed.

Lemma camFeedKeys_spec w k : k ∈ camFeedKeys w ↔ is_Some (m_camFeeds w !! k).
Proof.
  unfold camFeedKeys. rewrite list_elem_of_filter. split; [by intros [? _]|].
  intros H. split; [done|]. unfold allCamIds. destruct k; set_solver.
Qed.

Lemma camFeedKeys_NoDup w : NoDup (camFeedKeys w).
Proof. apply NoDup_filter, allCamIds_NoDup. Qed.

(** X8.  Accepting the preferences dialog restarts the stream of every
    camera that has a feed: with constructions that succeed each of them
    ends with a stream processor built from its stored record and the
    preferences now in force.  A camera without feed keeps everything the
    window holds for it, and the camera store stays as it is. *)
Theorem X8_accepted_preferences_rebuild_every_connected_camera
    (edited : Preferences) (o1 : eCamId → Construction) (w : MainWindow) (k : eCamId)
    (Hk : consistentAt k w) :
  let w' := on_actionPreferences_triggered (PreferencesAccepted edited) o1 (λ _, Built) w in
  m_camDb w' = m_camDb w
  ∧ match m_camFeeds w !! k with
    | Some _ =>
        ∃ camera, FindCamera k (m_camDb w) = Some camera
                  ∧ m_streamProcessors w' !! k
                    = Some (newStreamProcessor camera (m_prefs w'))
    | None => cameraState k w' = cameraState k w
    end.
Proof.
  cbv zeta. unfold on_actionPreferences_triggered. cbv zeta.
  set (w0 := set_prefs edited w). set (cs := camFeedKeys w0).
  destruct (clickConnectOfAll_camDb o1 cs w0) as [Hdb1 Hpr1].
  destruct (clickConnectOfAll_camDb (λ _, Built) cs (clickConnectOfAll o1 cs w0))
    as [Hdb2 Hpr2].
  rewrite Hdb2, Hdb1, Hpr2, Hpr1. split; [done|].
  destruct (m_camFeeds w !! k) as [feed|] eqn:Hfeed.
  - assert (k ∈ cs) as Hin by (apply camFeedKeys_spec; cbn; rewrite Hfeed; by eexists).
    destruct Hk as [Hfp Hcfg].
    assert (is_Some (m_streamProcessors w !! k)) as Hb
      by (apply Hfp; rewrite Hfeed; by eexists).
    destruct (Hcfg Hb) as [[cfg Hc] Hn].
    exists (MkCamera k cfg). split; [unfold FindCamera; by rewrite Hc|].
    rewrite (clickConnectOfAll_in _ cs _ k (camFeedKeys_NoDup w0) Hin Hn).
    rewrite (clickConnectOfAll_in o1 cs w0 k (camFeedKeys_NoDup w0) Hin Hn).
    rewrite Hdb1, Hpr1. destruct Hb as [sp Hsp]. cbn.
    unfold FindCamera. rewrite Hc, Hsp. reflexivity.
  - assert (k ∉ cs) as Hout.
    { intros Hin. apply camFeedKeys_spec in Hin. cbn in Hin. rewrite Hfeed in Hin.
      by destruct Hin. }
    rewrite !clickConnectOfAll_other by done. done.
Qed.

Lemma X8_witness :
  let w := performAll [Started true (λ _, Built)] startWindow in
  let edited := MkPrefs "/srv/video" 600 [[true; false]] [[false; true]] in
  let w' := on_actionPreferences_triggered (PreferencesAccepted edited)
              (λ _, Throws "unused") (λ _, Built) w in
  (sp_saveFolder <$> m_streamProcessors w !! cam2)
  = Some (system_complete "/var/ipfreely")
  ∧ (sp_saveFolder <$> m_streamProcessors w' !! cam2)
    = Some (system_complete "/srv/video")
  ∧ m_camDb w' = m_camDb w
  ∧ match m_camFeeds w !! cam2 with
    | Some _ =>
        ∃ camera, FindCamera cam2 (m_camDb w) = Some camera
                  ∧ m_streamProcessors w' !! cam2
                    = Some (newStreamProcessor camera (m_prefs w'))
    | None => cameraState cam2 w' = cameraState cam2 w
    end.
Proof.
  cbv zeta. split; [reflexivity|]. split; [reflexivity|].
  apply (X8_accepted_preferences_rebuild_every_connected_camera
           (MkPrefs "/srv/video" 600 [[true; false]] [[false; true]])
           (λ _, Throws "unused") (performAll [Started true (λ _, Built)] startWindow) cam2).
  vm_compute. split; [split; intros _; eauto|]. intros _. split; [eauto|discriminate].
Defined.

(** ** Start-up *)

Lemma checkStartupConnection_other onStartup o t w s :
  s ≠ t → startupView s (checkStartupConnection onStartup o t w) = startupView s w.
Proof.
  intros Hs. unfold checkStartupConnection. cbv zeta.
  set (w1 := onButton t ConnectBtn _ w).
  assert (startupView s w1 = startupView s w) as E1.
  { unfold startupView, w1. by rewrite onButton_other. }
  destruct (_ && _); [|exact E1]. rewrite <- E1. unfold startupView.
  rewrite on_connect_otherSlot by done.
  destruct (on_connect_camDb t (o t) w1) as [-> ->].
  assert (slotCam s ≠ slotCam t) as Hk by (by destruct s, t).
  pose proof (on_connect_other t (o t) w1 (slotCam s) Hk) as E.
  unfold cameraState in E. injection E as E _ _ _. by rewrite E.
Qed.

Lemma checkStartupConnection_at onStartup o s w :
  startupView s (checkStartupConnection onStartup o s w)
  = (DoesCameraExist (slotCam s) (m_camDb w),
     if onStartup
     then toggledProcessor (FindCamera (slotCam s) (m_camDb w))
            (m_streamProcessors w !! slotCam s) (o s) (m_prefs w)
     else m_streamProcessors w !! slotCam s,
     m_camDb w, m_prefs w).
Proof.
  unfold checkStartupConnection. cbv zeta.
  set (w1 := onButton s ConnectBtn _ w).
  assert (Qt.enabled (connectBtn (slotUi s (ui w1)))
          = DoesCameraExist (slotCam s) (m_camDb w)) as Hen
    by (unfold w1; by rewrite onButton_slotUi).
  rewrite Hen. unfold startupView.
  destruct (DoesCameraExist (slotCam s) (m_camDb w)) eqn:Hex; cbn [andb].
  - destruct onStartup; [|by rewrite Hen].
    rewrite on_connect_connectEnabled, Hen, on_connect_processor.
    by destruct (on_connect_camDb s (o s) w1) as [-> ->].
  - rewrite Hen. destruct onStartup; [|done].
    unfold DoesCameraExist in Hex. apply bool_decide_eq_false in Hex.
    unfold FindCamera. apply eq_None_not_Some in Hex. cbn. by rewrite Hex.
Qed.

Lemma startup_skip onStartup o t x s :
  s ≠ t →
  m_camDb (checkStartupConnection onStartup o t x) = m_camDb x
  ∧ m_prefs (checkStartupConnection onStartup o t x) = m_prefs x
  ∧ m_streamProcessors (checkStartupConnection onStartup o t x) !! slotCam s
    = m_streamProcessors x !! slotCam s.
Proof.
  intros Hs. pose proof (checkStartupConnection_other onStartup o t x s Hs) as E.
  unfold startupView in E. by injection E as _ -> -> ->.
Qed.

(** X9.  Start-up visits the four slots in turn.  For a slot without stream
    processor it leaves the connect button enabled exactly when the camera
    is configured in the store, and the camera connected exactly when it is
    configured, connecting on start-up is chosen and the construction
    succeeds; what happens in the other slots has no effect on it. *)
Theorem X9_startup_connects_the_configured_cameras
    (onStartup : bool) (o : Slot → Construction) (w : MainWindow) (s : Slot)
    (Hfree : m_streamProcessors w !! slotCam s = None) :
  let w' := CheckStartupConnections onStartup o w in
  Qt.enabled (connectBtn (slotUi s (ui w'))) = DoesCameraExist (slotCam s) (m_camDb w)
  ∧ m_streamProcessors w' !! slotCam s
    = match FindCamera (slotCam s) (m_camDb w), o s with
      | Some camera, Built =>
          if onStartup then Some (newStreamProcessor camera (m_prefs w)) else None
      | _, _ => None
      end.
Proof.
  cbv zeta.
  assert (startupView s (CheckStartupConnections onStartup o w)
          = (DoesCameraExist (slotCam s) (m_camDb w),
             if onStartup
             then toggledProcessor (FindCamera (slotCam s) (m_camDb w))
                    (m_streamProcessors w !! slotCam s) (o s) (m_prefs w)
             else m_streamProcessors w !! slotCam s,
             m_camDb w, m_prefs w)) as E.
  { unfold CheckStartupConnections. cbv zeta.
    destruct s.
    - rewrite (checkStartupConnection_other _ _ slot4 _ slot1) by discriminate.
      rewrite (checkStartupConnection_other _ _ slot3 _ slot1) by discriminate.
      rewrite (checkStartupConnection_other _ _ slot2 _ slot1) by discriminate.
      apply checkStartupConnection_at.
    - rewrite (checkStartupConnection_other _ _ slot4 _ slot2) by discriminate.
      rewrite (checkStartupConnection_other _ _ slot3 _ slot2) by discriminate.
      rewrite checkStartupConnection_at.
      destruct (startup_skip onStartup o slot1 w slot2) as (->&->&->); done.
    - rewrite (checkStartupConnection_other _ _ slot4 _ slot3) by discriminate.
      rewrite checkStartupConnection_at.
      destruct (startup_skip onStartup o slot2
                  (checkStartupConnection onStartup o slot1 w) slot3)
        as (->&->&->); [done|].
      destruct (startup_skip onStartup o slot1 w slot3) as (->&->&->); done.
    - rewrite checkStartupConnection_at.
      destruct (startup_skip onStartup o slot3
                  (checkStartupConnection onStartup o slot2
                     (checkStartupConnection onStartup o slot1 w)) slot4)
        as (->&->&->); [done|].
      destruct (startup_skip onStartup o slot2
                  (checkStartupConnection onStartup o slot1 w) slot4)
        as (->&->&->); [done|].
      destruct (startup_skip onStartup o slot1 w slot4) as (->&->&->); done. }
  revert E. generalize (CheckStartupConnections onStartup o w). intros w' E.
  unfold startupView in E. injection E as -> -> _ _. split; [done|].
  rewrite Hfree. unfold toggledProcessor.
  destruct (FindCamera _ _), (o s), onStartup; reflexivity.
Qed.

Lemma X9_witness :
  let w' := CheckStartupConnections true (λ _, Built) startWindow in
  Qt.enabled (connectBtn (slotUi slot2 (ui w')))
  = DoesCameraExist (slotCam slot2) (m_camDb startWindow)
  ∧ m_streamProcessors w' !! slotCam slot2
    = Some (newStreamProcessor (MkCamera cam2 yardCamera) somePrefs).
Proof.
  cbv zeta.
  apply (X9_startup_connects_the_configured_cameras true (λ _, Built) startWindow slot2).
  reflexivity.
Defined.

(** ** Resizing *)

Lemma recreateFeed_ui s w : ui (recreateFeed s w) = ui w.
Proof. unfold recreateFeed. cbv zeta. by case_bool_decide. Qed.

Lemma recreateFeed_at s w :
  m_camFeeds (recreateFeed s w) !! slotCam s
  = match m_camFeeds w !! slotCam s with
    | Some _ =>
        Some (MkFeed (cameraNumber (slotCam s))
                (Qt.wd (camWidgetSize (slotUi s (ui w))))
                (Qt.ht (camWidgetSize (slotUi s (ui w))))
                (default false (m_motionAreaSetupEnabled w !! slotCam s)) [])
    | None => None
    end
  ∧ default false (m_motionAreaSetupEnabled (recreateFeed s w) !! slotCam s)
    = default false (m_motionAreaSetupEnabled w !! slotCam s).
Proof.
  unfold recreateFeed. cbv zeta. case_bool_decide as Hf.
  - destruct Hf as [feed Hf]. rewrite Hf. cbn. rewrite lookup_insert_eq.
    unfold subscript. destruct (m_motionAreaSetupEnabled w !! slotCam s) eqn:E; cbn.
    + by rewrite E.
    + by rewrite lookup_insert_eq.
  - apply eq_None_not_Some in Hf. by rewrite Hf.
Qed.

Lemma recreateFeed_other s w k :
  k ≠ slotCam s →
  m_camFeeds (recreateFeed s w) !! k = m_camFeeds w !! k
  ∧ m_motionAreaSetupEnabled (recreateFeed s w) !! k = m_motionAreaSetupEnabled w !! k.
Proof.
  intros Hk. unfold recreateFeed. cbv zeta. case_bool_decide; [|done]. cbn.
  rewrite lookup_insert_ne, lookup_delete_ne by done. split; [done|].
  unfold subscript. destruct (m_motionAreaSetupEnabled w !! slotCam s); cbn; [done|].
  by rewrite lookup_insert_ne.
Qed.

(** What [resizeEvent] reads and writes for one camera. *)
Lemma recreateFeed_view t w s :
  s ≠ t →
  m_camFeeds (recreateFeed t w) !! slotCam s = m_camFeeds w !! slotCam s
  ∧ m_motionAreaSetupEnabled (recreateFeed t w) !! slotCam s
    = m_motionAreaSetupEnabled w !! slotCam s
  ∧ ui (recreateFeed t w) = ui w.
Proof.
  intros Hs. assert (slotCam s ≠ slotCam t) as Hk by (by destruct s, t).
  destruct (recreateFeed_other t w _ Hk) as [-> ->]. by rewrite recreateFeed_ui.
Qed.

(** X10.  A resize gives every camera that has a feed a new feed widget of
    the size its slot now has: the frames shown so far are gone, and the new
    feed accepts a drag selection exactly when region editing is on for the
    camera.  A camera without feed gets none, and the stream processors, the
    counter, the timer, the camera store and the working regions stay as
    they are. *)
Theorem X10_resize_recreates_the_feeds
    (sizes : Slot → Qt.QSize) (w : MainWindow) (s : Slot) :
  let c := slotCam s in
  let w' := resizeEvent sizes w in
  m_camFeeds w' !! c
  = match m_camFeeds w !! c with
    | Some _ =>
        Some (MkFeed (cameraNumber c) (Qt.wd (sizes s)) (Qt.ht (sizes s))
                (default false (m_motionAreaSetupEnabled w !! c)) [])
    | None => None
    end
  ∧ default false (m_motionAreaSetupEnabled w' !! c)
    = default false (m_motionAreaSetupEnabled w !! c)
  ∧ connectionFields w' = connectionFields w
  ∧ m_camDb w' = m_camDb w
  ∧ m_camMotionRegions w' = m_camMotionRegions w.
Proof.
  cbv zeta. unfold resizeEvent. cbv zeta.
  set (w0 := onSlotUi slot4 _ _).
  assert (camWidgetSize (slotUi s (ui w0)) = sizes s) as Hsz by (by destruct s).
  assert (m_camFeeds w0 = m_camFeeds w
          ∧ m_motionAreaSetupEnabled w0 = m_motionAreaSetupEnabled w
          ∧ connectionFields w0 = connectionFields w ∧ m_camDb w0 = m_camDb w
          ∧ m_camMotionRegions w0 = m_camMotionRegions w) as (Hf0&He0&Hc0&Hd0&Hr0)
    by done.
  rewrite <- Hf0, <- He0, <- Hc0, <- Hd0, <- Hr0, <- Hsz.
  clearbody w0. clear Hsz Hf0 He0 Hc0 Hd0 Hr0.
  destruct (recreateFeed_fields slot1 w0) as (E1&_&R1&D1&_).
  destruct (recreateFeed_fields slot2 (recreateFeed slot1 w0)) as (E2&_&R2&D2&_).
  destruct (recreateFeed_fields slot3 (recreateFeed slot2 (recreateFeed slot1 w0)))
    as (E3&_&R3&D3&_).
  destruct (recreateFeed_fields slot4
              (recreateFeed slot3 (recreateFeed slot2 (recreateFeed slot1 w0))))
    as (E4&_&R4&D4&_).
  split; [|split; [|split; [congruence|split; congruence]]].
  - destruct s.
    + destruct (recreateFeed_view slot4 (recreateFeed slot3 (recreateFeed slot2
                  (recreateFeed slot1 w0))) slot1) as (->&_&_); [done|].
      destruct (recreateFeed_view slot3 (recreateFeed slot2 (recreateFeed slot1 w0))
                  slot1) as (->&_&_); [done|].
      destruct (recreateFeed_view slot2 (recreateFeed slot1 w0) slot1)
        as (->&_&_); [done|].
      apply recreateFeed_at.
    + destruct (recreateFeed_view slot4 (recreateFeed slot3 (recreateFeed slot2
                  (recreateFeed slot1 w0))) slot2) as (->&_&_); [done|].
      destruct (recreateFeed_view slot3 (recreateFeed slot2 (recreateFeed slot1 w0))
                  slot2) as (->&_&_); [done|].
      destruct (recreateFeed_at slot2 (recreateFeed slot1 w0)) as [-> _].
      by destruct (recreateFeed_view slot1 w0 slot2) as (->&->&->).
    + destruct (recreateFeed_view slot4 (recreateFeed slot3 (recreateFeed slot2
                  (recreateFeed slot1 w0))) slot3) as (->&_&_); [done|].
      destruct (recreateFeed_at slot3 (recreateFeed slot2 (recreateFeed slot1 w0)))
        as [-> _].
      destruct (recreateFeed_view slot2 (recreateFeed slot1 w0) slot3)
        as (->&->&->); [done|].
      by destruct (recreateFeed_view slot1 w0 slot3) as (->&->&->).
    + destruct (recreateFeed_at slot4 (recreateFeed slot3 (recreateFeed slot2
                  (recreateFeed slot1 w0)))) as [-> _].
      destruct (recreateFeed_view slot3 (recreateFeed slot2 (recreateFeed slot1 w0))
                  slot4) as (->&->&->); [done|].
      destruct (recreateFeed_view slot2 (recreateFeed slot1 w0) slot4)
        as (->&->&->); [done|].
      by destruct (recreateFeed_view slot1 w0 slot4) as (->&->&->).
  - destruct s.
    + destruct (recreateFeed_view slot4 (recreateFeed slot3 (recreateFeed slot2
                  (recreateFeed slot1 w0))) slot1) as (_&->&_); [done|].
      destruct (recreateFeed_view slot3 (recreateFeed slot2 (recreateFeed slot1 w0))
                  slot1) as (_&->&_); [done|].
      destruct (recreateFeed_view slot2 (recreateFeed slot1 w0) slot1)
        as (_&->&_); [done|].
      apply recreateFeed_at.
    + destruct (recreateFeed_view slot4 (recreateFeed slot3 (recreateFeed slot2
                  (recreateFeed slot1 w0))) slot2) as (_&->&_); [done|].
      destruct (recreateFeed_view slot3 (recreateFeed slot2 (recreateFeed slot1 w0))
                  slot2) as (_&->&_); [done|].
      destruct (recreateFeed_at slot2 (recreateFeed slot1 w0)) as [_ ->].
      by destruct (recreateFeed_view slot1 w0 slot2) as (_&->&_).
    + destruct (recreateFeed_view slot4 (recreateFeed slot3 (recreateFeed slot2
                  (recreateFeed slot1 w0))) slot3) as (_&->&_); [done|].
      destruct (recreateFeed_at slot3 (recreateFeed slot2 (recreateFeed slot1 w0)))
        as [_ ->].
      destruct (recreateFeed_view slot2 (recreateFeed slot1 w0) slot3)
        as (_&->&_); [done|].
      by destruct (recreateFeed_view slot1 w0 slot3) as (_&->&_).
    + destruct (recreateFeed_at slot4 (recreateFeed slot3 (recreateFeed slot2
                  (recreateFeed slot1 w0)))) as [_ ->].
      destruct (recreateFeed_view slot3 (recreateFeed slot2 (recreateFeed slot1 w0))
                  slot4) as (_&->&_); [done|].
      destruct (recreateFeed_view slot2 (recreateFeed slot1 w0) slot4)
        as (_&->&_); [done|].
      by destruct (recreateFeed_view slot1 w0 slot4) as (_&->&_).
Qed.

(** ** Manual recording *)

(** X11.  While the buttons show the connection state, a click on an enabled
    record button always finds the stream processor of its camera, and that
    camera does not record on a schedule: the handler starts writing if the
    processor was not writing and stops it otherwise, shows the icon of the
    opposite action, and leaves the stream processors as they are. *)
Theorem X11_record_click_reaches_a_stream_processor
    (s : Slot) (writing : bool) (w : MainWindow)
    (Ha : affordancesAgreeAt s w)
    (Hen : Qt.enabled (recordBtn (slotUi s (ui w))) = true) :
  let r := on_recordToolButton_clicked s writing w in
  ∃ sp, m_streamProcessors w !! slotCam s = Some sp
        ∧ enableScheduledRecording (settings (sp_camera sp)) = false
        ∧ snd r = Some (if writing then StopVideoWriting else StartVideoWriting)
        ∧ Qt.icon (recordBtn (slotUi s (ui (fst r))))
          = (if writing then ICON_RECORD else ICON_STOP)
        ∧ m_streamProcessors (fst r) = m_streamProcessors w.
Proof.
  cbv zeta. unfold affordancesAgreeAt in Ha.
  pose proof (f_equal canRecord Ha) as Hr. cbn [affordances canRecord] in Hr.
  rewrite Hen in Hr.
  unfold on_recordToolButton_clicked, RecordActionHandler.
  destruct (m_streamProcessors w !! slotCam s) as [sp|]; [|done].
  exists sp. split; [done|]. split.
  { cbn in Hr. by destruct (enableScheduledRecording _). }
  destruct writing; cbn [fst snd]; rewrite !onButton_slotUi; done.
Qed.

Lemma X11_witness :
  let w := run [ConnectClicked slot1 Built] startWindow in
  let r := on_recordToolButton_clicked slot1 false w in
  ∃ sp, m_streamProcessors w !! slotCam slot1 = Some sp
        ∧ enableScheduledRecording (settings (sp_camera sp)) = false
        ∧ snd r = Some StartVideoWriting
        ∧ Qt.icon (recordBtn (slotUi slot1 (ui (fst r)))) = ICON_STOP
        ∧ m_streamProcessors (fst r) = m_streamProcessors w.
Proof.
  cbv zeta.
  apply (X11_record_click_reaches_a_stream_processor slot1 false
           (run [ConnectClicked slot1 Built] startWindow)).
  - reflexivity.
  - reflexivity.
Defined.

(** ** The size of the window and of its buttons *)

Lemma clampTo_range lo hi v : lo ≤ hi → lo ≤ clampTo lo hi v ≤ hi.
Proof.
  intros H. unfold clampTo.
  destruct (v <? lo) eqn:E1; [lia|]. apply Z.ltb_ge in E1.
  destruct (hi <? v) eqn:E2; [lia|]. apply Z.ltb_ge in E2. lia.
Qed.

(** X12.  [SetDisplaySize] gives every tool button a size between 24 and 48
    pixels, whatever the screen; and on a screen whose nine tenths are at
    least 800 by 600 pixels it gives the window a width between 800 pixels
    and nine tenths of the screen width and a height between 600 pixels and
    nine tenths of the screen height, wherever and however large the window
    was before. *)
Theorem X12_display_size_is_clamped
    (screen : Qt.QSize) (displayGeometry : Qt.QRect) (buttonHeight : Z)
    (Hw : 800 ≤ Double.to_int (Double.mul (Double.of_int (Qt.wd screen)) NINE_TENTHS))
    (Hh : 600 ≤ Double.to_int (Double.mul (Double.of_int (Qt.ht screen)) NINE_TENTHS)) :
  let r := SetDisplaySize screen displayGeometry buttonHeight in
  24 ≤ snd r ≤ 48
  ∧ 800 ≤ Qt.rwidth (fst r)
        ≤ Double.to_int (Double.mul (Double.of_int (Qt.wd screen)) NINE_TENTHS)
  ∧ 600 ≤ Qt.rheight (fst r)
        ≤ Double.to_int (Double.mul (Double.of_int (Qt.ht screen)) NINE_TENTHS).
Proof.
  cbv zeta. unfold SetDisplaySize. cbv zeta. cbn [fst snd].
  set (maxW := Double.to_int _) in *.
  set (maxH := Double.to_int (Double.mul (Double.of_int (Qt.ht screen)) NINE_TENTHS)) in *.
  pose proof (clampTo_range MIN_BUTTON_SIZE MAX_BUTTON_SIZE
                (scaledLength screen buttonHeight)) as Hb.
  pose proof (clampTo_range MIN_DISPLAY_WIDTH maxW
                (scaledLength screen (Qt.rwidth displayGeometry)) Hw) as H1.
  pose proof (clampTo_range MIN_DISPLAY_HEIGHT maxH
                (scaledLength screen (Qt.rheight displayGeometry)) Hh) as H2.
  unfold MIN_BUTTON_SIZE, MAX_BUTTON_SIZE, MIN_DISPLAY_WIDTH, MIN_DISPLAY_HEIGHT in *.
  split; [apply Hb; lia|].
  unfold Qt.rwidth, Qt.rheight, QRect_setHeight, QRect_setWidth, Qt.setLeft, Qt.setTop in *.
  cbn [Qt.x1 Qt.x2 Qt.y1 Qt.y2]. lia.
Qed.

Lemma X12_witness :
  let r := SetDisplaySize (Qt.MkSize 2560 1440) (Qt.rect 100 50 1920 1200) 30 in
  r = (Qt.rect 128 72 2304 1296, 40)
  ∧ 24 ≤ snd r ≤ 48
  ∧ 800 ≤ Qt.rwidth (fst r) ≤ 2304
  ∧ 600 ≤ Qt.rheight (fst r) ≤ 1296.
Proof.
  cbv zeta. split; [vm_compute; reflexivity|].
  apply (X12_display_size_is_clamped (Qt.MkSize 2560 1440) (Qt.rect 100 50 1920 1200) 30);
    vm_compute; discriminate.
Defined.

(** ** The expanded form during a poll *)

Lemma subscript_default {V} (d : V) c (m : gmap eCamId V) k :
  default d (snd (subscript d c m) !! k) = default d (m !! k).
Proof.
  unfold subscript. destruct (m !! c) eqn:E; cbn; [done|].
  destruct (decide (k = c)) as [->|Hk].
  - by rewrite lookup_insert_eq, E.
  - by rewrite lookup_insert_ne.
Qed.

Lemma UpdateCamFeedFrame_editView c img rect rec w k :
  editView k (UpdateCamFeedFrame c img rect rec w) = editView k w.
Proof.
  unfold UpdateCamFeedFrame. destruct (m_camFeeds w !! c); [|done].
  unfold editView, workingRegions. cbn. rewrite subscript_default.
  destruct (fst (subscript false c (m_motionAreaSetupEnabled w))); cbn; [|done].
  by rewrite subscript_default.
Qed.

Lemma SetFpsInTitle_fields c fps originalFps w :
  editView c (SetFpsInTitle c fps originalFps w) = editView c w
  ∧ m_motionAreaSetupEnabled (SetFpsInTitle c fps originalFps w)
    = m_motionAreaSetupEnabled w
  ∧ m_camMotionRegions (SetFpsInTitle c fps originalFps w) = m_camMotionRegions w
  ∧ m_videoForm (SetFpsInTitle c fps originalFps w) = m_videoForm w
  ∧ m_videoFormId (SetFpsInTitle c fps originalFps w) = m_videoFormId w.
Proof. unfold SetFpsInTitle, onCamSlotUi. by destruct (camSlot c). Qed.

(** One round of the loop, seen from the expanded form. *)
Lemma pollStreamProcessor_form r c w :
  let w' := pollStreamProcessor r c w in
  m_videoFormId w' = m_videoFormId w
  ∧ (∀ k, editView k w' = editView k w)
  ∧ m_videoForm w'
    = if VideoFrameUpdated r && form_visible (m_videoForm w)
         && bool_decide (m_videoFormId w = c)
      then formSetVideoFrame (formCallOf r c w) (m_videoForm w)
      else m_videoForm w.
Proof.
  cbv zeta. unfold pollStreamProcessor.
  destruct (VideoFrameUpdated r); [|done]. cbv zeta. cbn [andb].
  set (w1 := UpdateCamFeedFrame c (CurrentVideoFrame r) (motionBoundingRect r)
               (VideoWritingEnabled r) w).
  destruct (UpdateCamFeedFrame_connection c (CurrentVideoFrame r)
              (motionBoundingRect r) (VideoWritingEnabled r) w) as (_&_&_&Hf1&Hi1&_).
  fold w1 in Hf1, Hi1.
  pose proof (UpdateCamFeedFrame_editView c (CurrentVideoFrame r)
                (motionBoundingRect r) (VideoWritingEnabled r) w) as He1.
  fold w1 in He1.
  set (w2 := SetFpsInTitle c (CurrentFps r) (OriginalFps r) w1).
  assert (m_videoForm w2 = m_videoForm w ∧ m_videoFormId w2 = m_videoFormId w
          ∧ m_motionAreaSetupEnabled w2 = m_motionAreaSetupEnabled w1
          ∧ m_camMotionRegions w2 = m_camMotionRegions w1) as (Hf2&Hi2&Hm2&Hr2).
  { unfold w2, SetFpsInTitle, onCamSlotUi. by destruct (camSlot c). }
  assert (∀ k, editView k w2 = editView k w) as He2.
  { intros k. rewrite <- He1. unfold editView, workingRegions. by rewrite Hm2, Hr2. }
  rewrite Hf2, Hi2.
  destruct (form_visible (m_videoForm w) && bool_decide (m_videoFormId w = c)) eqn:Hv;
    [|done].
  split; [done|]. split.
  - intros k. rewrite <- He2. unfold editView, workingRegions. cbn.
    rewrite subscript_default.
    destruct (fst (subscript false c (m_motionAreaSetupEnabled w2))); cbn; [|done].
    by rewrite subscript_default.
  - cbn. rewrite Hf2. unfold formCallOf. f_equal. f_equal.
    pose proof (He2 c) as E. unfold editView in E. injection E as E1 E2.
    rewrite subscript_fst, E1.
    destruct (default false (m_motionAreaSetupEnabled w !! c)); [|done].
    rewrite subscript_fst. exact E2.
Qed.

Lemma formCallOf_ext r c w w' : editView c w' = editView c w → formCallOf r c w' = formCallOf r c w.
Proof. unfold formCallOf, editView. intros E. injection E as -> E. by rewrite E. Qed.

(** Walking a duplicate-free list of keys hands the expanded form at most
    one frame: that of its camera, if the camera is on the list. *)
Lemma pollKeys_form reports l : ∀ w,
  NoDup l →
  let w' := pollKeys reports l w in
  let c := m_videoFormId w in
  m_videoFormId w' = c
  ∧ (∀ k, editView k w' = editView k w)
  ∧ m_videoForm w'
    = if VideoFrameUpdated (reports c) && form_visible (m_videoForm w)
         && bool_decide (c ∈ l)
      then formSetVideoFrame (formCallOf (reports c) c w) (m_videoForm w)
      else m_videoForm w.
Proof.
  induction l as [|a l IH]; intros w Hnd; cbv zeta.
  - split; [done|]. split; [done|].
    rewrite bool_decide_eq_false_2 by apply not_elem_of_nil. by rewrite andb_false_r.
  - rewrite pollKeys_cons. apply NoDup_cons in Hnd as [Ha Hnd].
    destruct (pollStreamProcessor_form (reports a) a w) as (Hi1&He1&Hf1).
    destruct (IH (pollStreamProcessor (reports a) a w) Hnd) as (Hi&He&Hf).
    rewrite Hi, Hi1. split; [done|]. split; [intros k; by rewrite He, He1|].
    rewrite Hf, Hi1. clear Hf Hi He.
    destruct (decide (m_videoFormId w = a)) as [E|E].
    + rewrite <- E in *. rewrite (bool_decide_eq_false_2 _ Ha), andb_false_r.
      rewrite Hf1, (bool_decide_eq_true_2 (m_videoFormId w = m_videoFormId w)) by done.
      rewrite bool_decide_eq_true_2 by (apply elem_of_cons; by left).
      by rewrite !andb_true_r.
    + rewrite Hf1, (bool_decide_eq_false_2 (m_videoFormId w = a)) by done.
      rewrite andb_false_r.
      rewrite (formCallOf_ext _ _ _ _ (He1 (m_videoFormId w))).
      destruct (decide (m_videoFormId w ∈ l)) as [Hin|Hin].
      * rewrite !bool_decide_eq_true_2; [done|apply elem_of_cons; by right|done].
      * rewrite !bool_decide_eq_false_2; [done| |done].
        intros [?|?]%elem_of_cons; done.
Qed.

(** X13.  During one poll the expanded form is handed at most one frame: the
    frame of the camera it shows, as the stream processor reported it (not
    the scaled and annotated one of the feed), with the working regions of
    that camera if region editing is on for it; and only if the form is
    visible, the camera has a stream processor and the processor has a new
    frame.  The form stays as visible as it was and keeps its camera. *)
Theorem X13_poll_hands_the_expanded_form_its_camera_frame
    (reports : eCamId → FeedReport) (w : MainWindow) :
  let w' := on_updateFeedsTimer reports w in
  let c := m_videoFormId w in
  m_videoFormId w' = c
  ∧ form_visible (m_videoForm w') = form_visible (m_videoForm w)
  ∧ form_calls (m_videoForm w')
    = if VideoFrameUpdated (reports c) && form_visible (m_videoForm w)
         && bool_decide (is_Some (m_streamProcessors w !! c))
      then MkFormCall (CurrentVideoFrame (reports c)) (CurrentFps (reports c))
             (OriginalFps (reports c)) (motionBoundingRect (reports c))
             (VideoWritingEnabled (reports c))
             (if default false (m_motionAreaSetupEnabled w !! c)
              then workingRegions c w else [])
           :: form_calls (m_videoForm w)
      else form_calls (m_videoForm w).
Proof.
  cbv zeta. unfold on_updateFeedsTimer.
  destruct (pollKeys_form reports (streamProcessorKeys w) w (streamProcessorKeys_NoDup w))
    as (Hi&_&Hf).
  split; [exact Hi|]. rewrite Hf.
  assert (bool_decide (m_videoFormId w ∈ streamProcessorKeys w)
          = bool_decide (is_Some (m_streamProcessors w !! m_videoFormId w))) as ->
    by (apply bool_decide_ext, streamProcessorKeys_bound).
  clear Hf. destruct (_ && _ && _); split; reflexivity.
Qed.

(** ** Entering and leaving region editing *)

Lemma clickMotionRegions_flips s w :
  Qt.checkable (motionRegionsBtn (slotUi s (ui w))) = true →
  let q := motionRegionsBtn (slotUi s (ui w)) in
  clickMotionRegions s w
  = on_motionDetectorRegionsToolButton_toggled s (negb (Qt.checked q))
      (onButton s MotionRegionsBtn
         (λ _, Qt.MkButton (Qt.enabled q) (Qt.visible q) (Qt.checkable q)
                 (negb (Qt.checked q)) (Qt.icon q) (Qt.toolTip q)) w).
Proof.
  intros Hc. cbv zeta.
  unfold clickMotionRegions, motionRegionsBtn_setChecked, Qt.setChecked.
  cbv zeta. rewrite Hc.
  assert (eqb (Qt.checked (motionRegionsBtn (slotUi s (ui w))))
            (negb (Qt.checked (motionRegionsBtn (slotUi s (ui w))))) = false) as ->
    by (by destruct (Qt.checked _)).
  reflexivity.
Qed.

Lemma toggled_buttons s enable w :
  let w' := on_motionDetectorRegionsToolButton_toggled s enable w in
  Qt.visible (removeRegionsBtn (slotUi s (ui w'))) = enable
  ∧ motionRegionsBtn (slotUi s (ui w')) = motionRegionsBtn (slotUi s (ui w))
  ∧ m_camDb w' = m_camDb w.
Proof.
  cbv zeta. unfold on_motionDetectorRegionsToolButton_toggled, EnableMotionRegionsSetup.
  cbv zeta.
  set (w1 := onButton s RemoveRegionsBtn (Qt.setVisible enable) w).
  assert (Qt.visible (removeRegionsBtn (slotUi s (ui w1))) = enable
          ∧ motionRegionsBtn (slotUi s (ui w1)) = motionRegionsBtn (slotUi s (ui w))
          ∧ m_camDb w1 = m_camDb w) as (H1&H2&H3).
  { unfold w1. rewrite onButton_slotUi. done. }
  destruct (m_camFeeds w1 !! slotCam s); [|done].
  destruct enable.
  - rewrite onButton_slotUi. rewrite <- H1, <- H2, <- H3.
    destruct (FindCamera _ _); cbn; unfold Qt.setChecked;
      destruct (negb _ || _); done.
  - done.
Qed.

(** X14.  A click on the edit-regions button of a camera with a feed enters
    region editing: the working regions are those of the stored record, the
    feed accepts a drag selection and the remove-regions button appears.  A
    second click leaves it: the working regions and the edit flag are
    dropped, the feed no longer accepts a selection and the remove-regions
    button is hidden.  Neither click changes the camera store or the
    connection state. *)
Theorem X14_edit_regions_button_enters_and_leaves_region_editing
    (s : Slot) (w : MainWindow) (feed : VideoFrame) (cfg : CameraSettings)
    (Hfeed : m_camFeeds w !! slotCam s = Some feed)
    (Hcfg : cameras (m_camDb w) !! slotCam s = Some cfg)
    (Hchk : Qt.checkable (motionRegionsBtn (slotUi s (ui w))) = true)
    (Hoff : Qt.checked (motionRegionsBtn (slotUi s (ui w))) = false) :
  let c := slotCam s in
  let editing := clickMotionRegions s w in
  let back := clickMotionRegions s editing in
  (m_motionAreaSetupEnabled editing !! c = Some true
   ∧ m_camMotionRegions editing !! c = Some (motionRegions cfg)
   ∧ m_camFeeds editing !! c = Some (SetEnableSelection true feed)
   ∧ Qt.visible (removeRegionsBtn (slotUi s (ui editing))) = true
   ∧ Qt.checked (motionRegionsBtn (slotUi s (ui editing))) = true)
  ∧ (m_motionAreaSetupEnabled back !! c = None
     ∧ m_camMotionRegions back !! c = None
     ∧ m_camFeeds back !! c = Some (SetEnableSelection false feed)
     ∧ Qt.visible (removeRegionsBtn (slotUi s (ui back))) = false
     ∧ Qt.checked (motionRegionsBtn (slotUi s (ui back))) = false)
  ∧ sameConnections w editing
  ∧ sameConnections w back.
Proof.
  cbv zeta.
  rewrite (clickMotionRegions_flips s w Hchk). cbv zeta. rewrite Hoff, Hchk. cbn [negb].
  set (w1 := onButton s MotionRegionsBtn _ w).
  set (editing := on_motionDetectorRegionsToolButton_toggled s true w1).
  assert (FindCamera (slotCam s) (m_camDb w1) = Some (MkCamera (slotCam s) cfg)) as Hfind
    by (unfold FindCamera; cbn; by rewrite Hcfg).
  destruct (EnableMotionRegionsSetup_on (slotCam s) s RemoveRegionsBtn RemoveRegionsBtn
              w1 feed _ Hfeed Hfind) as (Hr&He&Hf).
  fold (on_motionDetectorRegionsToolButton_toggled s true w1) in Hr, He, Hf.
  fold editing in Hr, He, Hf.
  destruct (toggled_buttons s true w1) as (Hv&Hm&Hdb). fold editing in Hv, Hm, Hdb.
  assert (motionRegionsBtn (slotUi s (ui w1))
          = Qt.MkButton (Qt.enabled (motionRegionsBtn (slotUi s (ui w))))
              (Qt.visible (motionRegionsBtn (slotUi s (ui w)))) true true
              (Qt.icon (motionRegionsBtn (slotUi s (ui w))))
              (Qt.toolTip (motionRegionsBtn (slotUi s (ui w))))) as Hb1.
  { unfold w1. by rewrite onButton_slotUi. }
  rewrite Hb1 in Hm.
  assert (sameConnections w editing) as Hsame.
  { eapply sameConnections_trans; [apply (onButton_same s MotionRegionsBtn)|].
    apply EnableMotionRegionsSetup_same. }
  split; [by rewrite Hm|].
  assert (Qt.checkable (motionRegionsBtn (slotUi s (ui editing))) = true) as Hchk2
    by (by rewrite Hm).
  rewrite (clickMotionRegions_flips s editing Hchk2). cbv zeta. rewrite Hm.
  cbn [Qt.checked Qt.enabled Qt.visible Qt.checkable Qt.icon Qt.toolTip negb].
  set (w2 := onButton s MotionRegionsBtn _ editing).
  set (back := on_motionDetectorRegionsToolButton_toggled s false w2).
  destruct (toggled_buttons s false w2) as (Hv2&Hm2&Hdb2). fold back in Hv2, Hm2, Hdb2.
  assert (motionRegionsBtn (slotUi s (ui w2))
          = Qt.MkButton (Qt.enabled (motionRegionsBtn (slotUi s (ui w))))
              (Qt.visible (motionRegionsBtn (slotUi s (ui w)))) true false
              (Qt.icon (motionRegionsBtn (slotUi s (ui w))))
              (Qt.toolTip (motionRegionsBtn (slotUi s (ui w))))) as Hb2.
  { unfold w2. by rewrite onButton_slotUi. }
  rewrite Hb2 in Hm2.
  assert (sameConnections editing back) as Hsame2.
  { eapply sameConnections_trans; [apply (onButton_same s MotionRegionsBtn)|].
    apply EnableMotionRegionsSetup_same. }
  split; [|split; [exact Hsame|by eapply sameConnections_trans]].
  rewrite Hv2, Hm2. cbn [Qt.checked].
  unfold back, on_motionDetectorRegionsToolButton_toggled, EnableMotionRegionsSetup.
  cbv zeta.
  change (m_camFeeds (onButton s RemoveRegionsBtn (Qt.setVisible false) w2))
    with (m_camFeeds editing).
  rewrite Hf. cbn. rewrite !lookup_delete_eq, lookup_insert_eq. done.
Qed.

Lemma X14_witness :
  let w := run [ConnectClicked slot1 Built] startWindow in
  let feed := MkFeed 1 640 360 false [] in
  let editing := clickMotionRegions slot1 w in
  let back := clickMotionRegions slot1 editing in
  (m_motionAreaSetupEnabled editing !! cam1 = Some true
   ∧ m_camMotionRegions editing !! cam1 = Some (motionRegions doorCamera)
   ∧ m_camFeeds editing !! cam1 = Some (SetEnableSelection true feed)
   ∧ Qt.visible (removeRegionsBtn (slotUi slot1 (ui editing))) = true
   ∧ Qt.checked (motionRegionsBtn (slotUi slot1 (ui editing))) = true)
  ∧ (m_motionAreaSetupEnabled back !! cam1 = None
     ∧ m_camMotionRegions back !! cam1 = None
     ∧ m_camFeeds back !! cam1 = Some (SetEnableSelection false feed)
     ∧ Qt.visible (removeRegionsBtn (slotUi slot1 (ui back))) = false
     ∧ Qt.checked (motionRegionsBtn (slotUi slot1 (ui back))) = false)
  ∧ sameConnections w editing
  ∧ sameConnections w back.
Proof.
  cbv zeta.
  apply (X14_edit_regions_button_enters_and_leaves_region_editing slot1
           (run [ConnectClicked slot1 Built] startWindow)
           (MkFeed 1 640 360 false []) doorCamera); reflexivity.
Defined.

(** ** The timer after a click that does not fail *)

(** X15.  A click on connect that finds the camera configured and does not
    meet a failing construction leaves the poll timer running exactly when
    a camera is connected afterwards, whatever the timer did before: a
    timer left stopped by a failed connect runs again after the next
    successful connect, and after a disconnect that leaves a camera
    connected. *)
Theorem X15_successful_click_sets_the_timer_right
    (s : Slot) (w : MainWindow) (camera : IpCamera)
    (Hcfg : FindCamera (slotCam s) (m_camDb w) = Some camera)
    (Hc : counterAgrees w) :
  let w' := on_connectToolButton_clicked s Built w in
  timerActive w' = bool_decide (0 < size (m_streamProcessors w'))%nat.
Proof.
  cbv zeta. pose proof (on_connect_counter s Built w Hc) as Hc'.
  unfold on_connectToolButton_clicked in *. rewrite Hcfg in *.
  pose proof (ConnectionHandler_timer camera s w Hc) as Ht.
  unfold timerAgrees in Ht. unfold counterAgrees, boundCount in Hc'.
  rewrite Ht, Hc'.
  case_bool_decide as E; [apply Z.ltb_lt|apply Z.ltb_ge]; lia.
Qed.

Lemma X15_witness :
  let w := run [ConnectClicked slot1 Built; ConnectClicked slot2 (Throws "timeout")]
             startWindow in
  let w' := on_connectToolButton_clicked slot2 Built w in
  size (m_streamProcessors w) = 1%nat
  ∧ timerActive w = false
  ∧ timerActive w' = true
  ∧ timerActive w' = bool_decide (0 < size (m_streamProcessors w'))%nat.
Proof.
  cbv zeta. split; [reflexivity|]. split; [reflexivity|]. split; [reflexivity|].
  apply (X15_successful_click_sets_the_timer_right slot2
           (run [ConnectClicked slot1 Built; ConnectClicked slot2 (Throws "timeout")]
              startWindow) (MkCamera cam2 yardCamera)); reflexivity.
Defined.

(** ** The expanded form shows a connected camera *)

Lemma keepsForm_refl w : keepsForm w w.
Proof. by repeat split. Qed.

Lemma keepsForm_trans w1 w2 w3 : keepsForm w1 w2 → keepsForm w2 w3 → keepsForm w1 w3.
Proof. intros (A1&A2&A3) (B1&B2&B3). repeat split; congruence. Qed.

Lemma sameConnections_keepsForm w w' : sameConnections w w' → keepsForm w w'.
Proof. intros (E1&_&_&_&_&E2&E3&_). repeat split; congruence. Qed.

Lemma keepsForm_shows w w' : keepsForm w w' → formShowsBound w → formShowsBound w'.
Proof. intros (E1&E2&E3) H. unfold formShowsBound. rewrite E1, E2, E3. exact H. Qed.

Lemma on_connect_formShowsBound s o w :
  formShowsBound w → formShowsBound (on_connectToolButton_clicked s o w).
Proof.
  intros H. unfold on_connectToolButton_clicked.
  destruct (FindCamera _ _) as [camera|]; [|done].
  rewrite ConnectionHandler_unfold.
  destruct (stopTimer_fields w) as (Hp&_&_&_&Hf&Hi&_).
  unfold formShowsBound in *.
  case_bool_decide as Hb.
  - destruct (disconnect_fields camera s (stopTimer w)) as (->&_&_&_&_&->&->&_).
    unfold closeFormOf. rewrite Hf, Hi, Hp.
    destruct (form_visible (m_videoForm w)) eqn:Hv; cbn [andb];
      [|by rewrite Hf, Hv].
    case_bool_decide as Hid; cbn; [done|].
    rewrite ?Hf, ?Hi, ?Hp. intros _. rewrite lookup_delete_ne by done. by apply H.
  - destruct (connect_videoForm camera s o (stopTimer w)) as [-> ->].
    rewrite Hf, Hi. intros Hv. specialize (H Hv). destruct o.
    + rewrite connect_built_streamProcessors, Hp. by apply lookup_insert_is_Some'; right.
    + rewrite connect_throws. cbn. by rewrite Hp.
Qed.

Lemma ReconnectCamera_formShowsBound c o1 o2 w :
  formShowsBound w → formShowsBound (ReconnectCamera c o1 o2 w).
Proof.
  intros H. unfold ReconnectCamera. destruct (camSlot c); [|done].
  eapply keepsForm_shows;
    [apply sameConnections_keepsForm, EnableMotionRegionsSetup_same|].
  by do 2 apply on_connect_formShowsBound.
Qed.

Lemma pollKeys_keepsForm reports l w : NoDup l → keepsForm w (pollKeys reports l w).
Proof.
  intros Hnd. destruct (pollKeys_form reports l w Hnd) as (Hi&_&Hf).
  destruct (poll_keys_connection reports l w) as (Hp&_).
  split; [exact Hp|]. split; [|exact Hi]. rewrite Hf. by destruct (_ && _ && _).
Qed.

Lemma handle_formShowsBound e w :
  affordancesAgree w → formShowsBound w → formShowsBound (handle e w).
Proof.
  intros Ha H.
  destruct e as [s o|s|s a o1 o2|n sel o1 o2|s|reports]; unfold handle.
  - destruct (clickable _ _ _); [|done]. by apply on_connect_formShowsBound.
  - destruct (clickable _ _ _); [|done].
    eapply keepsForm_shows;
      [apply sameConnections_keepsForm, motionRegionsBtn_setChecked_same|done].
  - destruct (clickable _ _ _); [|done]. unfold RemoveMotionRegions.
    destruct (FindCamera _ _); [|done]. destruct a; [|done].
    apply ReconnectCamera_formShowsBound.
    eapply keepsForm_shows; [|exact H]. by repeat split.
  - destruct (selectable _ _); [|done]. unfold VideoFrameAreaSelection.
    destruct (match n with 1 => _ | _ => _ end) as [c|]; [|done]. cbv zeta.
    destruct (FindCamera c _); [|done].
    apply ReconnectCamera_formShowsBound.
    eapply keepsForm_shows; [|exact H]. by repeat split.
  - destruct (clickable _ _ _) eqn:Hc; [|done].
    unfold formShowsBound, ShowExpandedVideoForm. cbn. intros _.
    unfold clickable in Hc. apply andb_prop in Hc as [Hen _].
    specialize (Ha s). unfold affordancesAgreeAt in Ha.
    pose proof (f_equal canExpand Ha) as He. cbn [affordances canExpand] in He.
    cbn [button] in Hen. rewrite Hen in He.
    destruct (m_streamProcessors w !! slotCam s); [by eexists|done].
  - destruct (timerActive w); [|done].
    eapply keepsForm_shows; [|exact H].
    apply pollKeys_keepsForm, streamProcessorKeys_NoDup.
Qed.

Lemma clickConnectOfAll_formShowsBound os cs : ∀ w,
  formShowsBound w → formShowsBound (clickConnectOfAll os cs w).
Proof.
  induction cs as [|c cs IH]; intros w H; [done|].
  rewrite clickConnectOfAll_cons. apply IH. unfold clickConnectOf.
  destruct (camSlot c); [by apply on_connect_formShowsBound|done].
Qed.

Lemma recreateFeed_keepsForm s w : keepsForm w (recreateFeed s w).
Proof. unfold recreateFeed. cbv zeta. by case_bool_decide. Qed.

Lemma checkStartupConnection_formShowsBound onStartup o s w :
  formShowsBound w → formShowsBound (checkStartupConnection onStartup o s w).
Proof.
  intros H. unfold checkStartupConnection. cbv zeta.
  set (w1 := onButton s ConnectBtn _ w).
  assert (formShowsBound w1) as H1 by done.
  destruct (_ && _); [by apply on_connect_formShowsBound|done].
Qed.

Lemma perform_formShowsBound a w :
  affordancesAgree w → formShowsBound w → formShowsBound (perform a w).
Proof.
  intros Ha H.
  destruct a as [e|s d o1 o2|s writing|sizes|d o1 o2|onStartup o|]; unfold perform.
  - by apply handle_formShowsBound.
  - unfold on_settingsToolButton_clicked. cbv zeta.
    set (reconnect := DoesCameraExist _ _ && _).
    set (w1 := if reconnect then on_connectToolButton_clicked s o1 w else w).
    assert (formShowsBound w1) as H1
      by (subst w1; destruct reconnect; [by apply on_connect_formShowsBound|done]).
    assert (formShowsBound (SetupCameraInDb (slotCam s) s d w1)) as H2.
    { eapply keepsForm_shows; [|exact H1]. by destruct d as [|camera [|]]. }
    destruct (Qt.enabled _ && reconnect); [by apply on_connect_formShowsBound|done].
  - destruct (clickable _ _ _); [|done].
    unfold on_recordToolButton_clicked, RecordActionHandler.
    destruct (m_streamProcessors w !! slotCam s); [|done]. by destruct writing.
  - unfold resizeEvent. cbv zeta.
    eapply keepsForm_shows; [|exact H].
    repeat (eapply keepsForm_trans; [|apply recreateFeed_keepsForm]).
    by repeat split.
  - unfold on_actionPreferences_triggered. destruct d as [|prefs]; [done|]. cbv zeta.
    by do 2 apply clickConnectOfAll_formShowsBound.
  - unfold CheckStartupConnections. cbv zeta.
    by do 4 apply checkStartupConnection_formShowsBound.
  - unfold closeEvent, formShowsBound in *.
    destruct (form_visible (m_videoForm w)) eqn:E; cbn; [done|]. by rewrite E.
Qed.

(** X16.  While the buttons show the connection state, every handler keeps
    the expanded form on a connected camera: whenever the form is visible,
    the camera it shows has a stream processor.  The expand button is only
    enabled for a connected camera, and disconnecting the camera the form
    shows closes the form. *)
Theorem X16_expanded_form_shows_a_connected_camera
    (acts : list Action) (w : MainWindow)
    (Ha : affordancesAgree w) (Hf : formShowsBound w) :
  let w' := performAll acts w in
  form_visible (m_videoForm w') = true
  → is_Some (m_streamProcessors w' !! m_videoFormId w').
Proof.
  cbv zeta. revert w Ha Hf. induction acts as [|a acts IH]; intros w Ha Hf; [exact Hf|].
  apply (IH (perform a w)); [by apply perform_affordancesAgree|].
  by apply perform_formShowsBound.
Qed.

Lemma X16_witness :
  let w' := performAll [Started true (λ _, Built);
                        Basic (ExpandClicked slot2);
                        Basic (ConnectClicked slot1 Built);
                        Resized (λ _, Qt.MkSize 320 180)] startWindow in
  form_visible (m_videoForm w') = true
  ∧ m_videoFormId w' = cam2
  ∧ (form_visible (m_videoForm w') = true
     → is_Some (m_streamProcessors w' !! m_videoFormId w')).
Proof.
  cbv zeta. split; [reflexivity|]. split; [reflexivity|].
  apply (X16_expanded_form_shows_a_connected_camera
           [Started true (λ _, Built);
            Basic (ExpandClicked slot2);
            Basic (ConnectClicked slot1 Built);
            Resized (λ _, Qt.MkSize 320 180)] startWindow).
  - apply initialWindow_affordancesAgree.
  - discriminate.
Defined.

